(** * Graylog provider: webhook provisioning and alert normalisation

    A shallow embedding of [keep/providers/graylog_provider/graylog_provider.py]
    and the properties its specification states about it.

    Layout: Python-level values and exceptions; string helpers; the
    canonical alert and the event mapping; the backend reached over HTTP
    (its store, its answers, a trace of the requests it received) and the
    state-and-exception monad the provider's methods run in; the methods
    themselves; then the theorems. *)

From Stdlib Require Import String Ascii List ZArith Lia Bool Arith PeanoNat.
From Stdlib Require Import DecimalString.
Import ListNotations.
Open Scope string_scope.
Open Scope list_scope.

Set Implicit Arguments.
Set Warnings "-register-all".

(* ------------------------------------------------------------------ *)
(** ** Python values, exceptions, results *)

(** The JSON-shaped values the provider handles: what [response.json()]
    yields and what callers pass as parameter mappings.  A [dict] keeps its
    insertion order, hence the association list. *)
Inductive value : Type :=
| VNone
| VBool (b : bool)
| VInt (z : Z)
| VStr (s : string)
| VList (l : list value)
| VDict (d : list (string * value)).

(** The exceptions the modelled code can raise. [HTTPFailure] is the plain
    [Exception(response.text)] the methods raise on an unexpected status;
    [ConnectionFailure] is a transport error raised by [requests] itself. *)
Inductive exn : Type :=
| KeyError (k : string)
| IndexError
| TypeError
| ValueError
| AttributeError
| StopIteration
| HTTPFailure (text : string)
| ConnectionFailure.

Inductive result (A : Type) : Type :=
| Ok (a : A)
| Raise (e : exn).
Arguments Ok {A} a.
Arguments Raise {A} e.

Definition rbind {A B} (r : result A) (f : A -> result B) : result B :=
  match r with
  | Ok a => f a
  | Raise e => Raise e
  end.

Declare Scope result_scope.
Delimit Scope result_scope with result.
Notation "'let?' x ':=' r 'in' k" := (rbind r (fun x => k))
  (at level 10, x name, r at level 100, k at level 200) : result_scope.

(** [[f(x) for x in l]] with a fallible [f]: the first failure propagates. *)
Fixpoint mapR {A B} (f : A -> result B) (l : list A) : result (list B) :=
  match l with
  | [] => Ok []
  | x :: l' =>
      match f x with
      | Ok y =>
          match mapR f l' with
          | Ok ys => Ok (y :: ys)
          | Raise e => Raise e
          end
      | Raise e => Raise e
      end
  end.

(** Truth value of an object, as tested by [if x:] and [x or y]. *)
Definition truthy (v : value) : bool :=
  match v with
  | VNone => false
  | VBool b => b
  | VInt z => negb (z =? 0)%Z
  | VStr s => negb (s =? "")
  | VList l => match l with [] => false | _ => true end
  | VDict d => match d with [] => false | _ => true end
  end.

(** [x or y] *)
Definition py_or (x y : value) : value := if truthy x then x else y.

Fixpoint assoc (k : string) (d : list (string * value)) : option value :=
  match d with
  | [] => None
  | (k', v) :: d' => if k' =? k then Some v else assoc k d'
  end.

(** [d[k] = v] on a dict: the key keeps its position when present. *)
Fixpoint dict_set (k : string) (v : value) (d : list (string * value))
  : list (string * value) :=
  match d with
  | [] => [(k, v)]
  | (k', v') :: d' =>
      if k' =? k then (k, v) :: d' else (k', v') :: dict_set k v d'
  end.

(** [d.get(k, default)] on a dict. *)
Definition dget (d : list (string * value)) (k : string) (default : value)
  : value :=
  match assoc k d with
  | Some v => v
  | None => default
  end.

(** [v[k]] with a string key. *)
Definition getitem (v : value) (k : string) : result value :=
  match v with
  | VDict d =>
      match assoc k d with
      | Some x => Ok x
      | None => Raise (KeyError k)
      end
  | _ => Raise TypeError
  end.

(** [v.get(k, default)]: only a dict has the method. *)
Definition get (v : value) (k : string) (default : value) : result value :=
  match v with
  | VDict d => Ok (dget d k default)
  | _ => Raise AttributeError
  end.

(** [l[i]] on a list, with Python's negative indices counted from the end. *)
Definition py_index {A} (l : list A) (i : Z) : result A :=
  let n := Z.of_nat (List.length l) in
  let j := if (i <? 0)%Z then (i + n)%Z else i in
  if ((0 <=? j) && (j <? n))%Z then
    match nth_error l (Z.to_nat j) with
    | Some x => Ok x
    | None => Raise IndexError
    end
  else Raise IndexError.

(** [range(a, b)] *)
Definition range (a b : Z) : list Z :=
  map (fun i => (a + Z.of_nat i)%Z) (seq 0 (Z.to_nat (b - a))).

(** [math.ceil(t / d)] for integers [t] and a positive [d].  The source
    divides in floating point; the quotient is exact for the counts a
    backend reports (below 2^53). *)
Definition ceil_div (t d : Z) : Z := (- ((- t) / d))%Z.

(* ------------------------------------------------------------------ *)
(** ** Strings *)

(** [s.startswith(p)] *)
Definition startswith (s p : string) : bool := String.prefix p s.

(** Does [sep] occur somewhere in [s]? *)
Fixpoint occurs (sep s : string) : bool :=
  String.prefix sep s ||
  match s with
  | EmptyString => false
  | String _ s' => occurs sep s'
  end.

(** [s.split(sep)] for a non-empty [sep]: a left-to-right scan. [skip] counts
    the characters of a separator just matched that are still to be passed
    over, [cur] is the piece being accumulated. *)
Fixpoint split_scan (sep : string) (skip : nat) (cur s : string)
  : list string :=
  match s with
  | EmptyString => [cur]
  | String c s' =>
      match skip with
      | S k => split_scan sep k cur s'
      | O =>
          if String.prefix sep s
          then cur :: split_scan sep (String.length sep - 1) "" s'
          else split_scan sep 0 (cur ++ String c "") s'
      end
  end.

Definition str_split (s sep : string) : list string :=
  split_scan sep 0 "" s.

(** [sep.join(l)] *)
Fixpoint str_join (sep : string) (l : list string) : string :=
  match l with
  | [] => ""
  | [x] => x
  | x :: l' => x ++ sep ++ str_join sep l'
  end.

(** [s.replace(old, new)] for a non-empty [old]. *)
Definition str_replace (s old new : string) : string :=
  str_join new (str_split s old).

(** [l[-1]] on a list of strings known to be non-empty. *)
Definition last_piece (l : list string) : string := List.last l "".

Fixpoint rev_string (acc s : string) : string :=
  match s with
  | EmptyString => acc
  | String c s' => rev_string (String c acc) s'
  end.

Fixpoint lstrip_chars (chars : list ascii) (s : string) : string :=
  match s with
  | EmptyString => ""
  | String c s' =>
      if existsb (Ascii.eqb c) chars then lstrip_chars chars s' else s
  end.

(** [s.rstrip(chars)] *)
Definition rstrip_chars (chars : list ascii) (s : string) : string :=
  rev_string "" (lstrip_chars chars (rev_string "" s)).

(** The ASCII characters [str.rstrip()] removes when given no argument. *)
Definition whitespace : list ascii :=
  [" "%char; ascii_of_nat 9; ascii_of_nat 10; ascii_of_nat 11;
   ascii_of_nat 12; ascii_of_nat 13; ascii_of_nat 28; ascii_of_nat 29;
   ascii_of_nat 30; ascii_of_nat 31].

(** Text before the first occurrence of the character [c] (all of [s] when
    [c] is absent) and text after it (empty when absent). *)
Fixpoint before_char (c : ascii) (s : string) : string :=
  match s with
  | EmptyString => ""
  | String a s' => if Ascii.eqb a c then "" else String a (before_char c s')
  end.

Fixpoint after_char (c : ascii) (s : string) : string :=
  match s with
  | EmptyString => ""
  | String a s' => if Ascii.eqb a c then s' else after_char c s'
  end.

(** [urlparse(url).query]: the standard library first cuts the fragment at
    the first ['#'], then takes what follows the first ['?'] of the rest.
    (Its removal of control characters from the URL is not modelled.) *)
Definition url_query (url : string) : string :=
  after_char "?"%char (before_char "#"%char url).

(** [int(s)] on a string: an optional sign and decimal digits.  (The
    surrounding blanks and the digit-group underscores Python also accepts
    are not modelled: such text is a [ValueError] here.) *)
Definition digit_of (c : ascii) : option Z :=
  let n := nat_of_ascii c in
  if (48 <=? n)%nat && (n <=? 57)%nat then Some (Z.of_nat (n - 48)) else None.

Fixpoint digits_value (acc : Z) (s : string) : option Z :=
  match s with
  | EmptyString => Some acc
  | String c s' =>
      match digit_of c with
      | Some d => digits_value (10 * acc + d)%Z s'
      | None => None
      end
  end.

Definition int_of_string (s : string) : option Z :=
  match s with
  | EmptyString => None
  | String c s' =>
      if Ascii.eqb c "-" then
        match s' with
        | EmptyString => None
        | _ => option_map Z.opp (digits_value 0 s')
        end
      else if Ascii.eqb c "+" then
        match s' with
        | EmptyString => None
        | _ => digits_value 0 s'
        end
      else digits_value 0 s
  end.

(** [int(v)] *)
Definition py_int (v : value) : result Z :=
  match v with
  | VInt z => Ok z
  | VBool b => Ok (if b then 1 else 0)%Z
  | VStr s =>
      match int_of_string s with
      | Some z => Ok z
      | None => Raise ValueError
      end
  | _ => Raise TypeError
  end.

(** [v.replace(old, new)]: a method of strings only. *)
Definition value_replace (v : value) (old new : string) : result string :=
  match v with
  | VStr s => Ok (str_replace s old new)
  | _ => Raise AttributeError
  end.

(* ------------------------------------------------------------------ *)
(** ** The canonical alert *)

(** Modelled from the spec: [AlertSeverity], [AlertStatus] and [AlertDto]
    live in [keep/api/models/alert.py], which is not among the sources.  The
    specification's data model gives the canonical alert its fields; the
    severities are the three the provider produces and the status is the one
    it assigns.  Construction is plain record construction. *)
Inductive AlertSeverity : Type := LOW | WARNING | HIGH.

Inductive AlertStatus : Type := FIRING.

Module AlertDto.

Record t : Type := mk {
  id : value;
  name : value;
  severity : AlertSeverity;
  description : value;
  event_definition_id : value;
  origin_context : value;
  status : AlertStatus;
  lastReceived : string;
  message : value;
  source : list string;
  fingerprint : string
}.

(** [alert.fingerprint = fp] *)
Definition set_fingerprint (a : t) (fp : string) : t :=
  mk (id a) (name a) (severity a) (description a) (event_definition_id a)
     (origin_context a) (status a) (lastReceived a) (message a) (source a)
     fp.

(** The value an alert holds under a field name, for the fields that carry
    the payload's own values ([None] for any other name). *)
Definition field (a : t) (k : string) : value :=
  if k =? "id" then id a
  else if k =? "name" then name a
  else if k =? "description" then description a
  else if k =? "event_definition_id" then event_definition_id a
  else if k =? "origin_context" then origin_context a
  else if k =? "lastReceived" then VStr (lastReceived a)
  else if k =? "message" then message a
  else VNone.

End AlertDto.

(** The class attribute [FINGERPRINT_FIELDS]. *)
Definition FINGERPRINT_FIELDS : list string := ["id"].

Section Mapping.

(** [datetime.fromisoformat(s).replace(tzinfo=timezone.utc).isoformat()]:
    the standard library's parser and printer, a [ValueError] on text that
    is not an ISO 8601 timestamp. *)
Variable utc_isoformat : string -> result string.

(** The digest applied to the values of the fingerprint fields. *)
Variable digest : list value -> string.

(** Modelled from the spec: [BaseProvider.get_alert_fingerprint] is
    inherited from [keep/providers/base/base_provider.py], which is not
    among the sources.  The specification makes the fingerprint "a stable
    hash/identity function over the configured fingerprint field set":
    the digest of the alert's values under the given field names. *)
Definition get_alert_fingerprint (alert : AlertDto.t)
    (fingerprint_fields : list string) : string :=
  digest (map (AlertDto.field alert) fingerprint_fields).

(** [GraylogProvider.__map_event_to_alert], lines 664-689.  The keyword
    arguments of the [AlertDto] call are evaluated in the order written;
    the default handed to [event.get] for the name is evaluated before the
    call, so a payload without [event.message] fails even when it carries
    a definition title. *)
Definition __map_event_to_alert (event : value) : result AlertDto.t :=
  (let? id := (let? e := getitem event "event" in getitem e "id") in
   let? default_name :=
     (let? e := getitem event "event" in getitem e "message") in
   let? name := get event "event_definition_title" default_name in
   let? priority :=
     (let? e := getitem event "event" in getitem e "priority") in
   let? p := py_int priority in
   let? severity := py_index [LOW; WARNING; HIGH] (p - 1) in
   let? description := get event "event_definition_description" VNone in
   let? event_definition_id :=
     (let? e := getitem event "event" in getitem e "event_definition_id") in
   let? origin_context :=
     (let? e := getitem event "event" in get e "origin_context" VNone) in
   let? timestamp :=
     (let? e := getitem event "event" in getitem e "timestamp") in
   let? stripped := value_replace timestamp "z" "" in
   let? lastReceived := utc_isoformat stripped in
   let? message :=
     (let? e := getitem event "event" in get e "message" VNone) in
   let alert :=
     AlertDto.mk id name severity description event_definition_id
                 origin_context FIRING lastReceived message ["graylog"] ""
   in
   Ok (AlertDto.set_fingerprint alert
         (get_alert_fingerprint alert FINGERPRINT_FIELDS)))%result.

(** [GraylogProvider._format_alert] *)
Definition _format_alert (event : value) : result AlertDto.t :=
  __map_event_to_alert event.

End Mapping.

(* ------------------------------------------------------------------ *)
(** ** The backend and the wire *)

(** Identifiers issued by the backend.  The provider only stores them,
    compares them and places them in paths, so the model numbers them. *)
Definition ident : Type := nat.

Record NotificationRef : Type := { notification_id : ident }.

Module EventDefinition.

(** An event definition as the provider reads and writes it: the three
    keys it touches, and the remaining keys carried along unchanged.
    [_scope] is absent on backends that do not report it. *)
Record t : Type := mk {
  id : ident;
  _scope : option string;
  notifications : list NotificationRef;
  other : list (string * value)
}.

Definition set_notifications (l : list NotificationRef) (e : t) : t :=
  mk (id e) (_scope e) l (other e).

End EventDefinition.

Module WhitelistEntry.

Record t : Type := mk {
  id : string;
  title : string;
  value : string;
  type : string
}.

End WhitelistEntry.

Record UrlWhitelist : Type := {
  entries : list WhitelistEntry.t;
  disabled : bool
}.

(** The [config] of a notification, in its two version-specific shapes. *)
Inductive NotificationConfig : Type :=
| http_notification_v1 (url : string)
| http_notification_v2
    (basic_auth : option string) (api_key_as_header : bool)
    (api_key : string) (api_secret : option string) (url : string)
    (skip_tls_verification : bool)
    (method time_zone content_type headers body_template : string).

(** The body of a create or update call. *)
Record NotificationBody : Type := {
  nb_title : string;
  nb_description : string;
  nb_config : NotificationConfig
}.

Module Notification.

Record t : Type := mk {
  id : ident;
  title : string;
  description : string;
  config : NotificationConfig
}.

End Notification.

(** The calls the provider makes on the backend's API, one constructor per
    method and path of the specification's interface table. *)
Inductive api_call : Type :=
| GetRoot
| PostViewsSearchSync (search_body : value)
| GetEventDefinitions (page per_page : Z)
| PutEventDefinition (id : ident) (event : EventDefinition.t)
| GetUrlWhitelist
| PutUrlWhitelist (whitelist : UrlWhitelist)
| GetNotifications (page per_page : Z) (query : string)
| DeleteNotification (id : ident)
| PostNotification (notification_body : NotificationBody)
| PutNotification (id : ident) (notification_body : NotificationBody)
| PostEventsSearch (json_data : value).

Record Request : Type := { req_url : string; req_call : api_call }.

(** Decoded response bodies. *)
Inductive body : Type :=
| BEmpty
| BJson (v : value)
| BEventDefinitions (event_definitions : list EventDefinition.t) (total : Z)
| BEventDefinition (event : EventDefinition.t)
| BUrlWhitelist (whitelist : UrlWhitelist)
| BNotifications (count : Z) (notifications : list Notification.t)
| BNotification (n : Notification.t)
| BEvents (events : list value) (total_events : Z).

Record Response : Type := {
  status_code : Z;
  text : string;
  content : body
}.

(** What can go wrong with one request before the backend handles it. *)
Inductive fault : Type :=
| NoFault
| ServerError      (* answered with status 500 *)
| Unreachable.     (* [requests] raises *)

(** What happens to the scheme probe [requests.get("https://" + host)]. *)
Inductive probe_outcome : Type :=
| ProbeAnswered
| ProbeSSLError
| ProbeFailed.

Inductive log_level : Type := LogWarning | LogError.

(** Everything the provider's methods read or change: the instance's one
    mutable field and its logger's warning and error records; the network
    (scheme probe, faults by request number, the probes sent and the API
    requests issued, oldest first); the backend's store. *)
Record World : Type := mkWorld {
  _host : option string;
  logged : list (log_level * string);
  https_probe : probe_outcome;
  probes : list string;
  faults : nat -> fault;
  requests : list Request;
  version_info : value;
  event_definitions : list EventDefinition.t;
  url_whitelist : UrlWhitelist;
  notifications : list Notification.t;
  next_id : ident;
  events_search : value -> list value * Z;
  views_search : value -> value
}.

Definition set_host (h : option string) (w : World) : World :=
  mkWorld h (logged w) (https_probe w) (probes w) (faults w) (requests w)
    (version_info w) (event_definitions w) (url_whitelist w)
    (notifications w) (next_id w) (events_search w) (views_search w).

Definition set_logged (l : list (log_level * string)) (w : World) : World :=
  mkWorld (_host w) l (https_probe w) (probes w) (faults w) (requests w)
    (version_info w) (event_definitions w) (url_whitelist w)
    (notifications w) (next_id w) (events_search w) (views_search w).

Definition set_probes (p : list string) (w : World) : World :=
  mkWorld (_host w) (logged w) (https_probe w) p (faults w) (requests w)
    (version_info w) (event_definitions w) (url_whitelist w)
    (notifications w) (next_id w) (events_search w) (views_search w).

Definition set_requests (r : list Request) (w : World) : World :=
  mkWorld (_host w) (logged w) (https_probe w) (probes w) (faults w) r
    (version_info w) (event_definitions w) (url_whitelist w)
    (notifications w) (next_id w) (events_search w) (views_search w).

Definition set_event_definitions (l : list EventDefinition.t) (w : World)
  : World :=
  mkWorld (_host w) (logged w) (https_probe w) (probes w) (faults w)
    (requests w) (version_info w) l (url_whitelist w)
    (notifications w) (next_id w) (events_search w) (views_search w).

Definition set_url_whitelist (u : UrlWhitelist) (w : World) : World :=
  mkWorld (_host w) (logged w) (https_probe w) (probes w) (faults w)
    (requests w) (version_info w) (event_definitions w) u
    (notifications w) (next_id w) (events_search w) (views_search w).

Definition set_notifications (l : list Notification.t) (w : World) : World :=
  mkWorld (_host w) (logged w) (https_probe w) (probes w) (faults w)
    (requests w) (version_info w) (event_definitions w) (url_whitelist w)
    l (next_id w) (events_search w) (views_search w).

Definition set_next_id (n : ident) (w : World) : World :=
  mkWorld (_host w) (logged w) (https_probe w) (probes w) (faults w)
    (requests w) (version_info w) (event_definitions w) (url_whitelist w)
    (notifications w) n (events_search w) (views_search w).

Definition respond (status : Z) (b : body) : Response :=
  {| status_code := status; text := ""; content := b |}.

(** The items of page [page] (counted from 1) at [per_page] items a page. *)
Definition page_slice {A} (page per_page : Z) (l : list A) : list A :=
  firstn (Z.to_nat per_page)
         (skipn (Z.to_nat ((page - 1) * per_page)) l).

Definition title_matches (query : string) (n : Notification.t) : bool :=
  query =? "title:" ++ Notification.title n.

Definition has_notification (i : ident) (l : list Notification.t) : bool :=
  existsb (fun n => Notification.id n =? i)%nat l.

Definition has_definition (i : ident) (l : list EventDefinition.t) : bool :=
  existsb (fun d => EventDefinition.id d =? i)%nat l.

(** The backend's answer to a call that reached it, after the interface
    table of the specification and its description of provisioning: paged
    listings report the total; a title query selects the notifications with
    exactly that title and [count] is the number returned on the page;
    creation issues the next unused identifier; updates replace the whole
    resource; deleting a notification leaves the event definitions that
    refer to it untouched (the cleanup the provider performs itself, lines
    646-650 of the source). *)
Definition serve (c : api_call) (w : World) : Response * World :=
  match c with
  | GetRoot => (respond 200 (BJson (version_info w)), w)
  | PostViewsSearchSync search_body =>
      (respond 200 (BJson (views_search w search_body)), w)
  | GetEventDefinitions page per_page =>
      (respond 200
         (BEventDefinitions
            (page_slice page per_page (event_definitions w))
            (Z.of_nat (List.length (event_definitions w)))), w)
  | PutEventDefinition i event =>
      if has_definition i (event_definitions w) then
        (respond 200 (BEventDefinition event),
         set_event_definitions
           (map (fun d => if (EventDefinition.id d =? i)%nat then event else d)
                (event_definitions w)) w)
      else (respond 404 BEmpty, w)
  | GetUrlWhitelist => (respond 200 (BUrlWhitelist (url_whitelist w)), w)
  | PutUrlWhitelist whitelist =>
      (respond 204 BEmpty, set_url_whitelist whitelist w)
  | GetNotifications page per_page query =>
      let found :=
        page_slice page per_page
          (filter (title_matches query) (notifications w)) in
      (respond 200 (BNotifications (Z.of_nat (List.length found)) found), w)
  | DeleteNotification i =>
      if has_notification i (notifications w) then
        (respond 204 BEmpty,
         set_notifications
           (filter (fun n => negb (Notification.id n =? i)%nat)
                   (notifications w)) w)
      else (respond 404 BEmpty, w)
  | PostNotification nb =>
      let n := Notification.mk (next_id w) (nb_title nb) (nb_description nb)
                               (nb_config nb) in
      (respond 200 (BNotification n),
       set_next_id (S (next_id w))
         (set_notifications (notifications w ++ [n]) w))
  | PutNotification i nb =>
      if has_notification i (notifications w) then
        let n := Notification.mk i (nb_title nb) (nb_description nb)
                                 (nb_config nb) in
        (respond 200 (BNotification n),
         set_notifications
           (map (fun m => if (Notification.id m =? i)%nat then n else m)
                (notifications w)) w)
      else (respond 404 BEmpty, w)
  | PostEventsSearch json_data =>
      let '(events, total_events) := events_search w json_data in
      (respond 200 (BEvents events total_events), w)
  end.

(* ------------------------------------------------------------------ *)
(** ** The monad of the provider's methods *)

(** A method runs on a world, changes it, and returns or raises; what it
    changed before raising stays changed. *)
Definition M (A : Type) : Type := World -> result A * World.

Definition ret {A} (a : A) : M A := fun w => (Ok a, w).

Definition raise {A} (e : exn) : M A := fun w => (Raise e, w).

Definition lift {A} (r : result A) : M A := fun w => (r, w).

Definition bind {A B} (m : M A) (f : A -> M B) : M B :=
  fun w =>
    match m w with
    | (Ok a, w') => f a w'
    | (Raise e, w') => (Raise e, w')
    end.

Declare Scope prov_scope.
Delimit Scope prov_scope with prov.
Notation "x <- m ;; k" := (bind m (fun x => k))
  (at level 61, m at next level, right associativity) : prov_scope.
Notation "m ;;; k" := (bind m (fun _ => k))
  (at level 61, right associativity) : prov_scope.

Definition log (lvl : log_level) (msg : string) : M unit :=
  fun w => (Ok tt, set_logged (logged w ++ [(lvl, msg)]) w).

(** [try: m / except Exception as e: handler(e)] *)
Definition try_except {A} (m : M A) (handler : exn -> M A) : M A :=
  fun w =>
    match m w with
    | (Ok a, w') => (Ok a, w')
    | (Raise e, w') => handler e w'
    end.

(** [try: m / except Exception as e: self.logger.error(msg); raise e] *)
Definition reraising {A} (msg : string) (m : M A) : M A :=
  try_except m (fun e => bind (log LogError msg) (fun _ => raise e)).

(** [for x in l: body(x)] *)
Fixpoint for_each {A} (l : list A) (body : A -> M unit) : M unit :=
  match l with
  | [] => ret tt
  | x :: l' => bind (body x) (fun _ => for_each l' body)
  end.

(** A loop that threads a local variable [s] through its iterations. *)
Fixpoint for_fold {A S} (l : list A) (s : S) (body : S -> A -> M S) : M S :=
  match l with
  | [] => ret s
  | x :: l' => bind (body s x) (fun s' => for_fold l' s' body)
  end.

(** One API request: it is recorded as issued, then lost, refused or
    served according to the fault planned for its number. *)
Definition send (url : string) (c : api_call) : M Response :=
  fun w =>
    let n := List.length (requests w) in
    let w1 := set_requests (requests w ++ [Build_Request url c]) w in
    match faults w n with
    | Unreachable => (Raise ConnectionFailure, w1)
    | ServerError => (Ok (respond 500 BEmpty), w1)
    | NoFault => let '(r, w2) := serve c w1 in (Ok r, w2)
    end.

(** [response.json()] *)
Definition json (r : Response) : result body :=
  match content r with
  | BEmpty => Raise ValueError
  | b => Ok b
  end.

(** [response.raise_for_status()] *)
Definition raise_for_status (r : Response) : M unit :=
  if ((400 <=? status_code r) && (status_code r <? 600))%Z
  then raise (HTTPFailure (text r))
  else ret tt.

(* ------------------------------------------------------------------ *)
(** ** The provider *)

Record GraylogProviderAuthConfig : Type := {
  graylog_user_name : string;
  graylog_access_token : string;
  deployment_url : string;
  verify : bool
}.

(** [urljoin(base, rel)] for the references the provider passes: a base
    ending in ["/api/"] and path segments joined by slashes, free of scheme,
    leading slash and dot segments.  The reference is then appended. *)
Definition urljoin (base rel : string) : string := base ++ rel.

(** [str(i)] for an identifier placed in a path. *)
Definition ident_str (i : ident) : string :=
  NilEmpty.string_of_uint (Nat.to_uint i).

(** [if self._host:] *)
Definition host_cached (h : option string) : bool :=
  match h with
  | Some s => negb (s =? "")
  | None => false
  end.

(** [offset = page * per_page] on numbers ([bool] included); any other
    operand makes the product or the comparison that follows it fail. *)
Definition as_number (v : value) : result Z :=
  match v with
  | VInt z => Ok z
  | VBool b => Ok (if b then 1 else 0)%Z
  | _ => Raise TypeError
  end.

(** What [_query] returns: raw messages from [search], alerts otherwise. *)
Inductive query_result : Type :=
| Messages (messages : value)
| Alerts (alerts : list AlertDto.t).

Section Provider.

Variable authentication_config : GraylogProviderAuthConfig.

Local Open Scope prov_scope.
Local Open Scope string_scope.

(** The property [graylog_host], lines 237-272. *)
Definition graylog_host : M string :=
  fun w =>
    if host_cached (_host w) then
      (Ok (match _host w with Some h => h | None => "" end), w)
    else
      let url := deployment_url authentication_config in
      if startswith url "http://" || startswith url "https://" then
        (Ok url, set_host (Some url) w)
      else
        let w1 := set_probes (probes w ++ ["https://" ++ url]) w in
        match https_probe w with
        | ProbeAnswered =>
            (Ok ("https://" ++ url), set_host (Some ("https://" ++ url)) w1)
        | ProbeSSLError =>
            (Ok ("http://" ++ url),
             set_host (Some ("http://" ++ url))
               (set_logged
                  (logged w1 ++
                   [(LogWarning,
                     "SSL error encountered, falling back to HTTP")]) w1))
        | ProbeFailed =>
            let h := rstrip_chars ["/"%char] url in
            (Ok h,
             set_host (Some h)
               (set_logged
                  (logged w1 ++
                   [(LogError, "Failed to determine Graylog host")]) w1))
        end.

(** [__get_url], lines 285-301.  No caller passes [query_params]. *)
Definition __get_url (paths : list string) : M string :=
  h <- graylog_host ;;
  let host :=
    rstrip_chars whitespace (rstrip_chars ["/"%char] h) ++ "/api/" in
  ret (urljoin host (str_join "/" paths)).

(** [__get_graylog_version], lines 341-357: the handler logs and falls off
    the end of the function, so a failed probe returns [None]. *)
Definition __get_graylog_version : M (option string) :=
  try_except
    (url <- __get_url [] ;;
     version_response <- send url GetRoot ;;
     if negb (status_code version_response =? 200)%Z then
       raise (HTTPFailure (text version_response))
     else
       b <- lift (json version_response) ;;
       match b with
       | BJson v =>
           x <- lift (getitem v "version") ;;
           match x with
           | VStr s =>
               ret (Some (rstrip_chars whitespace
                            (lstrip_chars whitespace s)))
           | _ => raise AttributeError
           end
       | _ => raise (KeyError "version")
       end)
    (fun e =>
       log LogError "Error while getting Graylog Version" ;;;
       ret None).

(** [x.startswith(p)] on what [__get_graylog_version] returned: [None]
    has no such method. *)
Definition version_startswith (version : option string) (p : string)
  : result bool :=
  match version with
  | Some s => Ok (startswith s p)
  | None => Raise AttributeError
  end.

(** [__init__], lines 135-140: the value is the flag [is_v4]; the world
    starts with [_host] cleared. *)
Definition __init__ : M bool :=
  fun w =>
    (version <- __get_graylog_version ;;
     lift (version_startswith version "4")) (set_host None w).

(** [__get_url_whitelist], lines 359-377 *)
Definition __get_url_whitelist : M body :=
  reraising "Error while fetching URL whitelist"
    (url <- __get_url ["system/urlwhitelist"] ;;
     whitelist_response <- send url GetUrlWhitelist ;;
     if negb (status_code whitelist_response =? 200)%Z then
       raise (HTTPFailure (text whitelist_response))
     else lift (json whitelist_response)).

(** [__update_url_whitelist], lines 379-396 *)
Definition __update_url_whitelist (whitelist : UrlWhitelist) : M unit :=
  reraising "Error while updating URL whitelist"
    (url <- __get_url ["system/urlwhitelist"] ;;
     whitelist_response <- send url (PutUrlWhitelist whitelist) ;;
     if negb (status_code whitelist_response =? 204)%Z then
       raise (HTTPFailure (text whitelist_response))
     else ret tt).

(** [__get_events], lines 398-422 *)
Definition __get_events (page per_page : Z) : M body :=
  reraising "Error while fetching events"
    (url <- __get_url ["events"; "definitions"] ;;
     events_response <- send url (GetEventDefinitions page per_page) ;;
     if negb (status_code events_response =? 200)%Z then
       raise (HTTPFailure (text events_response))
     else lift (json events_response)).

(** [__update_event], lines 424-446 *)
Definition __update_event (event : EventDefinition.t) : M unit :=
  reraising "Error while updating event"
    (url <- __get_url ["events"; "definitions";
                       ident_str (EventDefinition.id event)] ;;
     event_update_response <-
       send url (PutEventDefinition (EventDefinition.id event) event) ;;
     if negb (status_code event_update_response =? 200)%Z then
       raise (HTTPFailure (text event_update_response))
     else ret tt).

(** [__get_notification], lines 448-472 *)
Definition __get_notification (page per_page : Z)
    (notification_name : string) : M body :=
  reraising "Error while fetching notification"
    (url <- __get_url ["events"; "notifications"] ;;
     notifications_response <-
       send url (GetNotifications page per_page
                   ("title:" ++ notification_name)) ;;
     if negb (status_code notifications_response =? 200)%Z then
       raise (HTTPFailure (text notifications_response))
     else lift (json notifications_response)).

(** [__delete_notification], lines 474-497 *)
Definition __delete_notification (notification_id : ident) : M unit :=
  reraising "Error while deleting notification"
    (url <- __get_url ["events"; "notifications";
                       ident_str notification_id] ;;
     notification_delete_response <-
       send url (DeleteNotification notification_id) ;;
     if negb (status_code notification_delete_response =? 204)%Z then
       raise (HTTPFailure (text notification_delete_response))
     else ret tt).

(** [__create_notification], lines 499-520 *)
Definition __create_notification (notification_name : string)
    (notification_body : NotificationBody) : M body :=
  reraising "Error while creating notification"
    (url <- __get_url ["events"; "notifications"] ;;
     notification_creation_response <-
       send url (PostNotification notification_body) ;;
     if negb (status_code notification_creation_response =? 200)%Z then
       raise (HTTPFailure (text notification_creation_response))
     else lift (json notification_creation_response)).

(** [__update_notification], lines 522-547 *)
Definition __update_notification (notification_id : ident)
    (notification_body : NotificationBody) : M body :=
  reraising "Error while updating notification"
    (url <- __get_url ["events"; "notifications";
                       ident_str notification_id] ;;
     notification_update_response <-
       send url (PutNotification notification_id notification_body) ;;
     if negb (status_code notification_update_response =? 200)%Z then
       raise (HTTPFailure (text notification_update_response))
     else lift (json notification_update_response)).

(** *** Webhook provisioning *)

(** The version flag computed by [__init__]. *)
Variable is_v4 : bool.

(** Lines 554-558: the provider id is what follows the last
    ["provider_id="] in the query string of the callback URL. *)
Definition provider_id_of (keep_api_url : string) : string :=
  last_piece (str_split (url_query keep_api_url) "provider_id=").

Definition notification_name_of (keep_api_url : string) : string :=
  "Keep-" ++ provider_id_of keep_api_url.

(** Lines 560-561: the callback URL the rest of the method works with. *)
Definition effective_url (keep_api_url api_key : string) : string :=
  if is_v4 then keep_api_url ++ "&api_key=" ++ api_key else keep_api_url.

Definition body_event_definitions (b : body)
  : result (list EventDefinition.t) :=
  match b with
  | BEventDefinitions l _ => Ok l
  | _ => Raise (KeyError "event_definitions")
  end.

Definition body_total (b : body) : result Z :=
  match b with
  | BEventDefinitions _ total => Ok total
  | _ => Raise (KeyError "total")
  end.

(** Lines 564-573: the paged enumeration of the event definitions. *)
Definition collect_event_definitions : M (list EventDefinition.t) :=
  events_1 <- __get_events 1 100 ;;
  first <- lift (body_event_definitions events_1) ;;
  total <- lift (body_total events_1) ;;
  let total_pages := ceil_div total 100 in
  for_fold (range 2 total_pages) first
    (fun event_definitions page =>
       events <- __get_events page 100 ;;
       more <- lift (body_event_definitions events) ;;
       ret (event_definitions ++ more)%list).

(** Lines 575-593: the callback URL is added to the whitelist unless an
    entry already carries it. *)
Definition whitelist_url (notification_name keep_api_url uuid4 : string)
  : M unit :=
  b <- __get_url_whitelist ;;
  url_whitelist <-
    lift (match b with
          | BUrlWhitelist u => Ok u
          | _ => Raise (KeyError "entries")
          end) ;;
  let url_found :=
    existsb (fun entry => WhitelistEntry.value entry =? keep_api_url)
            (entries url_whitelist) in
  if negb url_found then
    __update_url_whitelist
      {| entries :=
           entries url_whitelist ++
           [WhitelistEntry.mk uuid4 notification_name keep_api_url
                              "literal"];
         disabled := disabled url_whitelist |}
  else ret tt.

Definition body_count (b : body) : result Z :=
  match b with
  | BNotifications count _ => Ok count
  | _ => Raise (KeyError "count")
  end.

Definition body_notifications (b : body) : result (list Notification.t) :=
  match b with
  | BNotifications _ l => Ok l
  | _ => Raise (KeyError "notifications")
  end.

Definition body_id (b : body) : result ident :=
  match b with
  | BNotification n => Ok (Notification.id n)
  | _ => Raise (KeyError "id")
  end.

(** Lines 611-632: the body of the notification to create. *)
Definition notification_body_of (notification_name keep_api_url
    api_key : string) : NotificationBody :=
  {| nb_title := notification_name;
     nb_description :=
       "Hello, this Notification is created by Keep, please do not change the title.";
     nb_config :=
       if is_v4 then http_notification_v1 keep_api_url
       else http_notification_v2 None false "" None keep_api_url true
              "POST" "UTC" "JSON" ("X-API-KEY:" ++ api_key) "" |}.

(** Lines 595-635: the notification of that title found first, if any, is
    deleted, then a new one is created.  The value is the deleted
    identifier ([existing_notification_id]) and the creation response. *)
Definition replace_notification (notification_name keep_api_url
    api_key : string) : M (option ident * body) :=
  notification <- __get_notification 1 1 notification_name ;;
  count <- lift (body_count notification) ;;
  existing_notification_id <-
    (if (0 <? count)%Z then
       found <- lift (body_notifications notification) ;;
       first <- lift (py_index found 0) ;;
       __delete_notification (Notification.id first) ;;;
       ret (Some (Notification.id first))
     else ret None) ;;
  new_notification <-
    __create_notification notification_name
      (notification_body_of notification_name keep_api_url api_key) ;;
  ret (existing_notification_id, new_notification).

(** Lines 647-650: the first reference to the deleted notification is
    popped; with no deleted notification nothing compares equal. *)
Fixpoint pop_stale (existing_notification_id : option ident)
    (l : list NotificationRef) : list NotificationRef :=
  match l with
  | [] => []
  | n :: l' =>
      match existing_notification_id with
      | Some i =>
          if (notification_id n =? i)%nat then l'
          else n :: pop_stale existing_notification_id l'
      | None => n :: pop_stale existing_notification_id l'
      end
  end.

(** Lines 638-643: the definitions passed over. *)
Definition skipped (event_definition : EventDefinition.t) : result bool :=
  if negb is_v4 then
    match EventDefinition._scope event_definition with
    | Some scope => Ok (scope =? "SYSTEM_NOTIFICATION_EVENT")
    | None => Raise (KeyError "_scope")
    end
  else Ok false.

(** Lines 637-655: every collected definition is rebound and written. *)
Definition rebind_definitions (event_definitions : list EventDefinition.t)
    (existing_notification_id : option ident) (new_notification : body)
  : M unit :=
  for_each event_definitions
    (fun event_definition =>
       skip <- lift (skipped event_definition) ;;
       if skip then ret tt
       else
         let kept :=
           pop_stale existing_notification_id
             (EventDefinition.notifications event_definition) in
         new_id <- lift (body_id new_notification) ;;
         __update_event
           (EventDefinition.set_notifications
              (kept ++ [{| notification_id := new_id |}])
              event_definition)).

(** [setup_webhook], lines 549-662.  [uuid4] is the value drawn by
    [uuid.uuid4()] for a new whitelist entry. *)
Definition setup_webhook (tenant_id keep_api_url api_key : string)
    (setup_alerts : bool) (uuid4 : string) : M unit :=
  let notification_name := notification_name_of keep_api_url in
  let keep_api_url := effective_url keep_api_url api_key in
  reraising "Error while setting up webhook"
    (event_definitions <- collect_event_definitions ;;
     whitelist_url notification_name keep_api_url uuid4 ;;;
     r <- replace_notification notification_name keep_api_url api_key ;;
     rebind_definitions event_definitions (fst r) (snd r)).

(** *** Alerts and search *)

Variable utc_isoformat : string -> result string.
Variable digest : list value -> string.

Definition body_events (b : body) : result (list value) :=
  match b with
  | BEvents events _ => Ok events
  | _ => Raise (KeyError "events")
  end.

Definition body_total_events (b : body) : result Z :=
  match b with
  | BEvents _ total_events => Ok total_events
  | _ => Raise (KeyError "total_events")
  end.

(** [__get_alerts], lines 754-778.  The log line formats
    [json_data['page']] and [json_data['per_page']] inside the [try], so
    a mapping without them fails before any request. *)
Definition __get_alerts (json_data : value) : M body :=
  reraising "Error while fetching alerts"
    (lift (getitem json_data "page") ;;;
     lift (getitem json_data "per_page") ;;;
     url <- __get_url ["events"; "search"] ;;
     alert_response <- send url (PostEventsSearch json_data) ;;
     if negb (status_code alert_response =? 200)%Z then
       raise (HTTPFailure (text alert_response))
     else lift (json alert_response)).

(** The request mapping [_get_alerts] starts from, lines 782-793. *)
Definition alerts_json_data : list (string * value) :=
  [("query", VStr "");
   ("page", VInt 1);
   ("per_page", VInt 1000);
   ("filter", VDict [("alerts", VStr "only")]);
   ("timerange",
    VDict [("range", VInt (1 * 24 * 60 * 60)); ("type", VStr "relative")])].

(** [_get_alerts], lines 780-808.  The loop carries the request mapping,
    whose page it overwrites, and the events gathered so far. *)
Definition _get_alerts : M (list AlertDto.t) :=
  let json_data := alerts_json_data in
  alerts_1 <- __get_alerts (VDict json_data) ;;
  first <- lift (body_events alerts_1) ;;
  total <- lift (body_total_events alerts_1) ;;
  let total_events := Z.max 10 (ceil_div total 1000) in
  st <- for_fold (range 2 (total_events + 1)) (json_data, first)
          (fun st page =>
             let json_data := dict_set "page" (VInt page) (fst st) in
             alerts <- __get_alerts (VDict json_data) ;;
             more <- lift (body_events alerts) ;;
             ret (json_data, (snd st ++ more)%list)) ;;
  lift (mapR (__map_event_to_alert utc_isoformat digest) (snd st)).

(** [search], lines 157-234.  [query_id] and [search_type_id] are the
    values drawn by [uuid.uuid4()]. *)
Definition search (query query_type timerange_seconds timerange_type
    page per_page : value) (query_id search_type_id : string) : M value :=
  p <- lift (as_number page) ;;
  pp <- lift (as_number per_page) ;;
  let offset := if (p * pp <? 0)%Z then 0%Z else (p * pp)%Z in
  let search_body :=
    VDict
      [("parameters", VList []);
       ("queries",
        VList
          [VDict
             [("id", VStr query_id);
              ("query",
               VDict [("type", query_type); ("query_string", query)]);
              ("timerange",
               VDict [("from", timerange_seconds);
                      ("type", timerange_type)]);
              ("search_types",
               VList
                 [VDict
                    [("timerange", VNone);
                     ("query", VNone);
                     ("streams", VList []);
                     ("type", VStr "messages");
                     ("id", VStr search_type_id);
                     ("name", VNone);
                     ("limit", per_page);
                     ("offset", VInt offset);
                     ("sort",
                      VList [VDict [("field", VStr "timestamp");
                                    ("order", VStr "DESC")]]);
                     ("fields", VList []);
                     ("decorators", VList []);
                     ("filter", VNone);
                     ("filters", VList [])]])]])] in
  url <- __get_url ["views"; "search"; "sync"] ;;
  search_response <- send url (PostViewsSearchSync search_body) ;;
  raise_for_status search_response ;;;
  b <- lift (json search_response) ;;
  result <- lift (match b with
                  | BJson v => Ok v
                  | _ => Raise (KeyError "results")
                  end) ;;
  by_query <- lift (getitem result "results") ;;
  results <- lift (match by_query with
                   | VDict ((_, v) :: _) => Ok v
                   | VDict [] => Raise StopIteration
                   | _ => Raise AttributeError
                   end) ;;
  search_types <- lift (get results "search_types" (VDict [])) ;;
  found <- lift (get search_types search_type_id VNone) ;;
  messages <- lift (get found "messages" (VList [])) ;;
  match messages with
  | VList _ | VStr _ | VDict _ => ret messages
  | _ => raise TypeError
  end.

(** The branch of [_query] taken without a query, lines 827-829. *)
Definition alert_search_path (events_search_parameters
    : list (string * value)) : M query_result :=
  b <- __get_alerts (VDict events_search_parameters) ;;
  alerts <- lift (body_events b) ;;
  l <- lift (mapR (__map_event_to_alert utc_isoformat digest) alerts) ;;
  ret (Alerts l).

(** [_query], lines 810-829. *)
Definition _query (events_search_parameters kwargs : list (string * value))
    (query_id search_type_id : string) : M query_result :=
  let query :=
    py_or (dget kwargs "query" VNone)
          (dget events_search_parameters "query" VNone) in
  if truthy query then
    messages <-
      search query
        (dget kwargs "query_type"
           (dget events_search_parameters "query_type" (VStr "elastic")))
        (dget kwargs "timerange_seconds"
           (dget events_search_parameters "timerange_seconds" (VInt 300)))
        (dget kwargs "timerange_type"
           (dget events_search_parameters "timerange_type"
              (VStr "relative")))
        (dget kwargs "page"
           (dget events_search_parameters "page" (VInt 0)))
        (dget kwargs "per_page"
           (dget events_search_parameters "per_page" (VInt 150)))
        query_id search_type_id ;;
    ret (Messages messages)
  else alert_search_path events_search_parameters.

End Provider.

(* ------------------------------------------------------------------ *)
(** ** Sample instances and worlds *)

(** Instances of the two library functions of the mapping, for running it
    on concrete payloads: timestamps written [YYYY-MM-DDTHH:MM:SS] (a digit
    for each [9] of the pattern) get the UTC offset appended, other text is
    refused; the digest lists the string values, separated by bars. *)
Fixpoint matches_pattern (pat s : string) : bool :=
  match pat, s with
  | EmptyString, EmptyString => true
  | String p pat', String c s' =>
      (if Ascii.eqb p "9"
       then match digit_of c with Some _ => true | None => false end
       else Ascii.eqb p c)
      && matches_pattern pat' s'
  | _, _ => false
  end.

Definition sample_utc_isoformat (s : string) : result string :=
  if matches_pattern "9999-99-99T99:99:99" s
  then Ok (s ++ "+00:00")%string
  else Raise ValueError.

Definition sample_digest (l : list value) : string :=
  str_join "|" (map (fun v => match v with VStr s => s | _ => "" end) l).

(** A webhook payload as the backend pushes it. *)
Definition sample_event (id : string) (priority : Z) (title : string)
  : value :=
  VDict
    [("event_definition_title", VStr title);
     ("event_definition_description", VStr "threshold exceeded");
     ("event",
      VDict
        [("id", VStr id);
         ("event_definition_id", VStr "6627c7a1d7f4b5a1b2c3d4e5");
         ("origin_context", VNone);
         ("timestamp", VStr "2024-05-01T10:20:30z");
         ("message", VStr "disk usage high");
         ("priority", VInt priority)])].

Definition sample_config : GraylogProviderAuthConfig :=
  {| graylog_user_name := "admin";
     graylog_access_token := "token";
     deployment_url := "http://127.0.0.1:9000";
     verify := true |}.

(** A backend holding the given resources, every request served, the
    provider's host already resolved. *)
Definition sample_world (defs : list EventDefinition.t)
    (wl : list WhitelistEntry.t) (ns : list Notification.t) (next : ident)
  : World :=
  mkWorld (Some "http://127.0.0.1:9000") [] ProbeAnswered []
          (fun _ => NoFault) []
          (VDict [("version", VStr "5.2.3")])
          defs {| entries := wl; disabled := false |} ns next
          (fun _ => ([], 0%Z)) (fun _ => VDict []).

(* ------------------------------------------------------------------ *)
(** ** Vocabulary of the statements *)


(** The severity the list lookup of the mapping yields for the priorities
    on which it does not fail. *)
Definition severity_of (p : Z) : AlertSeverity :=
  if ((p =? 1) || (p =? -2))%Z then LOW
  else if ((p =? 2) || (p =? -1))%Z then WARNING
  else HIGH.

(** The network changes its disposition towards the scheme probe. *)
Definition set_https_probe (o : probe_outcome) (w : World) : World :=
  mkWorld (_host w) (logged w) o (probes w) (faults w) (requests w)
    (version_info w) (event_definitions w) (url_whitelist w)
    (notifications w) (next_id w) (events_search w) (views_search w).

(** Successive reads of [graylog_host], the network's disposition towards a
    probe changing before each of them. *)
Fixpoint read_host_under (cfg : GraylogProviderAuthConfig)
    (outcomes : list probe_outcome) : M (list string) :=
  match outcomes with
  | [] => ret []
  | o :: rest =>
      fun w =>
        bind (graylog_host cfg)
             (fun h => bind (read_host_under cfg rest)
                            (fun hs => ret (h :: hs)))
             (set_https_probe o w)
  end.

(** The requests [l] have been issued on top of those of [w]. *)
Definition issued (l : list Request) (w : World) : World :=
  set_requests (requests w ++ l) w.

(** The URL [__get_url] builds from a cached host. *)
Definition api_url (w : World) (paths : list string) : string :=
  urljoin
    (rstrip_chars whitespace
       (rstrip_chars ["/"%char]
          (match _host w with Some h => h | None => "" end)) ++ "/api/")
    (str_join "/" paths).

(** The backend answers every request. *)
Definition healthy (w : World) : Prop := forall n, faults w n = NoFault.

(** The calls of the requests issued so far. *)
Definition calls (w : World) : list api_call := map req_call (requests w).

(** The requests the methods issue on a world whose host is cached. *)
Definition definitions_request (w : World) (page per_page : Z) : Request :=
  {| req_url := api_url w ["events"; "definitions"];
     req_call := GetEventDefinitions page per_page |}.

Definition whitelist_read (w : World) : Request :=
  {| req_url := api_url w ["system/urlwhitelist"];
     req_call := GetUrlWhitelist |}.

Definition whitelist_write (w : World) (u : UrlWhitelist) : Request :=
  {| req_url := api_url w ["system/urlwhitelist"];
     req_call := PutUrlWhitelist u |}.

Definition notification_query (w : World) (name : string) : Request :=
  {| req_url := api_url w ["events"; "notifications"];
     req_call := GetNotifications 1 1 ("title:" ++ name) |}.

Definition notification_delete (w : World) (i : ident) : Request :=
  {| req_url := api_url w ["events"; "notifications"; ident_str i];
     req_call := DeleteNotification i |}.

Definition notification_create (w : World) (nb : NotificationBody)
  : Request :=
  {| req_url := api_url w ["events"; "notifications"];
     req_call := PostNotification nb |}.

Definition definition_write (w : World) (e : EventDefinition.t) : Request :=
  {| req_url :=
       api_url w ["events"; "definitions"; ident_str (EventDefinition.id e)];
     req_call := PutEventDefinition (EventDefinition.id e) e |}.

Definition search_request (w : World) (json_data : value) : Request :=
  {| req_url := api_url w ["events"; "search"];
     req_call := PostEventsSearch json_data |}.

(** The request mapping of [_get_alerts] with its page set to [p]. *)
Definition page_data (p : Z) : value :=
  VDict (dict_set "page" (VInt p) alerts_json_data).

(** The pages of event definitions the enumeration asks for. *)
Definition pages_fetched (w : World) : list Z :=
  1%Z :: range 2 (ceil_div (Z.of_nat (List.length (event_definitions w))) 100).

(** The notifications of the backend that carry the title [name]. *)
Definition titled (name : string) (w : World) : list Notification.t :=
  filter (fun n => Notification.title n =? name) (notifications w).

(** How many times the notification list of [d] refers to [i]. *)
Definition references (i : ident) (d : EventDefinition.t) : nat :=
  count_occ Nat.eq_dec
    (map notification_id (EventDefinition.notifications d)) i.

(** Every identifier an event definition refers to was issued by the
    backend, hence lies below the next one it will issue. *)
Definition references_issued (w : World) : Prop :=
  forall d r,
    In d (event_definitions w) ->
    In r (EventDefinition.notifications d) ->
    (notification_id r < next_id w)%nat.

(** Backends other than v4 report the scope of every definition. *)
Definition scopes_reported (is_v4 : bool) (w : World) : Prop :=
  is_v4 = false ->
  forall d, In d (event_definitions w) -> EventDefinition._scope d <> None.

(** The notification a run of [setup_webhook] deletes: the first one the
    title query returns. *)
Definition stale_of (name : string) (w : World) : option ident :=
  match filter (title_matches ("title:" ++ name)) (notifications w) with
  | n :: _ => Some (Notification.id n)
  | [] => None
  end.

(** What a run makes of one event definition. *)
Definition rebound (is_v4 : bool) (stale : option ident) (new_id : ident)
    (d : EventDefinition.t) : EventDefinition.t :=
  match skipped is_v4 d with
  | Ok false =>
      EventDefinition.set_notifications
        (pop_stale stale (EventDefinition.notifications d)
         ++ [{| notification_id := new_id |}]) d
  | _ => d
  end.

(** The notifications left once the stale one is deleted. *)
Definition without_stale (stale : option ident) (l : list Notification.t)
  : list Notification.t :=
  match stale with
  | Some i => filter (fun n => negb (Notification.id n =? i)%nat) l
  | None => l
  end.

(** *** Worlds and inputs the statements are run on *)

Definition sample_callback : string :=
  "https://keep.example/alerts/event/graylog?provider_id=5f2c&tenant=acme".

Definition sample_definition (i : ident) (scope : string)
    (refs : list ident) : EventDefinition.t :=
  EventDefinition.mk i (Some scope) (map Build_NotificationRef refs)
                     [("title", VStr "rule")].

(** A backend of version 5 with one ordinary and one system-scoped event
    definition and no notification yet. *)
Definition world_with_system_definition : World :=
  sample_world
    [sample_definition 1 "DEFAULT" []; 
     sample_definition 2 "SYSTEM_NOTIFICATION_EVENT" []]
    [] [] 10.

(** A backend on which the notification was installed before (identifier
    7, referred to by definition 1). *)
Definition world_provisioned_before : World :=
  sample_world
    [sample_definition 1 "DEFAULT" [3; 7]; sample_definition 2 "DEFAULT" []]
    []
    [Notification.mk 3 "pager" "" (http_notification_v1 "https://pager");
     Notification.mk 7 "Keep-5f2c&tenant=acme" ""
       (http_notification_v1 sample_callback)]
    10.

(** A backend holding [n] event definitions, numbered from 1. *)
Definition world_with_definitions (n : nat) : World :=
  sample_world (map (fun i => sample_definition i "DEFAULT" []) (seq 1 n))
               [] [] (S n).

(** A backend whose whitelist already carries the callback URL, and one
    whose whitelist carries another URL only. *)
Definition world_whitelisted : World :=
  sample_world []
    [WhitelistEntry.mk "0b7e" "Keep-5f2c&tenant=acme" sample_callback
                       "literal"]
    [] 0.

Definition world_not_whitelisted : World :=
  sample_world []
    [WhitelistEntry.mk "91aa" "pager" "https://pager.example/hook" "literal"]
    [] 0.

(** A backend whose alert search reports 2500 events in all and returns
    two events on each of the first three pages. *)
Definition world_with_alerts : World :=
  mkWorld (Some "http://127.0.0.1:9000") [] ProbeAnswered []
          (fun _ => NoFault) []
          (VDict [("version", VStr "5.2.3")])
          [] {| entries := []; disabled := false |} [] 0
          (fun json_data =>
             match getitem json_data "page" with
             | Ok (VInt p) =>
                 if (p <=? 3)%Z
                 then ([sample_event "01HA" 1 "cpu";
                        sample_event "01HB" 3 "disk"], 2500%Z)
                 else ([], 2500%Z)
             | _ => ([], 0%Z)
             end)
          (fun _ => VDict []).


(** A configuration whose deployment URL carries no scheme, and a world in
    which the host is not resolved yet. *)
Definition bare_host_config : GraylogProviderAuthConfig :=
  {| graylog_user_name := "admin";
     graylog_access_token := "token";
     deployment_url := "graylog.internal:9000";
     verify := true |}.

Definition world_unresolved : World :=
  set_host None (sample_world [] [] [] 0).

(** A parameter mapping with an empty query. *)
Definition empty_query_parameters : list (string * value) :=
  [("query", VStr ""); ("page", VInt 1); ("per_page", VInt 50)].

(* ------------------------------------------------------------------ *)
(** ** Further methods and vocabulary *)

(* ------------------------------------------------------------------ *)
(** ** Scope validation *)

(** [x in v] for a string [x]: an element equal to it in a list, a
    substring of a string, a key of a dict. *)
Definition py_in_str (x : string) (v : value) : result bool :=
  match v with
  | VList l =>
      Ok (existsb (fun y => match y with VStr s => s =? x | _ => false end) l)
  | VStr s => Ok (occurs x s)
  | VDict d => Ok (existsb (fun kv => fst kv =? x) d)
  | _ => Raise TypeError
  end.

(** The exchange [requests.get(.../users/<name>)] of [validate_scopes],
    which is not among the calls of the backend model: the request raises,
    or it is answered with a status, a text and, when the body is JSON, its
    value. *)
Inductive user_lookup : Type :=
| LookupRaised (e : exn)
| LookupAnswered (status : Z) (text : string) (body : option value).

(** A value of the dict [validate_scopes] returns: [True], [False], a
    message, or [str(e)] for the exception caught. *)
Inductive scope_value : Type :=
| ScopeTrue
| ScopeFalse
| ScopeMessage (s : string)
| ScopeError (e : exn).

Record Scopes : Type := {
  authenticated : scope_value;
  authorized : scope_value
}.

(** [validate_scopes], lines 303-339. *)
Definition validate_scopes (authentication_config : GraylogProviderAuthConfig)
    (lookup : user_lookup) : M Scopes :=
  try_except
    (bind (__get_url authentication_config
             ["users"; graylog_user_name authentication_config])
       (fun _ =>
          match lookup with
          | LookupRaised e => raise e
          | LookupAnswered status text body =>
              if negb (status =? 200)%Z then raise (HTTPFailure text)
              else
                bind (lift (match body with
                            | Some v => Ok v
                            | None => Raise ValueError
                            end))
                  (fun user_response =>
                     bind (lift (getitem user_response "roles"))
                       (fun roles =>
                          bind (lift (py_in_str "Admin" roles))
                            (fun is_admin =>
                               if is_admin then
                                 ret {| authenticated := ScopeTrue;
                                        authorized := ScopeTrue |}
                               else
                                 bind (log LogWarning
                                         "User lacks required admin privileges")
                                   (fun _ =>
                                      ret {| authenticated := ScopeTrue;
                                             authorized :=
                                               ScopeMessage
                                                 "Missing admin Privileges" |}))))
          end))
    (fun e =>
       bind (log LogError "Error while validating user scopes")
         (fun _ =>
            ret {| authenticated := ScopeError e;
                   authorized := ScopeFalse |})).

(* ------------------------------------------------------------------ *)
(** ** The schema migration *)

Module Migration.

(** The table store the migration works on: a table has columns (name,
    type, nullability, server default) and rows holding a value for each
    column, in column order.  The operations are those of
    [alembic.op] the script calls, with the errors a database raises. *)
Inductive sql_value : Type :=
| SqlNull
| SqlBool (b : bool)
| SqlInt (z : Z)
| SqlText (s : string).

Record Column : Type := {
  col_name : string;
  col_type : string;
  nullable : bool;
  server_default : option sql_value
}.

Record Table : Type := {
  columns : list Column;
  rows : list (list (string * sql_value))
}.

Definition Database : Type := list (string * Table).

Inductive db_error : Type :=
| NoSuchTable (name : string)
| NoSuchColumn (name : string)
| DuplicateColumn (name : string)
| NotNullViolation (name : string).

Inductive outcome (A : Type) : Type :=
| Done (a : A)
| Failed (e : db_error).
Arguments Done {A} a.
Arguments Failed {A} e.

Fixpoint find_table (name : string) (db : Database) : option Table :=
  match db with
  | [] => None
  | (n, t) :: db' => if n =? name then Some t else find_table name db'
  end.

Fixpoint put_table (name : string) (t : Table) (db : Database) : Database :=
  match db with
  | [] => []
  | (n, t') :: db' =>
      if n =? name then (n, t) :: db' else (n, t') :: put_table name t db'
  end.

Definition has_column (name : string) (t : Table) : bool :=
  existsb (fun c => col_name c =? name) (columns t).

(** One change to one table, the table written back in place. *)
Definition alter (table : string) (f : Table -> outcome Table)
    (db : Database) : outcome Database :=
  match find_table table db with
  | None => Failed (NoSuchTable table)
  | Some t =>
      match f t with
      | Done t' => Done (put_table table t' db)
      | Failed e => Failed e
      end
  end.

(** [batch_op.add_column(c)] on a table without the column: existing rows
    take the server default, or NULL when the column allows it.  On a table
    that has the column already the answer is that of a database altering
    the table in place; a batch that rebuilds the table, as on SQLite,
    replaces the column instead, which is not modelled: the properties
    below are about tables without the column. *)
Definition add_column (c : Column) (t : Table) : outcome Table :=
  if has_column (col_name c) t then Failed (DuplicateColumn (col_name c))
  else
    match server_default c, rows t with
    | Some v, _ =>
        Done {| columns := columns t ++ [c];
                rows := map (fun r => r ++ [(col_name c, v)]) (rows t) |}
    | None, [] => Done {| columns := columns t ++ [c]; rows := [] |}
    | None, _ :: _ =>
        if nullable c then
          Done {| columns := columns t ++ [c];
                  rows := map (fun r => r ++ [(col_name c, SqlNull)])
                              (rows t) |}
        else Failed (NotNullViolation (col_name c))
    end.

(** [UPDATE <table> SET <column> = <v>] *)
Definition update_all (column : string) (v : sql_value) (t : Table)
  : outcome Table :=
  if has_column column t then
    Done {| columns := columns t;
            rows :=
              map (map (fun kv => if fst kv =? column then (fst kv, v)
                                  else kv)) (rows t) |}
  else Failed (NoSuchColumn column).

(** [batch_op.alter_column(column, server_default=d)] *)
Definition alter_server_default (column : string) (d : option sql_value)
    (t : Table) : outcome Table :=
  if has_column column t then
    Done {| columns :=
              map (fun c => if col_name c =? column
                            then {| col_name := col_name c;
                                    col_type := col_type c;
                                    nullable := nullable c;
                                    server_default := d |}
                            else c) (columns t);
            rows := rows t |}
  else Failed (NoSuchColumn column).

(** [batch_op.drop_column(column)] *)
Definition drop_column (column : string) (t : Table) : outcome Table :=
  if has_column column t then
    Done {| columns :=
              filter (fun c => negb (col_name c =? column)) (columns t);
            rows :=
              map (filter (fun kv => negb (fst kv =? column))) (rows t) |}
  else Failed (NoSuchColumn column).

Definition then_ {A B} (o : outcome A) (f : A -> outcome B) : outcome B :=
  match o with
  | Done a => f a
  | Failed e => Failed e
  end.

Definition is_provisioned : Column :=
  {| col_name := "is_provisioned";
     col_type := "BOOLEAN";
     nullable := false;
     server_default := Some (SqlBool false) |}.

(** [upgrade], lines 19-40 of the migration script. *)
Definition upgrade (db : Database) : outcome Database :=
  then_ (alter "alertdeduplicationrule" (add_column is_provisioned) db)
    (fun db1 =>
       then_ (alter "alertdeduplicationrule"
                (update_all "is_provisioned" (SqlBool false)) db1)
         (fun db2 =>
            alter "alertdeduplicationrule"
              (alter_server_default "is_provisioned" None) db2)).

(** [downgrade], lines 43-49 of the migration script. *)
Definition downgrade (db : Database) : outcome Database :=
  alter "alertdeduplicationrule" (drop_column "is_provisioned") db.

(** The rows of a table hold exactly its columns, in order. *)
Definition conforms (t : Table) : Prop :=
  forall r, In r (rows t) -> map fst r = map col_name (columns t).

(** The table of the deduplication rules. *)
Definition rules_table (db : Database) : option Table :=
  find_table "alertdeduplicationrule" db.

(** The column as [upgrade] leaves it: the server default is gone. *)
Definition is_provisioned_plain : Column :=
  {| col_name := "is_provisioned";
     col_type := "BOOLEAN";
     nullable := false;
     server_default := None |}.

End Migration.

(* ------------------------------------------------------------------ *)
(** ** Vocabulary of the further statements *)

(** [s.strip()] *)
Definition str_strip (s : string) : string :=
  rstrip_chars whitespace (lstrip_chars whitespace s).

(** [n] slashes. *)
Fixpoint slashes (n : nat) : string :=
  match n with
  | O => ""
  | S k => String "/" (slashes k)
  end.

(** The first element of a JSON list. *)
Definition first_item (v : value) : result value :=
  match v with
  | VList (x :: _) => Ok x
  | VList [] => Raise IndexError
  | _ => Raise TypeError
  end.

(** The search type and the query clause of a search request body:
    [body["queries"][0]["search_types"][0]] and
    [body["queries"][0]["query"]]. *)
Definition search_type_of (search_body : value) : result value :=
  (let? queries := getitem search_body "queries" in
   let? q := first_item queries in
   let? search_types := getitem q "search_types" in
   first_item search_types)%result.

Definition query_clause_of (search_body : value) : result value :=
  (let? queries := getitem search_body "queries" in
   let? q := first_item queries in
   getitem q "query")%result.

(** What the backend stores, apart from the bookkeeping of the model. *)
Definition store (w : World)
  : list EventDefinition.t * UrlWhitelist * list Notification.t * ident :=
  (event_definitions w, url_whitelist w, notifications w, next_id w).

(** Some whitelist entry carries the URL. *)
Definition whitelisted (url : string) (w : World) : Prop :=
  exists e, In e (entries (url_whitelist w)) /\ WhitelistEntry.value e = url.

(** The calls issued between two worlds, the second reached from the
    first. *)
Definition issued_between (w w' : World) (l : list Request) : Prop :=
  requests w' = requests w ++ l.

Definition is_whitelist_write (c : api_call) : bool :=
  match c with
  | PutUrlWhitelist _ => true
  | _ => false
  end.

Definition is_search_call (c : api_call) : bool :=
  match c with
  | PostEventsSearch _ | PostViewsSearchSync _ => true
  | _ => false
  end.

(** The configuration [setup_webhook] gives the notification it creates. *)
Definition expected_config (is_v4 : bool) (keep_api_url api_key : string)
  : NotificationConfig :=
  if is_v4
  then http_notification_v1 (keep_api_url ++ "&api_key=" ++ api_key)
  else http_notification_v2 None false "" None keep_api_url true
         "POST" "UTC" "JSON" ("X-API-KEY:" ++ api_key) "".

(** The payloads whose priority, when they have one, is a JSON integer:
    what [int] makes of it is then the number itself. *)
Definition integer_priority (event : value) : Prop :=
  forall e pr,
    getitem event "event" = Ok e ->
    getitem e "priority" = Ok pr ->
    exists p, pr = VInt p.

(** Among them, the payloads the mapping accepts: an [event] object with
    an id, a message, a priority from -2 to 3, an event definition id and a
    timestamp string which, its lowercase ["z"] removed, the parser
    reads. *)
Definition acceptable (utc_isoformat : string -> result string)
    (event : value) : Prop :=
  exists e i m p d ts t,
    getitem event "event" = Ok e
    /\ getitem e "id" = Ok i
    /\ getitem e "message" = Ok m
    /\ getitem e "priority" = Ok (VInt p)
    /\ (-2 <= p <= 3)%Z
    /\ getitem e "event_definition_id" = Ok d
    /\ getitem e "timestamp" = Ok (VStr ts)
    /\ utc_isoformat (str_replace ts "z" "") = Ok t.

(** Every run of [m], whatever its outcome, takes a world to one related
    to it by [R]. *)
Definition steps (R : World -> World -> Prop) {A} (m : M A) : Prop :=
  forall w r w', m w = (r, w') -> R w w'.

(** The backend's store is as it was, and the requests issued in between
    satisfy [p]. *)
Definition quiet (p : api_call -> bool) (w w' : World) : Prop :=
  store w' = store w
  /\ exists l, requests w' = requests w ++ l
               /\ forallb (fun q => p (req_call q)) l = true.

(** The event definitions are the same ones, in the same order. *)
Definition same_definitions (w w' : World) : Prop :=
  map EventDefinition.id (event_definitions w')
  = map EventDefinition.id (event_definitions w).

(** The whitelist is as it was and no request in between wrote it. *)
Definition whitelist_untouched (w w' : World) : Prop :=
  url_whitelist w' = url_whitelist w
  /\ exists l, requests w' = requests w ++ l
               /\ forallb (fun q => negb (is_whitelist_write (req_call q))) l
                  = true.

(** The user lookup went through to the membership test on the roles, and
    the test found the required role. *)
Definition roles_checked (lookup : user_lookup) : Prop :=
  exists text user_response roles found,
    lookup = LookupAnswered 200 text (Some user_response)
    /\ getitem user_response "roles" = Ok roles
    /\ py_in_str "Admin" roles = Ok found.

Definition admin_confirmed (lookup : user_lookup) : Prop :=
  exists text user_response roles,
    lookup = LookupAnswered 200 text (Some user_response)
    /\ getitem user_response "roles" = Ok roles
    /\ py_in_str "Admin" roles = Ok true.

(** A relation between worlds that runs can be composed along: a preorder
    that the provider's own bookkeeping (host, log, probes) does not
    leave. *)
Record insensitive (R : World -> World -> Prop) : Prop := {
  ins_refl : forall w, R w w;
  ins_trans : forall a b c, R a b -> R b c -> R a c;
  ins_host : forall h w, R w (set_host h w);
  ins_logged : forall l w, R w (set_logged l w);
  ins_probes : forall p w, R w (set_probes p w)
}.

(** The whitelist followed by one literal entry for the URL. *)
Definition extended_whitelist (notification_name keep_api_url uuid4 : string)
    (u : UrlWhitelist) : UrlWhitelist :=
  {| entries :=
       entries u ++
       [WhitelistEntry.mk uuid4 notification_name keep_api_url "literal"];
     disabled := disabled u |}.

(** The requests issued from one world to the other all satisfy [P]. *)
Definition issuing (P : api_call -> Prop) (w w' : World) : Prop :=
  exists l, requests w' = requests w ++ l
            /\ Forall (fun q => P (req_call q)) l.

(** The calls of provisioning: pages of a hundred event definitions, the
    whitelist read and written with the callback URL as last, literal
    entry, the title query for one notification, a deletion, the creation
    of the notification of the derived title with the configuration of
    the backend's version, and event definitions written under their own
    identifier. *)
Definition provisioning_call (is_v4 : bool) (keep_api_url api_key
    uuid4 : string) (c : api_call) : Prop :=
  let name := notification_name_of keep_api_url in
  match c with
  | GetEventDefinitions _ per_page => per_page = 100%Z
  | GetUrlWhitelist => True
  | PutUrlWhitelist u =>
      exists old,
        u = extended_whitelist name
              (effective_url is_v4 keep_api_url api_key) uuid4 old
  | GetNotifications page per_page query =>
      page = 1%Z /\ per_page = 1%Z /\ query = ("title:" ++ name)%string
  | DeleteNotification _ => True
  | PostNotification nb =>
      nb_title nb = name
      /\ nb_config nb = expected_config is_v4 keep_api_url api_key
  | PutEventDefinition i event => i = EventDefinition.id event
  | _ => False
  end.

(** *** Further worlds and inputs *)

(** A payload with a definition title and an event that has an id only. *)
Definition event_without_message : value :=
  VDict [("event_definition_title", VStr "cpu");
         ("event", VDict [("id", VStr "01HA")])].

(** A backend whose alert search returns one event of priority 7 on the
    first page. *)
Definition world_with_bad_alert : World :=
  mkWorld (Some "http://127.0.0.1:9000") [] ProbeAnswered []
          (fun _ => NoFault) []
          (VDict [("version", VStr "5.2.3")])
          [] {| entries := []; disabled := false |} [] 0
          (fun json_data =>
             match getitem json_data "page" with
             | Ok (VInt 1) => ([sample_event "01HZ" 7 "cpu"], 1%Z)
             | _ => ([], 1%Z)
             end)
          (fun _ => VDict []).

(** A backend that gives [answer] to every log search. *)
Definition world_searching (answer : value) : World :=
  mkWorld (Some "http://127.0.0.1:9000") [] ProbeAnswered []
          (fun _ => NoFault) []
          (VDict [("version", VStr "5.2.3")])
          [] {| entries := []; disabled := false |} [] 0
          (fun _ => ([], 0%Z)) (fun _ => answer).

(** A backend provisioned before (notification 7, referred to by the one
    definition, the callback URL whitelisted) that answers the fifth
    request it receives with status 500. *)
Definition world_losing_creation : World :=
  mkWorld (Some "http://127.0.0.1:9000") [] ProbeAnswered []
          (fun n => if (n =? 4)%nat then ServerError else NoFault) []
          (VDict [("version", VStr "5.2.3")])
          [sample_definition 1 "DEFAULT" [7]]
          {| entries :=
               [WhitelistEntry.mk "0b7e" "Keep-5f2c&tenant=acme"
                                  sample_callback "literal"];
             disabled := false |}
          [Notification.mk 7 "Keep-5f2c&tenant=acme" ""
             (http_notification_v1 sample_callback)]
          10
          (fun _ => ([], 0%Z)) (fun _ => VDict []).

(** Keyword arguments of a query with a page. *)
Definition sample_keywords (page : value) : list (string * value) :=
  [("query", VStr "level:3"); ("page", page)].

(** A user lookup answered with the roles of a reader. *)
Definition reader_lookup : user_lookup :=
  LookupAnswered 200 ""
    (Some (VDict [("username", VStr "admin");
                  ("roles", VList [VStr "Reader"])])).

(** A database with two rules and another table. *)
Definition sample_rules : Migration.Table :=
  {| Migration.columns :=
       [{| Migration.col_name := "id"; Migration.col_type := "VARCHAR";
           Migration.nullable := false; Migration.server_default := None |};
        {| Migration.col_name := "enabled"; Migration.col_type := "BOOLEAN";
           Migration.nullable := false;
           Migration.server_default := Some (Migration.SqlBool true) |}];
     Migration.rows :=
       [[("id", Migration.SqlText "r1");
         ("enabled", Migration.SqlBool true)];
        [("id", Migration.SqlText "r2");
         ("enabled", Migration.SqlBool false)]] |}.

Definition sample_database : Migration.Database :=
  [("alert", {| Migration.columns := []; Migration.rows := [] |});
   ("alertdeduplicationrule", sample_rules)].

(** *** Counting digests *)




(** A backend other than v4 whose first event definition comes without a
    scope. *)
Definition world_without_scope : World :=
  sample_world
    [EventDefinition.mk 1 None [] [("title", VStr "rule")];
     sample_definition 2 "DEFAULT" []]
    [] [] 10.

(* ================================================================== *)
(** * Properties *)

Arguments api_url : simpl never.
Arguments issued : simpl never.

(* ------------------------------------------------------------------ *)
(** ** Lists, strings and numbers *)






Lemma filter_none {A} (f : A -> bool) (l : list A) :
  (forall x, In x l -> f x = false) -> filter f l = [].
Proof.
  induction l as [|x l IH]; intros H; [reflexivity|]. cbn.
  rewrite (H x (or_introl eq_refl)). apply IH. intros y Hy. apply H.
  now right.
Qed.

Lemma filter_head_in {A} (f : A -> bool) (l rest : list A) (x : A) :
  filter f l = x :: rest -> In x l /\ f x = true.
Proof. intros H. apply filter_In. rewrite H. now left. Qed.

Lemma mapR_total {A B} (f : A -> result B) (l : list A) :
  (forall x, In x l -> exists y, f x = Ok y) ->
  exists ys, mapR f l = Ok ys /\ List.length ys = List.length l.
Proof.
  induction l as [|x l IH]; intros H.
  - exists []. split; reflexivity.
  - destruct (H x (or_introl eq_refl)) as [y Hy].
    destruct IH as (ys & Hys & Hlen); [intros; apply H; now right|].
    exists (y :: ys). cbn. rewrite Hy, Hys, Hlen. split; reflexivity.
Qed.

Lemma range_length (a b : Z) : List.length (range a b) = Z.to_nat (b - a).
Proof. unfold range. now rewrite length_map, length_seq. Qed.

Lemma range_cons (a b : Z) :
  (a < b)%Z -> range a b = a :: range (a + 1) b.
Proof.
  intros H. unfold range.
  replace (Z.to_nat (b - a)) with (S (Z.to_nat (b - (a + 1)))) by lia.
  cbn [seq map]. f_equal; [lia|].
  rewrite <- seq_shift, map_map. apply map_ext. intros i. lia.
Qed.

Lemma in_range (a b x : Z) : In x (range a b) -> (a <= x < b)%Z.
Proof.
  unfold range. intros H. apply in_map_iff in H as (i & <- & Hi).
  apply in_seq in Hi. lia.
Qed.

Lemma ceil_div_100 (n : Z) :
  (100 * (ceil_div n 100 - 1) < n <= 100 * ceil_div n 100)%Z.
Proof.
  unfold ceil_div.
  pose proof (Z.div_mod (- n) 100 ltac:(lia)) as Hdm.
  pose proof (Z.mod_pos_bound (- n) 100 ltac:(lia)) as Hb.
  lia.
Qed.

Lemma page_slice_length {A} (p n : Z) (l : list A) :
  (List.length (page_slice p n l) <= Z.to_nat n)%nat.
Proof. unfold page_slice. apply firstn_le_length. Qed.

Lemma concat_slices_length {A} (l : list A) (pages : list Z) :
  (List.length (concat (map (fun p => page_slice p 100 l) pages))
   <= 100 * List.length pages)%nat.
Proof.
  induction pages as [|p pages IH]; cbn [map concat List.length]; [lia|].
  rewrite length_app. pose proof (page_slice_length p 100 l). lia.
Qed.

(* ------------------------------------------------------------------ *)
(** ** Splitting at ["provider_id="] *)










(* ------------------------------------------------------------------ *)
(** ** The event mapping *)

Section MappingFacts.

Variable utc_isoformat : string -> result string.
Variable digest : list value -> string.

Local Abbreviation map_event :=
  (__map_event_to_alert utc_isoformat digest).

Lemma severity_index_in_range (p : Z) :
  (-2 <= p <= 3)%Z ->
  py_index [LOW; WARNING; HIGH] (p - 1) = Ok (severity_of p).
Proof.
  intros H.
  assert (p = -2 \/ p = -1 \/ p = 0 \/ p = 1 \/ p = 2 \/ p = 3)%Z
    as [->|[->|[->|[->|[->| ->]]]]] by lia; reflexivity.
Qed.

Lemma severity_index_out_of_range (p : Z) :
  (p <= -3 \/ 4 <= p)%Z ->
  py_index [LOW; WARNING; HIGH] (p - 1) = Raise IndexError.
Proof.
  intros H. unfold py_index. cbn [List.length Z.of_nat].
  destruct (p - 1 <? 0)%Z eqn:Hneg.
  - apply Z.ltb_lt in Hneg.
    assert (Hlow : (0 <=? p - 1 + Z.of_nat 3)%Z = false)
      by (apply Z.leb_gt; lia).
    cbn in Hlow |- *. rewrite Hlow. reflexivity.
  - apply Z.ltb_ge in Hneg.
    assert (Hhigh : (p - 1 <? Z.of_nat 3)%Z = false)
      by (apply Z.ltb_ge; lia).
    cbn in Hhigh |- *. rewrite Hhigh, andb_false_r. reflexivity.
Qed.

(** C4, as amended. For a payload carrying an id, a message and an
    integer priority [p]: priorities 1, 2 and 3 map to LOW, WARNING and
    HIGH; a priority of 4 or more, or of -3 or less, makes the mapping
    fail with the out-of-range error; priorities 0, -1 and -2 do not
    fail, the index counting from the end of the list (HIGH, WARNING,
    LOW). *)
Theorem severity_mapping (event e i m : value) (p : Z) :
  getitem event "event" = Ok e ->
  getitem e "id" = Ok i ->
  getitem e "message" = Ok m ->
  getitem e "priority" = Ok (VInt p) ->
  ((p <= -3 \/ 4 <= p)%Z -> map_event event = Raise IndexError)
  /\ ((-2 <= p <= 3)%Z ->
      forall d ts t,
        getitem e "event_definition_id" = Ok d ->
        getitem e "timestamp" = Ok (VStr ts) ->
        utc_isoformat (str_replace ts "z" "") = Ok t ->
        exists a, map_event event = Ok a
                  /\ AlertDto.severity a = severity_of p)
  /\ severity_of 1 = LOW /\ severity_of 2 = WARNING /\ severity_of 3 = HIGH
  /\ severity_of 0 = HIGH /\ severity_of (-1) = WARNING
  /\ severity_of (-2) = LOW.
Proof.
  intros He Hi Hm Hp.
  assert (Hd : exists d, event = VDict d).
  { destruct event; try discriminate. eauto. }
  destruct Hd as [d ->].
  assert (Hd : exists d', e = VDict d').
  { destruct e; try discriminate. eauto. }
  destruct Hd as [d' ->].
  split; [|split; [|repeat split]].
  - intros Hout. unfold __map_event_to_alert.
    rewrite He. cbn [rbind]. rewrite Hi, Hm, Hp. cbn [rbind get py_int].
    rewrite (severity_index_out_of_range Hout). reflexivity.
  - intros Hin dd ts t Hdd Hts Ht. unfold __map_event_to_alert.
    rewrite He. cbn [rbind]. rewrite Hi, Hm, Hp, Hdd, Hts.
    cbn [rbind get py_int value_replace].
    rewrite (severity_index_in_range Hin), Ht. cbn [rbind].
    eexists. split; reflexivity.
Qed.

Ltac step_result H :=
  match type of H with
  | rbind ?r _ = Ok _ =>
      let x := fresh "x" in
      let E := fresh "E" in
      destruct r as [x|] eqn:E; cbn [rbind] in H; [|discriminate H]
  end.



End MappingFacts.

Lemma severity_mapping_witness :
  __map_event_to_alert sample_utc_isoformat sample_digest
    (sample_event "01HX" 4 "cpu") = Raise IndexError
  /\ exists a,
      __map_event_to_alert sample_utc_isoformat sample_digest
        (sample_event "01HX" 2 "cpu") = Ok a
      /\ AlertDto.severity a = WARNING.
Proof.
  split.
  - refine (proj1 (@severity_mapping sample_utc_isoformat sample_digest
             (sample_event "01HX" 4 "cpu") _ _ _ 4%Z
             eq_refl eq_refl eq_refl eq_refl) _). lia.
  - refine (proj1 (proj2 (@severity_mapping sample_utc_isoformat sample_digest
             (sample_event "01HX" 2 "cpu") _ _ _ 2%Z
             eq_refl eq_refl eq_refl eq_refl)) _ _ _ _ eq_refl eq_refl eq_refl).
    lia.
Defined.

(** C4, as stated, fails: a payload of priority 0 is mapped, to severity
    HIGH, instead of being refused. *)
Lemma priority_zero_is_mapped_to_high :
  __map_event_to_alert sample_utc_isoformat sample_digest
    (sample_event "01HX" 0 "cpu") <> Raise IndexError
  /\ exists a,
      __map_event_to_alert sample_utc_isoformat sample_digest
        (sample_event "01HX" 0 "cpu") = Ok a
      /\ AlertDto.severity a = HIGH.
Proof.
  split; [discriminate|]. eexists. split; reflexivity.
Qed.


(* ------------------------------------------------------------------ *)
(** ** Digests of fixed width *)








(* ------------------------------------------------------------------ *)
(** ** Running the monad *)

Lemma run_bind {A B} (m : M A) (f : A -> M B) (w w' : World) (a : A) :
  m w = (Ok a, w') -> bind m f w = f a w'.
Proof. intros H. unfold bind. now rewrite H. Qed.

Lemma run_lift {A B} (a : A) (f : A -> M B) (w : World) :
  bind (lift (Ok a)) f w = f a w.
Proof. reflexivity. Qed.

Lemma run_ret {A B} (a : A) (f : A -> M B) (w : World) :
  bind (ret a) f w = f a w.
Proof. reflexivity. Qed.

Lemma run_reraising {A} (msg : string) (m : M A) (w w' : World) (a : A) :
  m w = (Ok a, w') -> reraising msg m w = (Ok a, w').
Proof. intros H. unfold reraising, try_except. now rewrite H. Qed.

Lemma issued_issued (l1 l2 : list Request) (w : World) :
  issued l2 (issued l1 w) = issued (l1 ++ l2) w.
Proof. unfold issued, set_requests. cbn. now rewrite app_assoc. Qed.

(* ------------------------------------------------------------------ *)
(** ** Host resolution and version detection *)

Section HostFacts.

Variable cfg : GraylogProviderAuthConfig.

Lemma host_cached_some (o : option string) :
  host_cached o = true -> exists h, o = Some h /\ h <> "".
Proof.
  destruct o as [h|]; [|discriminate]. cbn. intros H.
  exists h. split; [reflexivity|]. intros ->. discriminate.
Qed.

Lemma host_cached_intro (h : string) :
  h <> "" -> host_cached (Some h) = true.
Proof.
  intros H. cbn.
  destruct (String.eqb_spec h ""); [contradiction|reflexivity].
Qed.

(** Reading a cached host returns it and touches nothing. *)
Lemma graylog_host_cached (w : World) (h : string) :
  _host w = Some h -> h <> "" -> graylog_host cfg w = (Ok h, w).
Proof.
  intros Hh Hne. unfold graylog_host.
  rewrite Hh, (host_cached_intro Hne). reflexivity.
Qed.

(** Whatever branch a read takes, the value it returns is the one it
    leaves in [_host]. *)
Lemma graylog_host_memoizes (w w1 : World) (h : string) :
  graylog_host cfg w = (Ok h, w1) -> _host w1 = Some h.
Proof.
  unfold graylog_host. destruct (host_cached (_host w)) eqn:Hc.
  - destruct (host_cached_some _ Hc) as (h0 & Hh & _). rewrite Hh.
    intros [= <- <-]. exact Hh.
  - destruct (_ || _).
    + intros [= <- <-]. reflexivity.
    + destruct (https_probe w); intros [= <- <-]; reflexivity.
Qed.

(** Resolving the host never raises and leaves the requests issued and
    the planned faults as they were. *)
Lemma graylog_host_total (w : World) :
  exists h w1, graylog_host cfg w = (Ok h, w1)
               /\ requests w1 = requests w /\ faults w1 = faults w.
Proof.
  unfold graylog_host. destruct (host_cached (_host w)).
  - eauto.
  - destruct (_ || _); [eauto|].
    destruct (https_probe w); eauto.
Qed.

Lemma get_url_total (paths : list string) (w : World) :
  exists u w1, __get_url cfg paths w = (Ok u, w1)
               /\ requests w1 = requests w /\ faults w1 = faults w.
Proof.
  unfold __get_url, bind, ret.
  destruct (graylog_host_total w) as (h & w1 & -> & Hr & Hf). eauto.
Qed.

Lemma get_url_cached (paths : list string) (w : World) :
  host_cached (_host w) = true ->
  __get_url cfg paths w = (Ok (api_url w paths), w).
Proof.
  intros Hc. unfold __get_url, bind, graylog_host. rewrite Hc.
  reflexivity.
Qed.

(** C7. Once a read of the host has returned a non-empty value, every
    later read returns that value and sends no probe, whatever a probe
    would meet by then: the probes sent, the requests issued and the
    memoized host stay as the first read left them. *)
Theorem resolved_host_never_reprobed (w w1 : World) (h : string) :
  graylog_host cfg w = (Ok h, w1) ->
  h <> "" ->
  forall outcomes,
  exists w2,
    read_host_under cfg outcomes w1
      = (Ok (repeat h (List.length outcomes)), w2)
    /\ probes w2 = probes w1
    /\ requests w2 = requests w1
    /\ _host w2 = Some h.
Proof.
  intros Hfirst Hne outcomes.
  pose proof (graylog_host_memoizes _ Hfirst) as Hh. clear Hfirst.
  revert w1 Hh. induction outcomes as [|o rest IH]; intros w1 Hh.
  - exists w1. repeat split; auto.
  - cbn [read_host_under]. unfold bind at 1.
    rewrite (@graylog_host_cached (set_https_probe o w1) h Hh Hne).
    destruct (IH (set_https_probe o w1) Hh) as (w2 & Hrun & Hp & Hr & Hh2).
    unfold bind, ret. rewrite Hrun. exists w2. repeat split; auto.
Qed.


End HostFacts.

Lemma resolved_host_never_reprobed_witness :
  exists w1 w2,
    graylog_host bare_host_config world_unresolved
    = (Ok "https://graylog.internal:9000", w1)
    /\ probes w1 = ["https://graylog.internal:9000"%string]
    /\ read_host_under bare_host_config
         [ProbeSSLError; ProbeFailed; ProbeAnswered] w1
       = (Ok ["https://graylog.internal:9000"%string;
              "https://graylog.internal:9000"%string;
              "https://graylog.internal:9000"%string], w2)
    /\ probes w2 = probes w1.
Proof.
  eexists.
  destruct (@resolved_host_never_reprobed bare_host_config world_unresolved
              _ _ eq_refl ltac:(discriminate)
              [ProbeSSLError; ProbeFailed; ProbeAnswered])
    as (w2 & Hrun & Hp & _ & _).
  exists w2. split; [reflexivity|]. split; [reflexivity|].
  split; [exact Hrun|exact Hp].
Defined.


(* ------------------------------------------------------------------ *)
(** ** The HTTP helpers on a served request *)

Section Served.

Variable cfg : GraylogProviderAuthConfig.

Lemma send_served (url : string) (c : api_call) (w : World) :
  faults w (List.length (requests w)) = NoFault ->
  send url c w
  = (Ok (fst (serve c (issued [Build_Request url c] w))),
     snd (serve c (issued [Build_Request url c] w))).
Proof.
  intros Hf. unfold send. rewrite Hf.
  fold (issued [Build_Request url c] w).
  destruct (serve c _). reflexivity.
Qed.

(** Evaluates one HTTP helper on a world whose host is cached ([Hc]) and
    whose next request is free of fault ([Hf]). *)
Ltac serve_request Hc Hf :=
  unfold reraising, try_except;
  erewrite run_bind; [|apply (get_url_cached cfg _ _ Hc)];
  erewrite run_bind; [|apply (send_served _ _ _ Hf)];
  cbn [serve fst snd respond status_code content text Z.eqb negb
       Pos.eqb json raise ret lift].

Lemma get_events_served (page per_page : Z) (w : World) :
  host_cached (_host w) = true ->
  faults w (List.length (requests w)) = NoFault ->
  __get_events cfg page per_page w
  = (Ok (BEventDefinitions
           (page_slice page per_page (event_definitions w))
           (Z.of_nat (List.length (event_definitions w)))),
     issued [definitions_request w page per_page] w).
Proof.
  intros Hc Hf. unfold __get_events. serve_request Hc Hf. reflexivity.
Qed.

Lemma get_url_whitelist_served (w : World) :
  host_cached (_host w) = true ->
  faults w (List.length (requests w)) = NoFault ->
  __get_url_whitelist cfg w
  = (Ok (BUrlWhitelist (url_whitelist w)), issued [whitelist_read w] w).
Proof.
  intros Hc Hf. unfold __get_url_whitelist. serve_request Hc Hf.
  reflexivity.
Qed.

Lemma update_url_whitelist_served (u : UrlWhitelist) (w : World) :
  host_cached (_host w) = true ->
  faults w (List.length (requests w)) = NoFault ->
  __update_url_whitelist cfg u w
  = (Ok tt, set_url_whitelist u (issued [whitelist_write w u] w)).
Proof.
  intros Hc Hf. unfold __update_url_whitelist. serve_request Hc Hf.
  reflexivity.
Qed.

Lemma get_notification_served (name : string) (w : World) :
  host_cached (_host w) = true ->
  faults w (List.length (requests w)) = NoFault ->
  __get_notification cfg 1 1 name w
  = (let found :=
       page_slice 1 1
         (filter (title_matches ("title:" ++ name)) (notifications w)) in
     (Ok (BNotifications (Z.of_nat (List.length found)) found),
      issued [notification_query w name] w)).
Proof.
  intros Hc Hf. unfold __get_notification. serve_request Hc Hf.
  reflexivity.
Qed.

Lemma delete_notification_served (i : ident) (w : World) :
  host_cached (_host w) = true ->
  faults w (List.length (requests w)) = NoFault ->
  has_notification i (notifications w) = true ->
  __delete_notification cfg i w
  = (Ok tt,
     set_notifications
       (filter (fun n => negb (Notification.id n =? i)%nat)
               (notifications w))
       (issued [notification_delete w i] w)).
Proof.
  intros Hc Hf Hin. unfold __delete_notification. serve_request Hc Hf.
  change (notifications (issued _ w)) with (notifications w).
  rewrite Hin. reflexivity.
Qed.

Lemma create_notification_served (name : string) (nb : NotificationBody)
    (w : World) :
  host_cached (_host w) = true ->
  faults w (List.length (requests w)) = NoFault ->
  __create_notification cfg name nb w
  = (let n := Notification.mk (next_id w) (nb_title nb)
                              (nb_description nb) (nb_config nb) in
     (Ok (BNotification n),
      set_next_id (S (next_id w))
        (set_notifications (notifications w ++ [n])
           (issued [notification_create w nb] w)))).
Proof.
  intros Hc Hf. unfold __create_notification. serve_request Hc Hf.
  reflexivity.
Qed.

Lemma update_event_served (e : EventDefinition.t) (w : World) :
  host_cached (_host w) = true ->
  faults w (List.length (requests w)) = NoFault ->
  has_definition (EventDefinition.id e) (event_definitions w) = true ->
  __update_event cfg e w
  = (Ok tt,
     set_event_definitions
       (map (fun d =>
               if (EventDefinition.id d =? EventDefinition.id e)%nat
               then e else d)
            (event_definitions w))
       (issued [definition_write w e] w)).
Proof.
  intros Hc Hf Hin. unfold __update_event. serve_request Hc Hf.
  change (event_definitions (issued _ w)) with (event_definitions w).
  rewrite Hin. reflexivity.
Qed.

End Served.

(* ------------------------------------------------------------------ *)
(** ** Alert fetching and the query entry point *)

Section AlertFacts.

Variable cfg : GraylogProviderAuthConfig.
Variable utc_isoformat : string -> result string.
Variable digest : list value -> string.

Local Abbreviation map_event :=
  (__map_event_to_alert utc_isoformat digest).

(** A served alert search: one request, the backend's page as answer. *)
Lemma get_alerts_served (json_data pg pp : value) (w : World) :
  host_cached (_host w) = true ->
  faults w (List.length (requests w)) = NoFault ->
  getitem json_data "page" = Ok pg ->
  getitem json_data "per_page" = Ok pp ->
  __get_alerts cfg json_data w
  = (Ok (BEvents (fst (events_search w json_data))
                 (snd (events_search w json_data))),
     issued [search_request w json_data] w).
Proof.
  intros Hc Hf Hpg Hpp.
  unfold __get_alerts, reraising, try_except, bind, lift.
  rewrite Hpg, Hpp, (get_url_cached cfg _ _ Hc), (send_served _ _ _ Hf).
  cbn [serve]. change (events_search (issued _ w)) with (events_search w).
  destruct (events_search w json_data). reflexivity.
Qed.

(** Whatever happens, an alert search issues at most its one request. *)
Lemma get_alerts_requests (json_data : value) (w w' : World)
    (r : result body) :
  __get_alerts cfg json_data w = (r, w') ->
  requests w' = requests w
  \/ exists url,
      requests w'
      = requests w ++ [Build_Request url (PostEventsSearch json_data)].
Proof.
  unfold __get_alerts, reraising, try_except, bind at 1, lift.
  destruct (getitem json_data "page");
    [|cbn; intros [= <- <-]; now left].
  unfold bind at 1.
  destruct (getitem json_data "per_page");
    [|cbn; intros [= <- <-]; now left].
  unfold bind at 1.
  destruct (get_url_total cfg ["events"; "search"]%string w)
    as (u & w1 & -> & Hr & Hf).
  unfold bind, send.
  destruct (faults w1 (List.length (requests w1))); cbn.
  - destruct (events_search w1 json_data). cbn.
    intros [= <- <-]. right. exists u. cbn. now rewrite Hr.
  - intros [= <- <-]. right. exists u. cbn. now rewrite Hr.
  - intros [= <- <-]. right. exists u. cbn. now rewrite Hr.
Qed.

Lemma page_overwritten (p q : Z) :
  dict_set "page" (VInt p) (dict_set "page" (VInt q) alerts_json_data)
  = dict_set "page" (VInt p) alerts_json_data.
Proof. reflexivity. Qed.

(** The paging loop of [_get_alerts] on a healthy backend: one request a
    page, in order, the pages' events appended in order. *)
Lemma alert_pages_served (w : World) :
  host_cached (_host w) = true ->
  healthy w ->
  forall pages q acc l0, exists json_data,
    for_fold pages (dict_set "page" (VInt q) alerts_json_data, acc)
      (fun st page =>
         let json_data := dict_set "page" (VInt page) (fst st) in
         bind (__get_alerts cfg (VDict json_data))
           (fun alerts =>
              bind (lift (body_events alerts))
                (fun more => ret (json_data, (snd st ++ more)%list))))
      (issued l0 w)
    = (Ok (json_data,
           acc ++ concat (map (fun p => fst (events_search w (page_data p)))
                              pages)),
       issued (l0 ++ map (fun p => search_request w (page_data p)) pages) w).
Proof.
  intros Hc Hh. induction pages as [|p pages IH]; intros q acc l0.
  - eexists. cbn. now rewrite !app_nil_r.
  - cbn [for_fold fst snd]. unfold bind at 1. unfold bind at 1.
    rewrite page_overwritten.
    erewrite get_alerts_served;
      [|exact Hc|apply Hh|reflexivity|reflexivity].
    cbn [lift body_events]. unfold bind at 1, lift, ret.
    rewrite issued_issued.
    change (events_search (issued l0 w)) with (events_search w).
    change (search_request (issued l0 w)) with (search_request w).
    fold (page_data p).
    destruct (IH p (acc ++ fst (events_search w (page_data p)))
                (l0 ++ [search_request w (page_data p)]))
      as (json_data & Hrest).
    exists json_data.
    rewrite <- !app_assoc in Hrest. exact Hrest.
Qed.

(** C6. On a backend that answers every request with events the mapping
    accepts, the alert fetch asks for pages 1 to max(10, ceil(total /
    1000)), the total being the one the first page reports, one request a
    page, and returns as many alerts as those pages hold events; for a
    total of 2500 that is 10 requests. *)
Theorem alert_fetch_pagination (w : World) :
  host_cached (_host w) = true ->
  healthy w ->
  let total := snd (events_search w (page_data 1)) in
  let page_count := Z.max 10 (ceil_div total 1000) in
  let pages := range 1 (page_count + 1) in
  let fetched := map (fun p => fst (events_search w (page_data p))) pages in
  (forall ev, In ev (concat fetched) -> exists a, map_event ev = Ok a) ->
  exists alerts,
    _get_alerts cfg utc_isoformat digest w
    = (Ok alerts,
       issued (map (fun p => search_request w (page_data p)) pages) w)
    /\ List.length pages = Z.to_nat page_count
    /\ List.length alerts = list_sum (map (@List.length value) fetched)
    /\ (total = 2500%Z -> page_count = 10%Z).
Proof.
  intros Hc Hh total page_count pages fetched Hvalid.
  destruct (mapR_total map_event (concat fetched) Hvalid)
    as (alerts & Hmap & Hlen).
  exists alerts.
  assert (Hpc : (10 <= page_count)%Z) by (unfold page_count; lia).
  split; [|split; [|split]].
  - assert (Hpages : pages = 1%Z :: range 2 (page_count + 1)).
    { unfold pages. rewrite range_cons by lia. reflexivity. }
    destruct (alert_pages_served Hc Hh (range 2 (page_count + 1)) 1
                (fst (events_search w (page_data 1)))
                [search_request w (page_data 1)])
      as (json_data & Hloop).
    unfold _get_alerts.
    erewrite run_bind;
      [|eapply get_alerts_served;
        [exact Hc|apply Hh|reflexivity|reflexivity]].
    cbn [body_events body_total_events]. rewrite !run_lift.
    erewrite run_bind; [|exact Hloop].
    cbn [snd]. unfold lift.
    change (fst (events_search w (page_data 1)) ++
            concat (map (fun p => fst (events_search w (page_data p)))
                        (range 2 (page_count + 1))))
      with (concat (map (fun p => fst (events_search w (page_data p)))
                        (1%Z :: range 2 (page_count + 1)))).
    rewrite <- Hpages. fold fetched. rewrite Hmap.
    rewrite Hpages. reflexivity.
  - unfold pages. rewrite range_length. f_equal. lia.
  - rewrite Hlen. apply length_concat.
  - intros Ht. unfold page_count. rewrite Ht. reflexivity.
Qed.

(** C9. With an empty string under ['query'] in the parameter mapping and
    no truthy ['query'] keyword argument, [_query] is the alert-search
    branch: it issues no request other than to the alert-search endpoint,
    with the mapping as body, and exactly that one request when the
    mapping carries a page and a page size and the request is served. *)
Theorem empty_query_dispatches_to_alert_search
    (events_search_parameters kwargs : list (string * value))
    (query_id search_type_id : string) :
  assoc "query" events_search_parameters = Some (VStr "") ->
  truthy (dget kwargs "query" VNone) = false ->
  _query cfg utc_isoformat digest events_search_parameters kwargs
         query_id search_type_id
  = alert_search_path cfg utc_isoformat digest events_search_parameters
  /\ (forall w r w',
        _query cfg utc_isoformat digest events_search_parameters kwargs
               query_id search_type_id w = (r, w') ->
        requests w' = requests w
        \/ exists url,
            requests w'
            = requests w ++
              [Build_Request url
                 (PostEventsSearch (VDict events_search_parameters))])
  /\ (forall w pg pp,
        host_cached (_host w) = true ->
        faults w (List.length (requests w)) = NoFault ->
        assoc "page" events_search_parameters = Some pg ->
        assoc "per_page" events_search_parameters = Some pp ->
        snd (_query cfg utc_isoformat digest events_search_parameters kwargs
                    query_id search_type_id w)
        = issued [search_request w (VDict events_search_parameters)] w).
Proof.
  intros Hq Hk.
  assert (Heq : _query cfg utc_isoformat digest events_search_parameters
                  kwargs query_id search_type_id
                = alert_search_path cfg utc_isoformat digest
                    events_search_parameters).
  { unfold _query, py_or. rewrite Hk. unfold dget at 1. rewrite Hq.
    reflexivity. }
  split; [exact Heq|]. rewrite Heq. split.
  - intros w r w'. unfold alert_search_path, bind at 1.
    destruct (__get_alerts cfg (VDict events_search_parameters) w)
      as [[b|e] w1] eqn:Hrun.
    + apply get_alerts_requests in Hrun.
      unfold bind, lift, ret.
      destruct (body_events b); [destruct (mapR _ _)|];
        intros [= <- <-]; exact Hrun.
    + apply get_alerts_requests in Hrun. intros [= <- <-]. exact Hrun.
  - intros w pg pp Hc Hf Hpg Hpp. unfold alert_search_path, bind at 1.
    erewrite get_alerts_served;
      [|exact Hc|exact Hf|cbn; rewrite Hpg; reflexivity
       |cbn; rewrite Hpp; reflexivity].
    unfold bind, lift, ret. cbn [body_events].
    destruct (mapR _ _); reflexivity.
Qed.

End AlertFacts.

Lemma alert_fetch_pagination_witness :
  exists alerts,
    _get_alerts sample_config sample_utc_isoformat sample_digest
                world_with_alerts
    = (Ok alerts,
       issued (map (fun p => search_request world_with_alerts (page_data p))
                   (range 1 11)) world_with_alerts)
    /\ List.length (range 1 11) = 10%nat
    /\ List.length alerts = 6%nat.
Proof.
  destruct (@alert_fetch_pagination sample_config sample_utc_isoformat
              sample_digest world_with_alerts eq_refl
              (fun n => eq_refl)) as (alerts & Hrun & Hpages & Hlen & _).
  - intros ev Hin. vm_compute in Hin.
    repeat (destruct Hin as [<-|Hin]; [eexists; reflexivity|]).
    destruct Hin.
  - exists alerts. split; [exact Hrun|]. split; [exact Hpages|exact Hlen].
Defined.

Lemma empty_query_dispatches_to_alert_search_witness :
  snd (_query sample_config sample_utc_isoformat sample_digest
              empty_query_parameters [] "q-1" "s-1"
              (sample_world [] [] [] 0))
  = issued [search_request (sample_world [] [] [] 0)
                           (VDict empty_query_parameters)]
           (sample_world [] [] [] 0).
Proof.
  apply (proj2 (proj2 (@empty_query_dispatches_to_alert_search sample_config
           sample_utc_isoformat sample_digest empty_query_parameters []
           "q-1" "s-1" eq_refl eq_refl))
         (sample_world [] [] [] 0) (VInt 1) (VInt 50));
    reflexivity.
Defined.

(* ------------------------------------------------------------------ *)
(** ** Webhook provisioning *)

Section WebhookFacts.

Variable cfg : GraylogProviderAuthConfig.
Variable is_v4 : bool.

(** The whitelist step when an entry carries the callback URL: the read
    and nothing else. *)
Lemma whitelist_url_present (notification_name uuid4 keep_api_url : string)
    (w : World) :
  host_cached (_host w) = true ->
  faults w (List.length (requests w)) = NoFault ->
  (exists e, In e (entries (url_whitelist w))
             /\ WhitelistEntry.value e = keep_api_url) ->
  whitelist_url cfg notification_name keep_api_url uuid4 w
  = (Ok tt, issued [whitelist_read w] w).
Proof.
  intros Hc Hf (e & Hin & Hval). unfold whitelist_url.
  erewrite run_bind; [|apply (get_url_whitelist_served cfg _ Hc Hf)].
  cbv beta iota. rewrite run_lift.
  assert (Hex : existsb (fun entry => WhitelistEntry.value entry =? keep_api_url)
                  (entries (url_whitelist w)) = true).
  { apply existsb_exists. exists e. split; [exact Hin|].
    now apply String.eqb_eq. }
  rewrite Hex. reflexivity.
Qed.

(** The whitelist step when no entry carries the callback URL: the read,
    then the write of the list extended by one literal entry. *)
Lemma whitelist_url_absent (notification_name uuid4 keep_api_url : string)
    (w : World) :
  host_cached (_host w) = true ->
  faults w (List.length (requests w)) = NoFault ->
  (forall e, In e (entries (url_whitelist w)) ->
             WhitelistEntry.value e <> keep_api_url) ->
  faults w (S (List.length (requests w))) = NoFault ->
  let extended :=
    {| entries :=
         entries (url_whitelist w) ++
         [WhitelistEntry.mk uuid4 notification_name keep_api_url "literal"];
       disabled := disabled (url_whitelist w) |} in
  whitelist_url cfg notification_name keep_api_url uuid4 w
  = (Ok tt,
     set_url_whitelist extended
       (issued [whitelist_read w; whitelist_write w extended] w)).
Proof.
  intros Hc Hf Hnone Hf2 extended. unfold whitelist_url.
  erewrite run_bind; [|apply (get_url_whitelist_served cfg _ Hc Hf)].
  cbv beta iota. rewrite run_lift.
  assert (Hex : existsb (fun entry => WhitelistEntry.value entry =? keep_api_url)
                  (entries (url_whitelist w)) = false).
  { apply not_true_is_false. intros Hex.
    apply existsb_exists in Hex as (e & Hin & Hval).
    apply String.eqb_eq in Hval. exact (Hnone e Hin Hval). }
  rewrite Hex. cbn [negb].
  rewrite update_url_whitelist_served.
  - rewrite issued_issued. reflexivity.
  - exact Hc.
  - unfold issued. cbn. rewrite length_app. cbn.
    rewrite Nat.add_1_r. exact Hf2.
Qed.


(** The paging loop of the enumeration on a healthy backend. *)
Lemma definition_pages_served (w : World) :
  host_cached (_host w) = true ->
  healthy w ->
  forall pages acc l0,
    for_fold pages acc
      (fun event_definitions page =>
         bind (__get_events cfg page 100)
           (fun events =>
              bind (lift (body_event_definitions events))
                (fun more => ret (event_definitions ++ more)%list)))
      (issued l0 w)
    = (Ok (acc ++ concat (map (fun p => page_slice p 100 (event_definitions w))
                              pages)),
       issued (l0 ++ map (fun p => definitions_request w p 100) pages) w).
Proof.
  intros Hc Hh. induction pages as [|p pages IH]; intros acc l0.
  - cbn. now rewrite !app_nil_r.
  - cbn [for_fold].
    erewrite run_bind.
    2:{ erewrite run_bind;
          [|apply (get_events_served cfg p 100 (issued l0 w) Hc (Hh _))].
        cbn [body_event_definitions]. rewrite run_lift. reflexivity. }
    rewrite issued_issued.
    change (event_definitions (issued l0 w)) with (event_definitions w).
    change (definitions_request (issued l0 w)) with (definitions_request w).
    rewrite IH. cbn [map concat]. now rewrite <- !app_assoc.
Qed.

Lemma collect_event_definitions_served (w : World) :
  host_cached (_host w) = true ->
  healthy w ->
  collect_event_definitions cfg w
  = (Ok (concat (map (fun p => page_slice p 100 (event_definitions w))
                     (pages_fetched w))),
     issued (map (fun p => definitions_request w p 100) (pages_fetched w)) w).
Proof.
  intros Hc Hh. unfold collect_event_definitions.
  erewrite run_bind; [|apply (get_events_served cfg 1 100 w Hc (Hh _))].
  cbn [body_event_definitions body_total]. rewrite !run_lift.
  rewrite (definition_pages_served Hc Hh). reflexivity.
Qed.

(** With more than one page of definitions, the enumeration stops one
    page short: the last page is never asked for and the collected list
    is shorter than the backend's. *)
Lemma last_page_never_fetched (w : World) :
  host_cached (_host w) = true ->
  healthy w ->
  (100 < List.length (event_definitions w))%nat ->
  let total_pages :=
    ceil_div (Z.of_nat (List.length (event_definitions w))) 100 in
  exists collected,
    collect_event_definitions cfg w
    = (Ok collected,
       issued (map (fun p => definitions_request w p 100) (pages_fetched w))
              w)
    /\ ~ In total_pages (pages_fetched w)
    /\ (List.length collected < List.length (event_definitions w))%nat.
Proof.
  intros Hc Hh Hlen total_pages. eexists.
  split; [apply (collect_event_definitions_served Hc Hh)|].
  pose proof (ceil_div_100 (Z.of_nat (List.length (event_definitions w))))
    as Hceil. fold total_pages in Hceil.
  split.
  - unfold pages_fetched. fold total_pages. intros [H1|Hin]; [lia|].
    apply in_range in Hin. lia.
  - eapply Nat.le_lt_trans; [apply concat_slices_length|].
    unfold pages_fetched. fold total_pages.
    cbn [List.length]. rewrite range_length. lia.
Qed.

(** A single page of definitions is collected whole. *)
Lemma collect_single_page (w : World) :
  host_cached (_host w) = true ->
  healthy w ->
  (List.length (event_definitions w) <= 100)%nat ->
  collect_event_definitions cfg w
  = (Ok (event_definitions w), issued [definitions_request w 1 100] w).
Proof.
  intros Hc Hh Hlen. rewrite (collect_event_definitions_served Hc Hh).
  pose proof (ceil_div_100 (Z.of_nat (List.length (event_definitions w))))
    as Hceil.
  unfold pages_fetched, range.
  replace (Z.to_nat (ceil_div _ 100 - 2)) with 0%nat by lia.
  cbn [seq map concat]. rewrite app_nil_r.
  unfold page_slice. cbn [Z.sub Z.mul Z.to_nat Z.add Z.opp Z.pos_sub skipn].
  rewrite firstn_all2 by (change (Z.to_nat 100) with 100%nat; lia).
  reflexivity.
Qed.
Lemma title_query_matches (name : string) (n : Notification.t) :
  title_matches ("title:" ++ name) n = (Notification.title n =? name).
Proof.
  unfold title_matches. cbn. apply String.eqb_sym.
Qed.

Lemma whitelist_url_steady (name url uuid4 : string) (w : World) :
  host_cached (_host w) = true ->
  healthy w ->
  exists w',
    whitelist_url cfg name url uuid4 w = (Ok tt, w')
    /\ _host w' = _host w /\ faults w' = faults w
    /\ event_definitions w' = event_definitions w
    /\ notifications w' = notifications w
    /\ next_id w' = next_id w.
Proof.
  intros Hc Hh.
  destruct (existsb (fun e => WhitelistEntry.value e =? url)
                    (entries (url_whitelist w))) eqn:Hex.
  - eexists. split.
    + apply whitelist_url_present; [exact Hc|apply Hh|].
      apply existsb_exists in Hex as (e & He & Hv).
      exists e. split; [exact He|now apply String.eqb_eq].
    + repeat split.
  - eexists. split.
    + apply whitelist_url_absent; [exact Hc|apply Hh| |apply Hh].
      intros e He Hv.
      assert (existsb (fun e => WhitelistEntry.value e =? url)
                      (entries (url_whitelist w)) = true) as Habs.
      { apply existsb_exists. exists e. split; [exact He|].
        now apply String.eqb_eq. }
      congruence.
    + repeat split.
Qed.

Lemma replace_notification_served (name url key : string) (w : World) :
  host_cached (_host w) = true ->
  healthy w ->
  let stale := stale_of name w in
  let nb := notification_body_of is_v4 name url key in
  let n := Notification.mk (next_id w) name (nb_description nb)
                           (nb_config nb) in
  exists w',
    replace_notification cfg is_v4 name url key w
    = (Ok (stale, BNotification n), w')
    /\ _host w' = _host w /\ faults w' = faults w
    /\ event_definitions w' = event_definitions w
    /\ notifications w' = without_stale stale (notifications w) ++ [n]
    /\ next_id w' = S (next_id w).
Proof.
  intros Hc Hh stale nb n. unfold replace_notification.
  erewrite run_bind; [|apply (get_notification_served cfg name w Hc (Hh _))].
  cbv zeta. cbn [body_count]. rewrite run_lift.
  unfold stale, stale_of.
  destruct (filter (title_matches ("title:" ++ name)) (notifications w))
    as [|n0 rest] eqn:Hfound.
  - change (page_slice 1 1 (@nil Notification.t)) with (@nil Notification.t).
    change (0 <? Z.of_nat (List.length (@nil Notification.t)))%Z with false.
    cbv iota. rewrite run_ret.
    erewrite run_bind;
      [|apply (create_notification_served cfg name nb (issued _ w) Hc (Hh _))].
    eexists. split; [reflexivity|]. repeat split.
  - apply filter_head_in in Hfound as [Hin _].
    assert (Hslice : page_slice 1 1 (n0 :: rest) = [n0]) by reflexivity.
    rewrite Hslice.
    change (0 <? Z.of_nat (List.length [n0]))%Z with true.
    cbv iota. cbn [body_notifications].
    assert (Hhas : has_notification (Notification.id n0)
                     (notifications (issued [notification_query w name] w))
                   = true).
    { apply existsb_exists. exists n0. split; [exact Hin|].
      apply Nat.eqb_refl. }
    erewrite run_bind.
    2:{ rewrite run_lift.
        change (py_index [n0] 0) with (Ok n0). rewrite run_lift.
        erewrite run_bind;
          [|apply (delete_notification_served cfg _ (issued _ w) Hc (Hh _) Hhas)].
        reflexivity. }
    erewrite run_bind;
      [|apply create_notification_served; [exact Hc|apply Hh]].
    eexists. split; [reflexivity|]. repeat split.
Qed.

Lemma skipped_total (d : EventDefinition.t) :
  (is_v4 = false -> EventDefinition._scope d <> None) ->
  exists b, skipped is_v4 d = Ok b.
Proof.
  intros H. unfold skipped. destruct is_v4; cbn; [eauto|].
  destruct (EventDefinition._scope d); [eauto|].
  now specialize (H eq_refl).
Qed.

Lemma replace_by_id (done l : list EventDefinition.t)
    (d d' : EventDefinition.t) :
  NoDup (map EventDefinition.id (done ++ d :: l)) ->
  EventDefinition.id d' = EventDefinition.id d ->
  map (fun x => if (EventDefinition.id x =? EventDefinition.id d')%nat
                then d' else x) (done ++ d :: l)
  = done ++ d' :: l.
Proof.
  intros Hnd Hid. rewrite map_app in Hnd. cbn [map] in Hnd.
  pose proof (NoDup_remove_2 _ _ _ Hnd) as Hnotin.
  rewrite map_app. cbn [map]. rewrite Hid, Nat.eqb_refl.
  f_equal; [|f_equal].
  - rewrite <- (map_id done) at 2. apply map_ext_in. intros x Hx.
    destruct (Nat.eqb_spec (EventDefinition.id x) (EventDefinition.id d))
      as [Heq|]; [|reflexivity].
    exfalso. apply Hnotin. apply in_or_app. left.
    rewrite <- Heq. now apply in_map.
  - rewrite <- (map_id l) at 2. apply map_ext_in. intros x Hx.
    destruct (Nat.eqb_spec (EventDefinition.id x) (EventDefinition.id d))
      as [Heq|]; [|reflexivity].
    exfalso. apply Hnotin. apply in_or_app. right.
    rewrite <- Heq. now apply in_map.
Qed.

Lemma rebound_id (stale : option ident) (new_id : ident)
    (d : EventDefinition.t) :
  EventDefinition.id (rebound is_v4 stale new_id d) = EventDefinition.id d.
Proof.
  unfold rebound. destruct (skipped is_v4 d) as [[|]|]; reflexivity.
Qed.

Lemma rebind_definitions_served (stale : option ident)
    (newn : Notification.t) :
  forall l done w,
    host_cached (_host w) = true ->
    healthy w ->
    event_definitions w = done ++ l ->
    NoDup (map EventDefinition.id (done ++ l)) ->
    (is_v4 = false ->
     forall d, In d l -> EventDefinition._scope d <> None) ->
    exists w',
      rebind_definitions cfg is_v4 l stale (BNotification newn) w
      = (Ok tt, w')
      /\ _host w' = _host w /\ faults w' = faults w
      /\ notifications w' = notifications w
      /\ next_id w' = next_id w
      /\ event_definitions w'
         = done ++ map (rebound is_v4 stale (Notification.id newn)) l.
Proof.
  induction l as [|d l IH]; intros done w Hc Hh Hdefs Hnd Hscope.
  - exists w. cbn. rewrite app_nil_r in *. repeat split; auto.
  - destruct (skipped_total d) as [b Hskip].
    { intros Hv. apply (Hscope Hv). now left. }
    assert (Hscope' : is_v4 = false ->
              forall d0, In d0 l -> EventDefinition._scope d0 <> None).
    { intros Hv d0 Hd0. apply (Hscope Hv). now right. }
    unfold rebind_definitions in *. cbn [for_each].
    destruct b.
    + erewrite run_bind; [|rewrite Hskip, run_lift; reflexivity].
      destruct (IH (done ++ [d]) w Hc Hh) as (w' & Hrun & H1 & H2 & H3 & H4 & H5).
      * now rewrite <- app_assoc.
      * now rewrite <- app_assoc.
      * exact Hscope'.
      * exists w'. split; [exact Hrun|]. repeat split; auto.
        rewrite H5, <- app_assoc. cbn [map app].
        unfold rebound at 2. now rewrite Hskip.
    + set (d' := EventDefinition.set_notifications
                   (pop_stale stale (EventDefinition.notifications d)
                    ++ [{| notification_id := Notification.id newn |}]) d).
      assert (Hhas : has_definition (EventDefinition.id d')
                       (event_definitions w) = true).
      { apply existsb_exists. exists d. split.
        - rewrite Hdefs. apply in_or_app. right. now left.
        - apply Nat.eqb_refl. }
      erewrite run_bind.
      2:{ rewrite Hskip, run_lift. cbn [body_id]. rewrite run_lift.
          apply (update_event_served cfg d' w Hc (Hh _) Hhas). }
      rewrite Hdefs, (replace_by_id done l d d' Hnd eq_refl).
      match goal with |- context [for_each l ?f ?w1] => set (w1' := w1) end.
      destruct (IH (done ++ [d']) w1' Hc Hh)
        as (w' & Hrun & H1 & H2 & H3 & H4 & H5).
      * unfold w1'. cbn. now rewrite <- app_assoc.
      * rewrite <- app_assoc. cbn [app].
        rewrite map_app in Hnd |- *. exact Hnd.
      * exact Hscope'.
      * exists w'. split; [exact Hrun|]. repeat split; auto.
        rewrite H5, <- app_assoc. cbn [map app].
        unfold rebound at 2. now rewrite Hskip.
Qed.

Lemma setup_webhook_served (tenant_id keep_api_url api_key : string)
    (setup_alerts : bool) (uuid4 : string) (w : World) :
  host_cached (_host w) = true ->
  healthy w ->
  (List.length (event_definitions w) <= 100)%nat ->
  NoDup (map EventDefinition.id (event_definitions w)) ->
  scopes_reported is_v4 w ->
  let name := notification_name_of keep_api_url in
  let stale := stale_of name w in
  let nb :=
    notification_body_of is_v4 name (effective_url is_v4 keep_api_url api_key)
                         api_key in
  let n := Notification.mk (next_id w) name (nb_description nb)
                           (nb_config nb) in
  exists w',
    setup_webhook cfg is_v4 tenant_id keep_api_url api_key setup_alerts
                  uuid4 w = (Ok tt, w')
    /\ _host w' = _host w /\ faults w' = faults w
    /\ notifications w' = without_stale stale (notifications w) ++ [n]
    /\ next_id w' = S (next_id w)
    /\ event_definitions w'
       = map (rebound is_v4 stale (next_id w)) (event_definitions w).
Proof.
  intros Hc Hh Hlen Hnd Hscope name stale nb n.
  destruct (@whitelist_url_steady name
              (effective_url is_v4 keep_api_url api_key)
              uuid4 (issued [definitions_request w 1 100] w) Hc Hh)
    as (wB & HrunB & HB1 & HB2 & HB3 & HB4 & HB5).
  assert (HcB : host_cached (_host wB) = true) by (rewrite HB1; exact Hc).
  assert (HhB : healthy wB) by (intros k; rewrite HB2; apply Hh).
  destruct (@replace_notification_served name
              (effective_url is_v4 keep_api_url api_key) api_key wB HcB HhB)
    as (wC & HrunC & HC1 & HC2 & HC3 & HC4 & HC5).
  assert (HcC : host_cached (_host wC) = true) by (rewrite HC1; exact HcB).
  assert (HhC : healthy wC) by (intros k; rewrite HC2; apply HhB).
  destruct (@rebind_definitions_served (stale_of name wB)
              (Notification.mk (next_id wB) name
                 (nb_description nb) (nb_config nb))
              (event_definitions w) [] wC HcC HhC)
    as (wD & HrunD & HD1 & HD2 & HD3 & HD4 & HD5).
  { rewrite HC3, HB3. reflexivity. }
  { exact Hnd. }
  { exact Hscope. }
  assert (Hstale : stale_of name wB = stale).
  { unfold stale, stale_of. rewrite HB4. reflexivity. }
  exists wD. split.
  - unfold setup_webhook. apply run_reraising.
    erewrite run_bind; [|apply (collect_single_page Hc Hh Hlen)].
    erewrite run_bind; [|exact HrunB].
    erewrite run_bind; [|exact HrunC].
    cbn [fst snd]. exact HrunD.
  - rewrite HD1, HC1, HB1, HD2, HC2, HB2, HD3, HC4, HB4, HD4, HC5, HB5, HD5.
    rewrite Hstale. cbn [Notification.id]. rewrite HB5.
    repeat split.
Qed.

Lemma skipped_rebound (stale : option ident) (new_id : ident)
    (d : EventDefinition.t) :
  skipped is_v4 (rebound is_v4 stale new_id d) = skipped is_v4 d.
Proof.
  unfold rebound. destruct (skipped is_v4 d) as [[|]|] eqn:H; exact H.
Qed.

Lemma pop_stale_incl (stale : option ident) (l : list NotificationRef)
    (r : NotificationRef) :
  In r (pop_stale stale l) -> In r l.
Proof.
  induction l as [|x l IH]; cbn [pop_stale]; [auto|].
  destruct stale as [i|].
  - destruct (notification_id x =? i)%nat.
    + intros H. now right.
    + intros [->|H]; [now left|right; auto].
  - intros [->|H]; [now left|right; auto].
Qed.

Lemma stale_of_titled (name : string) (w : World) :
  stale_of name w
  = match titled name w with
    | n :: _ => Some (Notification.id n)
    | [] => None
    end.
Proof.
  unfold stale_of, titled.
  rewrite (filter_ext _ _ (title_query_matches name)). reflexivity.
Qed.

(** Once the stale notification is deleted, none of that title is left,
    provided there was at most one. *)
Lemma without_stale_untitled (name : string) (w : World) :
  (List.length (titled name w) <= 1)%nat ->
  forall x, In x (without_stale (stale_of name w) (notifications w)) ->
            (Notification.title x =? name) = false.
Proof.
  intros Hone x Hx. rewrite stale_of_titled in Hx.
  destruct (Notification.title x =? name) eqn:Ht; [exfalso|reflexivity].
  destruct (titled name w) as [|m [|m' rest]] eqn:Htitled.
  - cbn in Hx. assert (In x (titled name w)) as Hin.
    { apply filter_In. split; assumption. }
    rewrite Htitled in Hin. exact Hin.
  - cbn in Hx. apply filter_In in Hx as [Hx Hid].
    assert (In x (titled name w)) as Hin.
    { apply filter_In. split; assumption. }
    rewrite Htitled in Hin. destruct Hin as [<-|[]].
    rewrite Nat.eqb_refl in Hid. discriminate.
  - cbn in Hone. lia.
Qed.

Lemma scope_rebound (stale : option ident) (new_id : ident)
    (d : EventDefinition.t) :
  EventDefinition._scope (rebound is_v4 stale new_id d)
  = EventDefinition._scope d.
Proof.
  unfold rebound. destruct (skipped is_v4 d) as [[|]|]; reflexivity.
Qed.

(** C1, as amended. On a backend that answers every request, holds at
    most one page of event definitions with distinct identifiers (their
    scope reported unless the backend is v4), refers only to identifiers
    it has issued, and has at most one notification of the derived title:
    two runs of [setup_webhook] in succession, with the same tenant,
    callback URL and API key, both succeed and leave exactly one
    notification of that title, to which every event definition that the
    run does not pass over (all of them on v4, those whose scope is not
    SYSTEM_NOTIFICATION_EVENT otherwise) refers exactly once. *)
Theorem provisioning_twice (tenant_id keep_api_url api_key : string)
    (setup_alerts : bool) (uuid_1 uuid_2 : string) (w : World) :
  host_cached (_host w) = true ->
  healthy w ->
  (List.length (event_definitions w) <= 100)%nat ->
  NoDup (map EventDefinition.id (event_definitions w)) ->
  scopes_reported is_v4 w ->
  references_issued w ->
  (List.length (titled (notification_name_of keep_api_url) w) <= 1)%nat ->
  exists w1 w2 n,
    setup_webhook cfg is_v4 tenant_id keep_api_url api_key setup_alerts
                  uuid_1 w = (Ok tt, w1)
    /\ setup_webhook cfg is_v4 tenant_id keep_api_url api_key setup_alerts
                     uuid_2 w1 = (Ok tt, w2)
    /\ titled (notification_name_of keep_api_url) w2 = [n]
    /\ forall d,
         In d (event_definitions w2) ->
         skipped is_v4 d = Ok false ->
         references (Notification.id n) d = 1%nat.
Proof.
  intros Hc Hh Hlen Hnd Hscope Hrefs Hone.
  set (name := notification_name_of keep_api_url) in *.
  destruct (@setup_webhook_served tenant_id keep_api_url api_key setup_alerts
              uuid_1 w Hc Hh Hlen Hnd Hscope)
    as (w1 & Hrun1 & A1 & A2 & A3 & A4 & A5).
  fold name in A3, A5.
  set (nb := notification_body_of is_v4 name
               (effective_url is_v4 keep_api_url api_key) api_key) in *.
  set (n1 := Notification.mk (next_id w) name (nb_description nb)
                             (nb_config nb)) in *.
  assert (Hc1 : host_cached (_host w1) = true) by (rewrite A1; exact Hc).
  assert (Hh1 : healthy w1) by (intros k; rewrite A2; apply Hh).
  assert (Hlen1 : (List.length (event_definitions w1) <= 100)%nat).
  { rewrite A5, length_map. exact Hlen. }
  assert (Hnd1 : NoDup (map EventDefinition.id (event_definitions w1))).
  { rewrite A5, map_map.
    rewrite (map_ext _ EventDefinition.id
               (fun d => rebound_id (stale_of name w) (next_id w) d)).
    exact Hnd. }
  assert (Hscope1 : scopes_reported is_v4 w1).
  { intros Hv d Hd. rewrite A5 in Hd.
    apply in_map_iff in Hd as (d0 & <- & Hd0).
    rewrite scope_rebound. exact (Hscope Hv d0 Hd0). }
  destruct (@setup_webhook_served tenant_id keep_api_url api_key setup_alerts
              uuid_2 w1 Hc1 Hh1 Hlen1 Hnd1 Hscope1)
    as (w2 & Hrun2 & B1 & B2 & B3 & B4 & B5).
  fold name in B3, B5. fold nb in B3.
  set (n2 := Notification.mk (next_id w1) name (nb_description nb)
                             (nb_config nb)) in *.
  assert (Htitled1 : titled name w1 = [n1]).
  { unfold titled. rewrite A3, filter_app.
    rewrite (filter_none _ _ (without_stale_untitled name w Hone)).
    cbn. now rewrite String.eqb_refl. }
  assert (Hstale1 : stale_of name w1 = Some (next_id w)).
  { rewrite stale_of_titled, Htitled1. reflexivity. }
  exists w1, w2, n2. split; [exact Hrun1|]. split; [exact Hrun2|]. split.
  - unfold titled. rewrite B3, filter_app, Hstale1.
    rewrite filter_none.
    + cbn. now rewrite String.eqb_refl.
    + intros x Hx. cbn [without_stale] in Hx.
      apply filter_In in Hx as [Hx Hid]. rewrite A3 in Hx.
      apply in_app_or in Hx as [Hx|[<-|[]]].
      * exact (without_stale_untitled name w Hone x Hx).
      * cbn in Hid. rewrite Nat.eqb_refl in Hid. discriminate.
  - intros d Hd Hskip. rewrite B5, A5 in Hd.
    apply in_map_iff in Hd as (d1 & <- & Hd1).
    apply in_map_iff in Hd1 as (d0 & <- & Hd0).
    rewrite !skipped_rebound in Hskip.
    cbn [Notification.id n2].
    unfold rebound at 1. rewrite skipped_rebound, Hskip.
    unfold rebound. rewrite Hskip.
    unfold references. cbn [EventDefinition.notifications
                             EventDefinition.set_notifications].
    rewrite map_app, count_occ_app. cbn [map count_occ notification_id].
    destruct (Nat.eq_dec (next_id w1) (next_id w1)) as [_|Hne];
      [|contradiction].
    rewrite (proj1 (count_occ_not_In Nat.eq_dec _ _)); [reflexivity|].
    intros Hin. apply in_map_iff in Hin as (r & Hr & Hin).
    apply pop_stale_incl in Hin.
    apply in_app_or in Hin as [Hin|[<-|[]]].
    + apply pop_stale_incl in Hin.
      pose proof (Hrefs d0 r Hd0 Hin). lia.
    + cbn in Hr. lia.
Qed.
End WebhookFacts.


(** C3, the defect. With 150 event definitions on the backend, two pages
    at 100 a page, the enumeration asks for page 1 only and collects 100
    definitions: the loop runs over [range(2, total_pages)], which leaves
    out the last page. *)
Theorem enumeration_stops_before_last_page :
  exists collected w',
    collect_event_definitions sample_config (world_with_definitions 150)
    = (Ok collected, w')
    /\ List.length (event_definitions (world_with_definitions 150)) = 150%nat
    /\ ceil_div 150 100 = 2%Z
    /\ calls w' = [GetEventDefinitions 1 100]
    /\ List.length collected = 100%nat.
Proof.
  exists (fst (page_slice 1 100 (event_definitions (world_with_definitions 150)),
               tt)).
  exists (issued [definitions_request (world_with_definitions 150) 1 100]
                 (world_with_definitions 150)).
  split.
  - rewrite (@collect_event_definitions_served sample_config
               (world_with_definitions 150) eq_refl (fun n => eq_refl)).
    reflexivity.
  - repeat split; vm_compute; reflexivity.
Qed.

Lemma provisioning_twice_witness :
  exists w1 w2 n,
    setup_webhook sample_config false "acme" sample_callback "secret" true
                  "c0de" world_provisioned_before = (Ok tt, w1)
    /\ setup_webhook sample_config false "acme" sample_callback "secret" true
                     "f00d" w1 = (Ok tt, w2)
    /\ titled (notification_name_of sample_callback) w2 = [n]
    /\ forall d,
         In d (event_definitions w2) ->
         skipped false d = Ok false ->
         references (Notification.id n) d = 1%nat.
Proof.
  apply (@provisioning_twice sample_config false "acme" sample_callback
           "secret" true "c0de" "f00d" world_provisioned_before).
  - reflexivity.
  - intros n. reflexivity.
  - cbn. lia.
  - cbn. repeat constructor; cbn; intuition lia.
  - intros _ d [<-|[<-|[]]]; discriminate.
  - intros d r [<-|[<-|[]]]; cbn; intros Hr;
      repeat (destruct Hr as [<-|Hr]; [cbn; lia|]); destruct Hr.
  - vm_compute. lia.
Defined.

(** C1, as stated, fails: on a backend of version 5 with a system-scoped
    event definition, both runs succeed and leave one notification of the
    derived title, yet the system-scoped definition, which the runs pass
    over, does not refer to it. *)
Lemma system_definition_left_unbound :
  exists w1 w2 n d,
    setup_webhook sample_config false "acme" sample_callback "secret" true
                  "c0de" world_with_system_definition = (Ok tt, w1)
    /\ setup_webhook sample_config false "acme" sample_callback "secret" true
                     "f00d" w1 = (Ok tt, w2)
    /\ titled (notification_name_of sample_callback) w2 = [n]
    /\ In d (event_definitions w2)
    /\ references (Notification.id n) d = 0%nat.
Proof.
  exists (snd (setup_webhook sample_config false "acme" sample_callback
                 "secret" true "c0de" world_with_system_definition)).
  exists (snd (setup_webhook sample_config false "acme" sample_callback
                 "secret" true "f00d"
                 (snd (setup_webhook sample_config false "acme"
                         sample_callback "secret" true "c0de"
                         world_with_system_definition)))).
  exists (Notification.mk 11 "Keep-5f2c&tenant=acme"
            "Hello, this Notification is created by Keep, please do not change the title."
            (http_notification_v2 None false "" None sample_callback true
               "POST" "UTC" "JSON" "X-API-KEY:secret" "")).
  exists (sample_definition 2 "SYSTEM_NOTIFICATION_EVENT" []).
  split; [vm_compute; reflexivity|].
  split; [vm_compute; reflexivity|].
  split; [vm_compute; reflexivity|].
  split; [vm_compute; right; left; reflexivity|].
  vm_compute. reflexivity.
Qed.

(** The title query asks for one result, so of two notifications of the
    derived title that a backend already holds only one is replaced: two
    remain after two runs. *)
Example duplicates_are_not_merged :
  let w :=
    sample_world []
      []
      [Notification.mk 4 "Keep-5f2c&tenant=acme" ""
         (http_notification_v1 sample_callback);
       Notification.mk 5 "Keep-5f2c&tenant=acme" ""
         (http_notification_v1 sample_callback)]
      10 in
  let w1 := snd (setup_webhook sample_config true "acme" sample_callback
                   "secret" true "c0de" w) in
  let w2 := snd (setup_webhook sample_config true "acme" sample_callback
                   "secret" true "f00d" w1) in
  List.length (titled (notification_name_of sample_callback) w2) = 2%nat.
Proof. vm_compute. reflexivity. Qed.

(** Without the scopes the run does not get as far: on a backend other
    than v4 a definition that comes without [_scope] makes
    [setup_webhook] raise at the scope test, before any definition is
    written. *)
Example definition_without_scope_raises :
  fst (setup_webhook sample_config false "acme" sample_callback "secret"
                     true "c0de" world_without_scope)
  = Raise (KeyError "_scope")
  /\ event_definitions
       (snd (setup_webhook sample_config false "acme" sample_callback
                           "secret" true "c0de" world_without_scope))
     = event_definitions world_without_scope.
Proof. split; vm_compute; reflexivity. Qed.

(* ================================================================== *)
(** * Further properties *)

(* ------------------------------------------------------------------ *)
(** ** More on the event mapping *)

Section MappingMore.

Variable utc_isoformat : string -> result string.
Variable digest : list value -> string.

Local Abbreviation map_event :=
  (__map_event_to_alert utc_isoformat digest).

Ltac step_result H :=
  match type of H with
  | rbind ?r _ = Ok _ =>
      let x := fresh "x" in
      let E := fresh "E" in
      destruct r as [x|] eqn:E; cbn [rbind] in H; [|discriminate H]
  end.

Lemma getitem_dict (v x : value) (k : string) :
  getitem v k = Ok x -> exists d, v = VDict d /\ assoc k d = Some x.
Proof.
  destruct v; cbn; try discriminate.
  destruct (assoc k d) eqn:Ha; [|discriminate].
  intros [= <-]. eauto.
Qed.

Lemma severity_index_ok (p : Z) (s : AlertSeverity) :
  py_index [LOW; WARNING; HIGH] (p - 1) = Ok s -> (-2 <= p <= 3)%Z.
Proof.
  intros H.
  destruct (Z_le_gt_dec p (-3)) as [Hl|Hl];
    [rewrite severity_index_out_of_range in H by lia; discriminate|].
  destruct (Z_le_gt_dec 4 p) as [Hh|Hh];
    [rewrite severity_index_out_of_range in H by lia; discriminate|].
  lia.
Qed.

(** X1. On payloads whose priority, when they have one, is a JSON
    integer, the mapping returns an alert exactly for the acceptable ones:
    those with an event that has an id, a message, a priority from -2 to 3,
    an event definition id and a timestamp string the parser reads once its
    lowercase ["z"] is removed.  Every other such payload makes it raise;
    the title, the description and the origin context are not needed. *)
Theorem mapping_accepts_exactly (event : value) :
  integer_priority event ->
  ((exists a, map_event event = Ok a) <-> acceptable utc_isoformat event).
Proof.
  intros Hint. split.
  - intros [a H]. unfold __map_event_to_alert in H.
    destruct (getitem event "event") as [e|] eqn:He; [|discriminate H].
    cbn [rbind] in H.
    destruct (getitem e "id") as [i|] eqn:Hi; [|discriminate H].
    cbn [rbind] in H.
    destruct (getitem e "message") as [m|] eqn:Hm; [|discriminate H].
    cbn [rbind] in H.
    step_result H.
    destruct (getitem e "priority") as [pr|] eqn:Hpr; [|discriminate H].
    cbn [rbind] in H.
    destruct (Hint e pr He Hpr) as [p ->].
    cbn [py_int rbind] in H.
    destruct (py_index [LOW; WARNING; HIGH] (p - 1)) as [s|] eqn:Hs;
      [|discriminate H].
    cbn [rbind] in H.
    step_result H.
    destruct (getitem e "event_definition_id") as [d|] eqn:Hd;
      [|discriminate H].
    cbn [rbind] in H.
    step_result H.
    destruct (getitem e "timestamp") as [tsv|] eqn:Hts; [|discriminate H].
    cbn [rbind] in H.
    destruct tsv as [| | |ts| |]; try discriminate H.
    cbn [value_replace rbind] in H.
    destruct (utc_isoformat (str_replace ts "z" "")) as [t|] eqn:Ht;
      [|discriminate H].
    exists e, i, m, p, d, ts, t.
    repeat split; auto; apply (severity_index_ok _ Hs).
  - intros (e & i & m & p & d & ts & t
            & He & Hi & Hm & Hpr & Hrange & Hd & Hts & Ht).
    destruct (getitem_dict _ _ He) as (dv & -> & _).
    destruct (getitem_dict _ _ Hi) as (de & -> & _).
    unfold __map_event_to_alert.
    rewrite He. cbn [rbind]. rewrite Hi, Hm, Hpr, Hd, Hts.
    cbn [rbind get py_int value_replace].
    rewrite (severity_index_in_range Hrange), Ht. cbn [rbind].
    eexists. reflexivity.
Qed.

(** X2. The name of a mapped alert is the value under
    [event_definition_title] whenever the payload has that key, a null
    included, and the event's message otherwise; the message is needed in
    both cases: without it the mapping fails with a [KeyError] on
    ["message"], title or no title. *)
Theorem name_falls_back_to_message (event e i : value) :
  getitem event "event" = Ok e ->
  getitem e "id" = Ok i ->
  (getitem e "message" = Raise (KeyError "message") ->
   map_event event = Raise (KeyError "message"))
  /\ (forall a m,
        getitem e "message" = Ok m ->
        map_event event = Ok a ->
        AlertDto.message a = m
        /\ (forall title,
              getitem event "event_definition_title" = Ok title ->
              AlertDto.name a = title)
        /\ (getitem event "event_definition_title"
            = Raise (KeyError "event_definition_title") ->
            AlertDto.name a = m)).
Proof.
  intros He Hi.
  destruct (getitem_dict _ _ He) as (dv & -> & _).
  destruct (getitem_dict _ _ Hi) as (de & -> & _).
  split.
  - intros Hm. unfold __map_event_to_alert.
    rewrite He. cbn [rbind]. rewrite Hi, Hm. reflexivity.
  - intros a m Hm H. unfold __map_event_to_alert in H.
    rewrite He in H. cbn [rbind] in H. rewrite Hi, Hm in H.
    cbn [rbind get] in H.
    repeat step_result H. injection H as <-.
    cbn [AlertDto.message AlertDto.name AlertDto.set_fingerprint].
    cbn [getitem] in Hm.
    destruct (assoc "message" de) as [m'|] eqn:Hm'; [|discriminate].
    injection Hm as ->.
    split; [unfold dget; now rewrite Hm'|]. split.
    + intros title Ht. cbn [getitem] in Ht. unfold dget.
      destruct (assoc "event_definition_title" dv); [|discriminate].
      now injection Ht.
    + intros Ht. cbn [getitem] in Ht. unfold dget.
      destruct (assoc "event_definition_title" dv); [discriminate|].
      reflexivity.
Qed.

End MappingMore.

(* ------------------------------------------------------------------ *)
(** ** Scope validation *)

Section ScopeFacts.

Variable cfg : GraylogProviderAuthConfig.

(** Resolving the host and building a URL never raise, and leave the
    backend, the faults planned and the requests issued as they were. *)
Lemma graylog_host_backend (w : World) :
  exists h w1, graylog_host cfg w = (Ok h, w1)
               /\ requests w1 = requests w /\ faults w1 = faults w
               /\ store w1 = store w
               /\ version_info w1 = version_info w
               /\ events_search w1 = events_search w
               /\ views_search w1 = views_search w.
Proof.
  unfold graylog_host. destruct (host_cached (_host w)).
  - eexists _, _. repeat split.
  - destruct (_ || _); [eexists _, _; repeat split|].
    destruct (https_probe w); eexists _, _; repeat split.
Qed.

Lemma get_url_backend (paths : list string) (w : World) :
  exists u w1, __get_url cfg paths w = (Ok u, w1)
               /\ requests w1 = requests w /\ faults w1 = faults w
               /\ store w1 = store w
               /\ version_info w1 = version_info w
               /\ events_search w1 = events_search w
               /\ views_search w1 = views_search w.
Proof.
  unfold __get_url, bind, ret.
  destruct (graylog_host_backend w)
    as (h & w1 & -> & Hr & Hf & Hs & Hv & He & Hq).
  eexists _, _. repeat split; assumption.
Qed.

(** X3. [validate_scopes] never raises, and apart from the user lookup it
    sends nothing: the backend's store and the recorded requests are as
    they were.  It reports [authorized = True] exactly when the lookup was
    answered 200 with a JSON body whose ["roles"] contain ["Admin"], and
    [authenticated = True] exactly when the lookup got through that
    membership test; in every other case [authenticated] is the text of
    the exception and [authorized] is [False]. *)
Theorem validate_scopes_reports (lookup : user_lookup) (w : World) :
  exists s w',
    validate_scopes cfg lookup w = (Ok s, w')
    /\ store w' = store w
    /\ requests w' = requests w
    /\ (authorized s = ScopeTrue <-> admin_confirmed lookup)
    /\ (authenticated s = ScopeTrue <-> roles_checked lookup)
    /\ (authenticated s <> ScopeTrue ->
        authorized s = ScopeFalse
        /\ exists e, authenticated s = ScopeError e).
Proof.
  unfold validate_scopes, try_except. unfold bind at 1.
  destruct (get_url_backend ["users"; graylog_user_name cfg] w)
    as (u & w1 & -> & Hr & _ & Hs & _).
  assert (Hfail : forall e w2,
            store w2 = store w -> requests w2 = requests w ->
            ~ admin_confirmed lookup -> ~ roles_checked lookup ->
            exists s w',
              bind (log LogError "Error while validating user scopes")
                (fun _ => ret {| authenticated := ScopeError e;
                                 authorized := ScopeFalse |}) w2
              = (Ok s, w')
              /\ store w' = store w /\ requests w' = requests w
              /\ (authorized s = ScopeTrue <-> admin_confirmed lookup)
              /\ (authenticated s = ScopeTrue <-> roles_checked lookup)
              /\ (authenticated s <> ScopeTrue ->
                  authorized s = ScopeFalse
                  /\ exists e, authenticated s = ScopeError e)).
  { intros e w2 Hs2 Hr2 Hna Hnc. eexists _, _.
    split; [reflexivity|]. cbn.
    repeat split; auto; try discriminate; try contradiction; eauto. }
  destruct lookup as [e|status text body].
  - apply Hfail; auto.
    + intros (? & ? & ? & ? & _). discriminate.
    + intros (? & ? & ? & ? & ? & _). discriminate.
  - destruct (Z.eqb_spec status 200) as [->|Hne]; cbn [negb].
    2:{ apply Hfail; auto.
        - intros (? & ? & ? & [= ? _ _] & _). contradiction.
        - intros (? & ? & ? & ? & [= ? _ _] & _). contradiction. }
    destruct body as [user|].
    2:{ apply Hfail; auto.
        - intros (? & ? & ? & ? & _). discriminate.
        - intros (? & ? & ? & ? & ? & _). discriminate. }
    rewrite run_lift.
    destruct (getitem user "roles") as [roles|e] eqn:Hroles.
    2:{ apply Hfail; auto.
        - intros (? & ? & ? & [= _ <-] & Hg & _). congruence.
        - intros (? & ? & ? & ? & [= _ <-] & Hg & _). congruence. }
    rewrite run_lift.
    destruct (py_in_str "Admin" roles) as [found|e] eqn:Hin.
    2:{ apply Hfail; auto.
        - intros (? & ? & ? & [= _ <-] & Hg & Hi). congruence.
        - intros (? & ? & ? & ? & [= _ <-] & Hg & Hi). congruence. }
    rewrite run_lift.
    destruct found.
    + eexists _, _. split; [reflexivity|]. cbn.
      repeat split; auto; try contradiction.
      * intros _. exists text, user, roles. auto.
      * intros _. exists text, user, roles, true. auto.
    + eexists _, _. split; [reflexivity|]. cbn.
      repeat split; auto; try discriminate; try contradiction.
      * intros (? & ? & ? & [= _ <-] & Hg & Hi). congruence.
      * intros _. exists text, user, roles, false. auto.
Qed.

End ScopeFacts.

(* ------------------------------------------------------------------ *)
(** ** Construction and URLs *)

Lemma rev_string_app (a b acc : string) :
  rev_string acc (a ++ b) = rev_string (rev_string acc a) b.
Proof.
  revert acc. induction a as [|c a IH]; intros acc; [reflexivity|].
  cbn. apply IH.
Qed.

Lemma slashes_cons (n : nat) (s : string) :
  (slashes n ++ String "/" s)%string = String "/" (slashes n ++ s).
Proof.
  induction n as [|n IH]; [reflexivity|]. cbn. now rewrite IH.
Qed.

Lemma rev_string_slashes (n : nat) (acc : string) :
  rev_string acc (slashes n) = (slashes n ++ acc)%string.
Proof.
  revert acc. induction n as [|n IH]; intros acc; [reflexivity|].
  cbn [slashes rev_string]. rewrite IH. apply slashes_cons.
Qed.

Lemma lstrip_slashes (n : nat) (s : string) :
  lstrip_chars ["/"%char] (slashes n ++ s) = lstrip_chars ["/"%char] s.
Proof.
  induction n as [|n IH]; [reflexivity|]. cbn. exact IH.
Qed.

Lemma rstrip_slashes (h : string) (n : nat) :
  rstrip_chars ["/"%char] (h ++ slashes n) = rstrip_chars ["/"%char] h.
Proof.
  unfold rstrip_chars.
  now rewrite rev_string_app, rev_string_slashes, lstrip_slashes.
Qed.

Lemma append_not_empty (a b : string) : a <> "" -> (a ++ b)%string <> "".
Proof. destruct a; [contradiction|discriminate]. Qed.

Section ConstructionFacts.

Variable cfg : GraylogProviderAuthConfig.

(** X4. Trailing slashes of the resolved host do not show in the URLs
    built from it: a host and the same host followed by any number of
    slashes give the same URL for the same path segments. *)
Theorem url_ignores_trailing_slashes (h : string) (n : nat)
    (paths : list string) (w1 w2 : World) :
  h <> "" ->
  _host w1 = Some h ->
  _host w2 = Some (h ++ slashes n)%string ->
  exists url,
    __get_url cfg paths w1 = (Ok url, w1)
    /\ __get_url cfg paths w2 = (Ok url, w2).
Proof.
  intros Hne H1 H2.
  assert (Hc1 : host_cached (_host w1) = true)
    by (rewrite H1; now apply host_cached_intro).
  assert (Hc2 : host_cached (_host w2) = true)
    by (rewrite H2; apply host_cached_intro; now apply append_not_empty).
  exists (api_url w1 paths). split; [apply (get_url_cached _ _ _ Hc1)|].
  rewrite (get_url_cached _ _ _ Hc2). f_equal. f_equal.
  unfold api_url. now rewrite H1, H2, rstrip_slashes.
Qed.

(** Version detection changes the world only by the host its URL
    resolves, its one request and its log records. *)
Lemma version_probe_world (w w1 w2 : World) (h : string)
    (r : result (option string)) :
  graylog_host cfg w = (Ok h, w1) ->
  __get_graylog_version cfg w = (r, w2) ->
  _host w2 = _host w1 /\ probes w2 = probes w1
  /\ calls w2 = calls w1 ++ [GetRoot].
Proof.
  intros Hrun. unfold __get_graylog_version, try_except.
  unfold bind at 1. unfold __get_url at 1. unfold bind at 1.
  rewrite Hrun. cbn [ret].
  unfold bind at 1. unfold send, calls.
  destruct (faults w1 (List.length (requests w1)));
    cbn [serve respond status_code Z.eqb Pos.eqb negb json content].
  - unfold bind at 1. unfold lift at 1. cbn [json content respond].
    cbv iota. unfold bind at 1. unfold lift at 1.
    destruct (getitem _ "version") as [x|e]; [destruct x|];
      cbn; intros [= <- <-]; cbn; rewrite map_app; repeat split; reflexivity.
  - cbn. intros [= <- <-]. cbn. rewrite map_app. repeat split; reflexivity.
  - cbn. intros [= <- <-]. cbn. rewrite map_app. repeat split; reflexivity.
Qed.

(** X5. Construction leaves the host resolved, whether it succeeds or the
    version probe fails: when the deployment URL is more than slashes, the
    world after [__init__] has a cached host, at most one scheme probe was
    sent, and exactly one API request, the version probe, was issued. *)
Theorem construction_resolves_host (w : World) :
  rstrip_chars ["/"%char] (deployment_url cfg) <> "" ->
  host_cached (_host (snd (__init__ cfg w))) = true
  /\ (List.length (probes (snd (__init__ cfg w)))
      <= S (List.length (probes w)))%nat
  /\ calls (snd (__init__ cfg w)) = calls w ++ [GetRoot].
Proof.
  intros Hurl.
  assert (Hne : deployment_url cfg <> "").
  { intros E. rewrite E in Hurl. now apply Hurl. }
  assert (Hhost :
            host_cached (_host (snd (graylog_host cfg (set_host None w))))
            = true
            /\ (List.length (probes (snd (graylog_host cfg (set_host None w))))
                <= S (List.length (probes w)))%nat).
  { unfold graylog_host. cbn [_host set_host host_cached].
    destruct (_ || _).
    - cbn [snd _host set_host probes].
      split; [now apply host_cached_intro|lia].
    - destruct (https_probe _);
        cbn [snd _host set_host probes set_probes set_logged];
        rewrite ?length_app; cbn [List.length];
        (split; [|lia]).
      + reflexivity.
      + reflexivity.
      + now apply host_cached_intro. }
  destruct Hhost as [Hc Hp].
  destruct (graylog_host_backend cfg (set_host None w))
    as (h & w1 & Hrun & Hr & _).
  rewrite Hrun in Hc, Hp. cbn [snd] in Hc, Hp.
  destruct (__get_graylog_version cfg (set_host None w)) as [r w2] eqn:Hv.
  destruct (version_probe_world _ Hrun Hv) as (H1 & H2 & H3).
  assert (Hinit : snd (__init__ cfg w) = w2).
  { unfold __init__, bind. rewrite Hv. destruct r; reflexivity. }
  rewrite Hinit, H1, H2, H3. unfold calls. rewrite Hr.
  repeat split; assumption.
Qed.

(** X6. When the version probe is served and the answer carries a version
    string, construction succeeds and the flag tells whether the version,
    blanks around it ignored, starts with ["4"].  *)
Theorem version_flag (w : World) (d : list (string * value)) (s : string) :
  faults w (List.length (requests w)) = NoFault ->
  version_info w = VDict d ->
  assoc "version" d = Some (VStr s) ->
  fst (__init__ cfg w) = Ok (startswith (str_strip s) "4").
Proof.
  intros Hf Hv Hs.
  unfold __init__, __get_graylog_version, try_except.
  unfold bind at 1. unfold bind at 1.
  destruct (get_url_backend cfg [] (set_host None w))
    as (u & w1 & -> & Hr & Hf1 & _ & Hv1 & _).
  unfold bind at 1. unfold send.
  rewrite Hf1, Hr. cbn [faults requests set_host]. rewrite Hf.
  cbn [serve respond version_info set_requests].
  cbn [status_code Z.eqb Pos.eqb negb json content].
  rewrite Hv1. cbn [version_info set_host]. rewrite Hv.
  unfold bind at 1. unfold lift at 1. cbn [json content respond].
  unfold bind at 1. unfold lift at 1. cbn [getitem]. rewrite Hs.
  reflexivity.
Qed.

End ConstructionFacts.

(* ------------------------------------------------------------------ *)
(** ** What a run can change, whatever its outcome *)

Section Steps.

Variable R : World -> World -> Prop.
Hypothesis HR : insensitive R.

Lemma steps_ret {A} (a : A) : steps R (ret a).
Proof. intros w r w' [= _ <-]. apply (ins_refl HR). Qed.

Lemma steps_raise {A} (e : exn) : steps R (@raise A e).
Proof. intros w r w' [= _ <-]. apply (ins_refl HR). Qed.

Lemma steps_lift {A} (x : result A) : steps R (lift x).
Proof. intros w r w' [= _ <-]. apply (ins_refl HR). Qed.

Lemma steps_log (lvl : log_level) (msg : string) : steps R (log lvl msg).
Proof. intros w r w' [= _ <-]. apply (ins_logged HR). Qed.

Lemma steps_bind {A B} (m : M A) (f : A -> M B) :
  steps R m -> (forall a, steps R (f a)) -> steps R (bind m f).
Proof.
  intros Hm Hf w r w'. unfold bind.
  destruct (m w) as [[a|e] w1] eqn:Hrun.
  - intros H. eapply (ins_trans HR); [exact (Hm _ _ _ Hrun)|].
    exact (Hf _ _ _ _ H).
  - intros [= _ <-]. exact (Hm _ _ _ Hrun).
Qed.

Lemma steps_try_except {A} (m : M A) (handler : exn -> M A) :
  steps R m -> (forall e, steps R (handler e)) -> steps R (try_except m handler).
Proof.
  intros Hm Hh w r w'. unfold try_except.
  destruct (m w) as [[a|e] w1] eqn:Hrun.
  - intros [= _ <-]. exact (Hm _ _ _ Hrun).
  - intros H. eapply (ins_trans HR); [exact (Hm _ _ _ Hrun)|].
    exact (Hh _ _ _ _ H).
Qed.

Lemma steps_reraising {A} (msg : string) (m : M A) :
  steps R m -> steps R (reraising msg m).
Proof.
  intros Hm. unfold reraising. apply steps_try_except; [exact Hm|].
  intros e. apply steps_bind; [apply steps_log|]. intros _. apply steps_raise.
Qed.

Lemma steps_for_each {A} (l : list A) (body : A -> M unit) :
  (forall x, In x l -> steps R (body x)) -> steps R (for_each l body).
Proof.
  induction l as [|x l IH]; intros Hb; cbn [for_each]; [apply steps_ret|].
  apply steps_bind; [apply Hb; now left|].
  intros _. apply IH. intros y Hy. apply Hb. now right.
Qed.

Lemma steps_for_fold {A S} (l : list A) (body : S -> A -> M S) :
  (forall s x, steps R (body s x)) -> forall s, steps R (for_fold l s body).
Proof.
  intros Hb. induction l as [|x l IH]; intros s; cbn [for_fold];
    [apply steps_ret|].
  apply steps_bind; [apply Hb|]. intros s'. apply IH.
Qed.

Lemma steps_graylog_host (cfg : GraylogProviderAuthConfig) :
  steps R (graylog_host cfg).
Proof.
  intros w r w'. unfold graylog_host.
  destruct (host_cached (_host w)); [intros [= _ <-]; apply (ins_refl HR)|].
  destruct (_ || _); [intros [= _ <-]; apply (ins_host HR)|].
  destruct (https_probe w); intros [= _ <-].
  - eapply (ins_trans HR); [apply (ins_probes HR)|apply (ins_host HR)].
  - eapply (ins_trans HR); [apply (ins_probes HR)|].
    eapply (ins_trans HR); [apply (ins_logged HR)|apply (ins_host HR)].
  - eapply (ins_trans HR); [apply (ins_probes HR)|].
    eapply (ins_trans HR); [apply (ins_logged HR)|apply (ins_host HR)].
Qed.

Lemma steps_get_url (cfg : GraylogProviderAuthConfig) (paths : list string) :
  steps R (__get_url cfg paths).
Proof.
  unfold __get_url. apply steps_bind; [apply steps_graylog_host|].
  intros h. apply steps_ret.
Qed.

(** A request: recording it and serving it must both stay within [R]. *)
Lemma steps_send (url : string) (c : api_call) :
  (forall w, R w (issued [Build_Request url c] w)) ->
  (forall w, R w (snd (serve c w))) ->
  steps R (send url c).
Proof.
  intros Hrec Hserve w r w'. unfold send.
  fold (issued [Build_Request url c] w).
  destruct (faults w (List.length (requests w))).
  - destruct (serve c (issued [Build_Request url c] w)) as [resp w2] eqn:Hs.
    intros [= _ <-]. eapply (ins_trans HR); [apply Hrec|].
    specialize (Hserve (issued [Build_Request url c] w)).
    now rewrite Hs in Hserve.
  - intros [= _ <-]. apply Hrec.
  - intros [= _ <-]. apply Hrec.
Qed.

Lemma steps_raise_for_status (resp : Response) :
  steps R (raise_for_status resp).
Proof.
  unfold raise_for_status. destruct (_ && _); [apply steps_raise|apply steps_ret].
Qed.

End Steps.

(** Breaks a method down along the rules above; what is left are the
    conditions on the requests it sends. *)
Ltac steps_auto HR :=
  repeat first
    [ match goal with
      | H : context [steps] |- steps _ _ => apply H
      end
    | apply (steps_ret HR)
    | apply (steps_raise HR)
    | apply (steps_lift HR)
    | apply (steps_log HR)
    | apply (steps_get_url HR)
    | apply (steps_graylog_host HR)
    | apply (steps_raise_for_status HR)
    | apply (steps_reraising HR)
    | apply (steps_try_except HR)
    | apply (steps_bind HR)
    | apply (steps_for_fold HR)
    | apply (steps_send HR)
    | match goal with
      | |- steps _ (if ?c then _ else _) => destruct c
      | |- steps _ (match ?x with _ => _ end) => destruct x
      | |- forall _, _ => intro
      end ].

(* ------------------------------------------------------------------ *)
(** ** Reading methods and the event definitions *)

Lemma quiet_insensitive (p : api_call -> bool) : insensitive (quiet p).
Proof.
  split.
  - intros w. split; [reflexivity|]. exists []. now rewrite app_nil_r.
  - intros a b c [Hs1 (l1 & Hr1 & Hp1)] [Hs2 (l2 & Hr2 & Hp2)].
    split; [congruence|]. exists (l1 ++ l2).
    rewrite Hr2, Hr1, <- app_assoc, forallb_app, Hp1, Hp2. auto.
  - intros h w. split; [reflexivity|]. exists []. cbn. now rewrite app_nil_r.
  - intros l w. split; [reflexivity|]. exists []. cbn. now rewrite app_nil_r.
  - intros l w. split; [reflexivity|]. exists []. cbn. now rewrite app_nil_r.
Qed.

Lemma quiet_recorded (p : api_call -> bool) (url : string) (c : api_call)
    (w : World) :
  p c = true -> quiet p w (issued [Build_Request url c] w).
Proof.
  intros Hp. split; [reflexivity|]. eexists. split; [reflexivity|].
  cbn. now rewrite Hp.
Qed.

Lemma quiet_same (p : api_call -> bool) (w : World) : quiet p w w.
Proof. apply (ins_refl (quiet_insensitive p)). Qed.

Lemma same_definitions_insensitive : insensitive same_definitions.
Proof.
  split; unfold same_definitions; try reflexivity.
  intros a b c H1 H2. congruence.
Qed.

Lemma replace_keeps_ids (e : EventDefinition.t) (l : list EventDefinition.t) :
  map EventDefinition.id
      (map (fun d => if (EventDefinition.id d =? EventDefinition.id e)%nat
                     then e else d) l)
  = map EventDefinition.id l.
Proof.
  rewrite map_map. apply map_ext. intros d.
  destruct (Nat.eqb_spec (EventDefinition.id d) (EventDefinition.id e));
    congruence.
Qed.

Section FrameFacts.

Variable cfg : GraylogProviderAuthConfig.
Variable utc_isoformat : string -> result string.
Variable digest : list value -> string.

Lemma get_alerts_quiet (json_data : value) :
  steps (quiet is_search_call) (__get_alerts cfg json_data).
Proof.
  unfold __get_alerts. steps_auto (quiet_insensitive is_search_call).
  - now apply quiet_recorded.
  - cbn [serve]. destruct (events_search w json_data). apply quiet_same.
Qed.

Lemma search_quiet (query query_type timerange_seconds timerange_type
    page per_page : value) (query_id search_type_id : string) :
  steps (quiet is_search_call)
        (search cfg query query_type timerange_seconds timerange_type
                page per_page query_id search_type_id).
Proof.
  unfold search. steps_auto (quiet_insensitive is_search_call).
  - now apply quiet_recorded.
  - apply quiet_same.
Qed.

(** X7. Fetching alerts and querying are read-only: whatever their
    arguments and whatever their outcome, [_get_alerts] and [_query] leave
    the backend's event definitions, whitelist and notifications as they
    were, and every request they issue is an alert search or a log
    search. *)
Theorem fetching_is_read_only :
  steps (quiet is_search_call) (_get_alerts cfg utc_isoformat digest)
  /\ forall events_search_parameters kwargs query_id search_type_id,
       steps (quiet is_search_call)
             (_query cfg utc_isoformat digest events_search_parameters
                     kwargs query_id search_type_id).
Proof.
  pose proof (quiet_insensitive is_search_call) as HR.
  split.
  - pose proof get_alerts_quiet as Hga.
    unfold _get_alerts. steps_auto HR.
  - intros params kwargs qid stid. unfold _query.
    destruct (truthy _).
    + apply (steps_bind HR); [apply search_quiet|]. steps_auto HR.
    + unfold alert_search_path.
      apply (steps_bind HR); [apply get_alerts_quiet|]. steps_auto HR.
Qed.

Variable is_v4 : bool.

Ltac definitions_kept :=
  intros; unfold same_definitions; cbn [serve];
  repeat match goal with
         | |- context [if ?c then _ else _] => destruct c
         | |- context [events_search ?w ?j] => destruct (events_search w j)
         end;
  cbn [snd event_definitions set_event_definitions set_url_whitelist
       set_notifications set_next_id issued set_requests];
  first [reflexivity|apply replace_keeps_ids].

Lemma rebind_keeps_the_definitions (l : list EventDefinition.t)
    (stale : option ident) (new_notification : body) :
  steps same_definitions
        (rebind_definitions cfg is_v4 l stale new_notification).
Proof.
  pose proof same_definitions_insensitive as HR.
  unfold rebind_definitions. apply (steps_for_each HR). intros ed _.
  unfold __update_event. steps_auto HR; definitions_kept.
Qed.

(** X8. [setup_webhook] never adds, removes or reorders event definitions:
    whatever the backend holds and wherever the run stops, the identifiers
    of the definitions are afterwards what they were, in the same
    order. *)
Theorem provisioning_keeps_the_definitions
    (tenant_id keep_api_url api_key : string) (setup_alerts : bool)
    (uuid4 : string) :
  steps same_definitions
        (setup_webhook cfg is_v4 tenant_id keep_api_url api_key setup_alerts
                       uuid4).
Proof.
  pose proof same_definitions_insensitive as HR.
  pose proof rebind_keeps_the_definitions as Hrebind.
  unfold setup_webhook, collect_event_definitions, whitelist_url,
    replace_notification, __get_events, __get_url_whitelist,
    __update_url_whitelist, __get_notification, __delete_notification,
    __create_notification.
  steps_auto HR; definitions_kept.
Qed.

End FrameFacts.

(* ------------------------------------------------------------------ *)
(** ** The whitelist, whatever the outcome *)

Lemma bind_cases {A B} (m : M A) (f : A -> M B) (w w' : World)
    (r : result B) :
  bind m f w = (r, w') ->
  (exists a w1, m w = (Ok a, w1) /\ f a w1 = (r, w'))
  \/ (exists e, m w = (Raise e, w') /\ r = Raise e).
Proof.
  unfold bind. destruct (m w) as [[a|e] w1].
  - intros H. left. eauto.
  - intros [= <- <-]. right. eauto.
Qed.

Lemma reraising_cases {A} (msg : string) (m : M A) (w w' : World)
    (r : result A) :
  reraising msg m w = (r, w') ->
  exists w0, m w = (r, w0)
             /\ (w' = w0 \/ w' = set_logged (logged w0 ++ [(LogError, msg)]) w0).
Proof.
  unfold reraising, try_except. destruct (m w) as [[a|e] w0].
  - intros [= <- <-]. eauto.
  - cbn. intros [= <- <-]. eauto.
Qed.

Lemma whitelist_untouched_insensitive : insensitive whitelist_untouched.
Proof.
  split.
  - intros w. split; [reflexivity|]. exists []. now rewrite app_nil_r.
  - intros a b c [Hs1 (l1 & Hr1 & Hp1)] [Hs2 (l2 & Hr2 & Hp2)].
    split; [congruence|]. exists (l1 ++ l2).
    rewrite Hr2, Hr1, <- app_assoc, forallb_app, Hp1, Hp2. auto.
  - intros h w. split; [reflexivity|]. exists []. cbn. now rewrite app_nil_r.
  - intros l w. split; [reflexivity|]. exists []. cbn. now rewrite app_nil_r.
  - intros l w. split; [reflexivity|]. exists []. cbn. now rewrite app_nil_r.
Qed.

Lemma whitelisted_extended (name url uuid4 : string) (u : UrlWhitelist)
    (w : World) :
  url_whitelist w = extended_whitelist name url uuid4 u -> whitelisted url w.
Proof.
  intros H. unfold whitelisted. rewrite H. eexists. split.
  - cbn. apply in_or_app. right. now left.
  - reflexivity.
Qed.

Lemma whitelisted_found (url : string) (w : World) :
  whitelisted url w <->
  existsb (fun entry => WhitelistEntry.value entry =? url)
          (entries (url_whitelist w)) = true.
Proof.
  unfold whitelisted. rewrite existsb_exists. split.
  - intros (e & Hin & Hv). exists e. split; [exact Hin|].
    now apply String.eqb_eq.
  - intros (e & Hin & Hv). exists e. split; [exact Hin|].
    now apply String.eqb_eq.
Qed.

(** What the requests other than a whitelist write leave of the
    whitelist. *)
Ltac whitelist_kept :=
  intros; unfold whitelist_untouched; cbn [serve];
  repeat match goal with
         | |- context [if ?c then _ else _] => destruct c
         | |- context [events_search ?w ?j] => destruct (events_search w j)
         end;
  cbn [snd url_whitelist set_event_definitions set_url_whitelist
       set_notifications set_next_id issued set_requests requests];
  (split; [reflexivity|]);
  first [ exists []; split; [now rewrite app_nil_r|reflexivity]
        | eexists; split; [reflexivity|reflexivity] ].

Section WhitelistFacts.

Variable cfg : GraylogProviderAuthConfig.
Variable is_v4 : bool.

Lemma get_events_whitelist (page per_page : Z) :
  steps whitelist_untouched (__get_events cfg page per_page).
Proof.
  unfold __get_events.
  steps_auto whitelist_untouched_insensitive; whitelist_kept.
Qed.

Lemma collect_whitelist :
  steps whitelist_untouched (collect_event_definitions cfg).
Proof.
  pose proof get_events_whitelist as Hge.
  unfold collect_event_definitions.
  steps_auto whitelist_untouched_insensitive.
Qed.

Lemma replace_notification_whitelist (name url key : string) :
  steps whitelist_untouched (replace_notification cfg is_v4 name url key).
Proof.
  unfold replace_notification, __get_notification, __delete_notification,
    __create_notification.
  steps_auto whitelist_untouched_insensitive; whitelist_kept.
Qed.

Lemma rebind_whitelist (l : list EventDefinition.t) (stale : option ident)
    (new_notification : body) :
  steps whitelist_untouched
        (rebind_definitions cfg is_v4 l stale new_notification).
Proof.
  unfold rebind_definitions.
  apply (steps_for_each whitelist_untouched_insensitive). intros ed _.
  unfold __update_event.
  steps_auto whitelist_untouched_insensitive; whitelist_kept.
Qed.

(** Reading the whitelist: nothing written, and a body that is the
    backend's whitelist. *)
Lemma get_url_whitelist_run (w w1 : World) (r : result body) :
  __get_url_whitelist cfg w = (r, w1) ->
  whitelist_untouched w w1
  /\ forall b, r = Ok b -> b = BUrlWhitelist (url_whitelist w).
Proof.
  intros H. split.
  - revert H. 
    assert (Hs : steps whitelist_untouched (__get_url_whitelist cfg)).
    { unfold __get_url_whitelist.
      steps_auto whitelist_untouched_insensitive; whitelist_kept. }
    apply Hs.
  - revert H. unfold __get_url_whitelist, reraising, try_except.
    unfold bind at 1.
    destruct (get_url_backend cfg ["system/urlwhitelist"] w)
      as (u & w0 & -> & _ & _ & Hst & _).
    unfold bind at 1. unfold send.
    assert (Hwl : url_whitelist w0 = url_whitelist w)
      by (unfold store in Hst; congruence).
    destruct (faults w0 (List.length (requests w0))); cbn.
    + intros [= <- <-] b [= <-]. now rewrite Hwl.
    + intros [= <- <-] b Hb. discriminate.
    + intros [= <- <-] b Hb. discriminate.
Qed.

(** Writing the whitelist: the write takes or it does not. *)
Lemma update_url_whitelist_run (u : UrlWhitelist) (w w' : World)
    (r : result unit) :
  __update_url_whitelist cfg u w = (r, w') ->
  (url_whitelist w' = url_whitelist w \/ url_whitelist w' = u)
  /\ (r = Ok tt -> url_whitelist w' = u).
Proof.
  unfold __update_url_whitelist, reraising, try_except.
  unfold bind at 1.
  destruct (get_url_backend cfg ["system/urlwhitelist"] w)
    as (x & w0 & -> & _ & _ & Hst & _).
  assert (Hwl : url_whitelist w0 = url_whitelist w)
    by (unfold store in Hst; congruence).
  unfold bind at 1. unfold send.
  destruct (faults w0 (List.length (requests w0))); cbn.
  - intros [= <- <-]. cbn. auto.
  - intros [= <- <-]. cbn. split; [now left|discriminate].
  - intros [= <- <-]. cbn. split; [now left|discriminate].
Qed.

Lemma whitelist_url_run (name url uuid4 : string) (w w' : World)
    (r : result unit) :
  whitelist_url cfg name url uuid4 w = (r, w') ->
  (whitelisted url w -> whitelist_untouched w w')
  /\ (url_whitelist w' = url_whitelist w
      \/ (~ whitelisted url w
          /\ url_whitelist w'
             = extended_whitelist name url uuid4 (url_whitelist w)))
  /\ (r = Ok tt -> whitelisted url w').
Proof.
  unfold whitelist_url. intros H.
  apply bind_cases in H as [(b & w1 & Hget & H)|(e & Hget & ->)].
  2:{ apply get_url_whitelist_run in Hget as [Hu _].
      split; [auto|]. split; [left; apply Hu|discriminate]. }
  apply get_url_whitelist_run in Hget as [Hu Hb].
  rewrite (Hb b eq_refl) in H. cbv beta iota in H. rewrite run_lift in H.
  destruct Hu as [Hwl Hreq].
  destruct (existsb _ (entries (url_whitelist w))) eqn:Hfound;
    cbn [negb] in H.
  - injection H as <- <-.
    split; [intros _; split; [exact Hwl|exact Hreq]|].
    split; [now left|].
    intros _. apply whitelisted_found. now rewrite Hwl.
  - assert (Hnot : ~ whitelisted url w).
    { intros Hw. apply whitelisted_found in Hw. congruence. }
    split; [intros Hw; contradiction|].
    apply update_url_whitelist_run in H as [[Hsame|Hext] Hok].
    + split; [left; congruence|].
      intros Hr. eapply whitelisted_extended. apply (Hok Hr).
    + split; [right; split; [exact Hnot|exact Hext]|].
      intros Hr. eapply whitelisted_extended. apply (Hok Hr).
Qed.

End WhitelistFacts.

Lemma whitelist_untouched_same (w w' : World) :
  whitelist_untouched w w' -> url_whitelist w' = url_whitelist w.
Proof. now intros [H _]. Qed.

Lemma whitelist_untouched_logged (l : list (log_level * string)) (w w' : World) :
  whitelist_untouched w w' -> whitelist_untouched w (set_logged l w').
Proof.
  intros H.
  apply (ins_trans whitelist_untouched_insensitive) with w'; [exact H|].
  apply (ins_logged whitelist_untouched_insensitive).
Qed.

Lemma whitelisted_same (url : string) (w w' : World) :
  url_whitelist w' = url_whitelist w ->
  whitelisted url w' <-> whitelisted url w.
Proof. unfold whitelisted. now intros ->. Qed.

Section ProvisioningWhitelist.

Variable cfg : GraylogProviderAuthConfig.
Variable is_v4 : bool.

(** The four steps of [setup_webhook] put together: the whitelist moves
    in the second step only. *)
Lemma setup_webhook_whitelist (tenant_id keep_api_url api_key : string)
    (setup_alerts : bool) (uuid4 : string) (w w' : World) (r : result unit) :
  let url := effective_url is_v4 keep_api_url api_key in
  setup_webhook cfg is_v4 tenant_id keep_api_url api_key setup_alerts uuid4 w
  = (r, w') ->
  (whitelisted url w -> whitelist_untouched w w')
  /\ (url_whitelist w' = url_whitelist w
      \/ (~ whitelisted url w
          /\ url_whitelist w'
             = extended_whitelist (notification_name_of keep_api_url) url
                                  uuid4 (url_whitelist w)))
  /\ (r = Ok tt -> whitelisted url w').
Proof.
  intros url. unfold setup_webhook. fold url. intros H.
  apply reraising_cases in H as (w0 & H & Hlog).
  assert (Hgoal :
    (whitelisted url w -> whitelist_untouched w w0)
    /\ (url_whitelist w0 = url_whitelist w
        \/ (~ whitelisted url w
            /\ url_whitelist w0
               = extended_whitelist (notification_name_of keep_api_url) url
                                    uuid4 (url_whitelist w)))
    /\ (r = Ok tt -> whitelisted url w0)).
  2:{ destruct Hlog as [->| ->]; [exact Hgoal|].
      destruct Hgoal as (H1 & H2 & H3).
      split; [intros Hw; apply whitelist_untouched_logged; auto|].
      split; [exact H2|exact H3]. }
  apply bind_cases in H as [(defs & w1 & Hc & H)|(e & Hc & ->)].
  2:{ apply collect_whitelist in Hc.
      split; [auto|]. split; [left; now apply whitelist_untouched_same|].
      discriminate. }
  apply collect_whitelist in Hc.
  pose proof (whitelist_untouched_same Hc) as Hc1.
  apply bind_cases in H as [([] & w2 & Hwl & H)|(e & Hwl & ->)].
  2:{ apply whitelist_url_run in Hwl as (H1 & H2 & _).
      split.
      { intros Hw.
        apply (ins_trans whitelist_untouched_insensitive) with w1;
          [exact Hc|].
        apply H1. now apply (whitelisted_same url _ _ Hc1). }
      split; [|discriminate].
      destruct H2 as [H2|[H2 H3]].
      - left. congruence.
      - right. split.
        + intros Hw. apply H2. now apply (whitelisted_same url _ _ Hc1).
        + now rewrite H3, Hc1. }
  apply whitelist_url_run in Hwl as (H1 & H2 & H3).
  specialize (H3 eq_refl).
  assert (Hrest : whitelist_untouched w2 w0).
  { apply bind_cases in H as [(p & w3 & Hr & H)|(e & Hr & ->)].
    - apply replace_notification_whitelist in Hr.
      apply rebind_whitelist in H.
      now apply (ins_trans whitelist_untouched_insensitive) with w3.
    - now apply replace_notification_whitelist in Hr. }
  pose proof (whitelist_untouched_same Hrest) as Hrest1.
  split.
  { intros Hw.
    apply (ins_trans whitelist_untouched_insensitive) with w1; [exact Hc|].
    apply (ins_trans whitelist_untouched_insensitive) with w2;
      [|exact Hrest].
    apply H1. now apply (whitelisted_same url _ _ Hc1). }
  split.
  - destruct H2 as [H2|[H2 H4]].
    + left. congruence.
    + right. split.
      * intros Hw. apply H2. now apply (whitelisted_same url _ _ Hc1).
      * now rewrite Hrest1, H4, Hc1.
  - intros _. now apply (whitelisted_same url _ _ Hrest1).
Qed.

(** X9. Wherever a run of [setup_webhook] stops, the backend's whitelist
    is what it was or what it was followed by one literal entry for the
    callback URL, the latter only when no entry carried that URL; after a
    run that returns, an entry carries it. *)
Theorem provisioning_whitelist_outcome
    (tenant_id keep_api_url api_key : string) (setup_alerts : bool)
    (uuid4 : string) (w w' : World) (r : result unit) :
  let url := effective_url is_v4 keep_api_url api_key in
  setup_webhook cfg is_v4 tenant_id keep_api_url api_key setup_alerts uuid4 w
  = (r, w') ->
  (url_whitelist w' = url_whitelist w
   \/ (~ whitelisted url w
       /\ url_whitelist w'
          = extended_whitelist (notification_name_of keep_api_url) url uuid4
                               (url_whitelist w)))
  /\ (r = Ok tt -> whitelisted url w').
Proof.
  intros url H. apply setup_webhook_whitelist in H. tauto.
Qed.

(** X10. When an entry of the whitelist already carries the callback URL,
    no run of [setup_webhook], failed or not, sends a whitelist write, and
    the whitelist stays as it is. *)
Theorem whitelisted_url_never_rewritten
    (tenant_id keep_api_url api_key : string) (setup_alerts : bool)
    (uuid4 : string) (w w' : World) (r : result unit) :
  whitelisted (effective_url is_v4 keep_api_url api_key) w ->
  setup_webhook cfg is_v4 tenant_id keep_api_url api_key setup_alerts uuid4 w
  = (r, w') ->
  whitelist_untouched w w'.
Proof.
  intros Hw H. apply setup_webhook_whitelist in H. now apply H.
Qed.

End ProvisioningWhitelist.

(* ------------------------------------------------------------------ *)
(** ** The alert fetch and the query dispatch, further *)

Lemma mapR_raises {A B} (f : A -> result B) (l : list A) (x : A) (e0 : exn) :
  In x l -> f x = Raise e0 -> exists e, mapR f l = Raise e.
Proof.
  induction l as [|y l IH]; [intros []|].
  intros [->|Hin] Hx; cbn [mapR].
  - rewrite Hx. eauto.
  - destruct (f y) as [b|e]; [|eauto].
    destruct (IH Hin Hx) as (e & ->). eauto.
Qed.

Lemma dget_dict_set_other (k k' : string) (v default : value)
    (d : list (string * value)) :
  k' <> k -> dget (dict_set k v d) k' default = dget d k' default.
Proof.
  intros Hne. unfold dget. f_equal.
  induction d as [|[k0 v0] d IH]; cbn [dict_set assoc].
  - destruct (String.eqb_spec k k'); [congruence|reflexivity].
  - destruct (String.eqb_spec k0 k) as [->|Hk0]; cbn [assoc].
    + destruct (String.eqb_spec k k'); [congruence|reflexivity].
    + destruct (String.eqb_spec k0 k'); [reflexivity|exact IH].
Qed.

Lemma dget_present (d : list (string * value)) (k : string)
    (v default default' : value) :
  assoc k d = Some v -> dget d k default = dget d k default'.
Proof. unfold dget. now intros ->. Qed.

Section FetchFacts.

Variable cfg : GraylogProviderAuthConfig.
Variable utc_isoformat : string -> result string.
Variable digest : list value -> string.

Local Abbreviation map_event :=
  (__map_event_to_alert utc_isoformat digest).

(** The fetch on a healthy backend: every page is requested, then the
    gathered events are mapped in one go. *)
Lemma get_alerts_gathered (w : World) :
  host_cached (_host w) = true ->
  healthy w ->
  let total := snd (events_search w (page_data 1)) in
  let pages := range 1 (Z.max 10 (ceil_div total 1000) + 1) in
  _get_alerts cfg utc_isoformat digest w
  = (mapR map_event
          (concat (map (fun p => fst (events_search w (page_data p))) pages)),
     issued (map (fun p => search_request w (page_data p)) pages) w).
Proof.
  intros Hc Hh total pages.
  set (page_count := Z.max 10 (ceil_div total 1000)) in *.
  assert (Hpc : (10 <= page_count)%Z) by (unfold page_count; lia).
  assert (Hpages : pages = 1%Z :: range 2 (page_count + 1)).
  { unfold pages. rewrite range_cons by lia. reflexivity. }
  destruct (alert_pages_served cfg Hc Hh (range 2 (page_count + 1)) 1
              (fst (events_search w (page_data 1)))
              [search_request w (page_data 1)])
    as (json_data & Hloop).
  unfold _get_alerts.
  erewrite run_bind;
    [|eapply get_alerts_served;
      [exact Hc|apply Hh|reflexivity|reflexivity]].
  cbn [body_events body_total_events]. rewrite !run_lift.
  erewrite run_bind; [|exact Hloop].
  cbn [snd]. unfold lift. rewrite Hpages. reflexivity.
Qed.

(** X11. The alert fetch maps the events only after the last page has been
    requested, and one event the mapping refuses anywhere in those pages
    makes the whole fetch raise: every page has been requested and no
    alert is returned. *)
Theorem unmappable_event_fails_the_fetch (w : World) (ev : value)
    (e0 : exn) :
  host_cached (_host w) = true ->
  healthy w ->
  let total := snd (events_search w (page_data 1)) in
  let pages := range 1 (Z.max 10 (ceil_div total 1000) + 1) in
  In ev (concat (map (fun p => fst (events_search w (page_data p))) pages)) ->
  __map_event_to_alert utc_isoformat digest ev = Raise e0 ->
  exists e,
    _get_alerts cfg utc_isoformat digest w
    = (Raise e, issued (map (fun p => search_request w (page_data p)) pages) w).
Proof.
  intros Hc Hh total pages Hin Hev.
  destruct (mapR_raises map_event _ ev Hin Hev) as (e & He).
  exists e. unfold pages, total.
  rewrite (get_alerts_gathered Hc Hh). fold total. fold pages.
  now rewrite He.
Qed.

(** X12. Without a query, a parameter mapping that lacks ['page'] or
    ['per_page'] makes [_query] raise the [KeyError] of the missing key
    before anything is sent: no request is recorded and the backend is as
    it was. *)
Theorem alert_search_needs_page_keys
    (events_search_parameters kwargs : list (string * value))
    (query_id search_type_id : string) (w : World) :
  truthy (py_or (dget kwargs "query" VNone)
                (dget events_search_parameters "query" VNone)) = false ->
  assoc "page" events_search_parameters = None
  \/ assoc "per_page" events_search_parameters = None ->
  exists k w',
    _query cfg utc_isoformat digest events_search_parameters kwargs
           query_id search_type_id w = (Raise (KeyError k), w')
    /\ (k = "page" \/ k = "per_page")
    /\ assoc k events_search_parameters = None
    /\ requests w' = requests w
    /\ store w' = store w.
Proof.
  intros Hq Hmissing. unfold _query. rewrite Hq.
  unfold alert_search_path, __get_alerts.
  destruct (assoc "page" events_search_parameters) as [pg|] eqn:Hpg.
  - destruct Hmissing as [Hm|Hm]; [discriminate|].
    exists "per_page". eexists. split.
    + unfold bind at 1, reraising, try_except, bind at 1, lift at 1.
      cbn [getitem]. rewrite Hpg.
      unfold bind at 1, lift at 1. cbn [getitem]. rewrite Hm.
      reflexivity.
    + repeat split; auto.
  - exists "page". eexists. split.
    + unfold bind at 1, reraising, try_except, bind at 1, lift at 1.
      cbn [getitem]. rewrite Hpg. reflexivity.
    + repeat split; auto.
Qed.

(** X13. With a truthy ['query'] keyword argument, a search option given
    as keyword argument hides the one of the parameter mapping: whatever
    the mapping holds under that key, the run of [_query] is the same. *)
Theorem keyword_arguments_take_precedence
    (events_search_parameters kwargs : list (string * value))
    (query_id search_type_id : string) (k : string) (given v : value) :
  truthy (dget kwargs "query" VNone) = true ->
  assoc k kwargs = Some given ->
  _query cfg utc_isoformat digest (dict_set k v events_search_parameters)
         kwargs query_id search_type_id
  = _query cfg utc_isoformat digest events_search_parameters kwargs
           query_id search_type_id.
Proof.
  intros Hq Hk. unfold _query, py_or. rewrite Hq. cbv zeta. rewrite Hq.
  assert (Hd : forall k' d1 d2,
             dget kwargs k' (dget (dict_set k v events_search_parameters) k' d1)
             = dget kwargs k' (dget events_search_parameters k' d2) \/
             dget (dict_set k v events_search_parameters) k' d1
             = dget events_search_parameters k' d1).
  { intros k' d1 d2. destruct (String.eqb_spec k' k) as [->|Hne].
    - left. now apply dget_present with given.
    - right. now apply dget_dict_set_other. }
  assert (He : forall k' d,
             dget kwargs k' (dget (dict_set k v events_search_parameters) k' d)
             = dget kwargs k' (dget events_search_parameters k' d)).
  { intros k' d. destruct (Hd k' d d) as [H|H]; [exact H|now rewrite H]. }
  now rewrite !He.
Qed.

End FetchFacts.

(* ------------------------------------------------------------------ *)
(** ** The log search *)

Lemma send_search_recorded (url : string) (search_body : value)
    (w w' : World) (r : result Response) :
  send url (PostViewsSearchSync search_body) w = (r, w') ->
  requests w' = requests w ++ [Build_Request url (PostViewsSearchSync search_body)]
  /\ store w' = store w.
Proof.
  unfold send. destruct (faults w _); cbn; intros [= <- <-]; auto.
Qed.

Section SearchFacts.

Variable cfg : GraylogProviderAuthConfig.

(** X14. With numbers for the page and the page size, a run of [search]
    records exactly one request, the synchronous search, whatever comes
    of it, and changes nothing on the backend.  The body asks for the
    query as given, for [per_page] messages and for the offset
    [page * per_page], zero when that product is negative. *)
Theorem search_sends_one_request
    (query query_type timerange_seconds timerange_type page per_page : value)
    (query_id search_type_id : string) (p pp : Z) (w w' : World)
    (r : result value) :
  as_number page = Ok p ->
  as_number per_page = Ok pp ->
  search cfg query query_type timerange_seconds timerange_type page per_page
         query_id search_type_id w = (r, w') ->
  exists url search_body search_type,
    requests w'
    = requests w ++ [Build_Request url (PostViewsSearchSync search_body)]
    /\ store w' = store w
    /\ query_clause_of search_body
       = Ok (VDict [("type", query_type); ("query_string", query)])
    /\ search_type_of search_body = Ok search_type
    /\ getitem search_type "id" = Ok (VStr search_type_id)
    /\ getitem search_type "limit" = Ok per_page
    /\ getitem search_type "offset" = Ok (VInt (Z.max 0 (p * pp))).
Proof.
  intros Hp Hpp. unfold search. rewrite Hp, Hpp, !run_lift.
  intros H.
  destruct (get_url_backend cfg ["views"; "search"; "sync"] w)
    as (u & w1 & Hu & Hreq & _ & Hst & _).
  erewrite run_bind in H; [|exact Hu].
  apply bind_cases in H as [(resp & w2 & Hsend & H)|(e & Hsend & _)].
  - apply send_search_recorded in Hsend as [Hreq2 Hst2].
    assert (Hq : quiet (fun _ => false) w2 w').
    { refine ((_ : steps (quiet (fun _ : api_call => false)) _) _ _ _ H).
      steps_auto (quiet_insensitive (fun _ : api_call => false)). }
    destruct Hq as [Hst3 (l & Hreq3 & Hl)].
    assert (l = []) by (destruct l; [reflexivity|discriminate]). subst l.
    rewrite app_nil_r in Hreq3.
    eexists _, _, _. split; [rewrite Hreq3, Hreq2, Hreq; reflexivity|].
    split; [congruence|].
    repeat (split; [reflexivity|]).
    cbn. do 2 f_equal. destruct (Z.ltb_spec (p * pp) 0); lia.
  - apply send_search_recorded in Hsend as [Hreq2 Hst2].
    eexists _, _, _. split; [rewrite Hreq2, Hreq; reflexivity|].
    split; [congruence|].
    repeat (split; [reflexivity|]).
    cbn. do 2 f_equal. destruct (Z.ltb_spec (p * pp) 0); lia.
Qed.

Variable utc_isoformat : string -> result string.
Variable digest : list value -> string.

(** X15. With a truthy ['query'] keyword argument, a page or a page size
    given as a keyword argument that is not a number makes [_query] raise
    [TypeError] at the offset, before anything is sent. *)
Theorem query_refuses_non_numbers
    (events_search_parameters kwargs : list (string * value))
    (query_id search_type_id : string) (k : string) (v : value) (e : exn)
    (w : World) :
  truthy (dget kwargs "query" VNone) = true ->
  k = "page" \/ k = "per_page" ->
  assoc k kwargs = Some v ->
  as_number v = Raise e ->
  exists w',
    _query cfg utc_isoformat digest events_search_parameters kwargs
           query_id search_type_id w = (Raise TypeError, w')
    /\ requests w' = requests w
    /\ store w' = store w.
Proof.
  intros Hq Hk Hv He.
  assert (Hty : as_number v = Raise TypeError).
  { destruct v; cbn in He |- *; congruence. }
  assert (Hd : forall default, dget kwargs k default = v).
  { intros default. unfold dget. now rewrite Hv. }
  unfold _query, py_or. rewrite Hq. cbv zeta. rewrite Hq. unfold search.
  destruct Hk as [-> | ->]; rewrite Hd, Hty.
  - eexists. split; [reflexivity|auto].
  - destruct (as_number (dget kwargs "page" _)) as [z|e1] eqn:Hpage.
    + eexists. split; [reflexivity|auto].
    + assert (e1 = TypeError) as ->.
      { destruct (dget kwargs "page" _); cbn in Hpage; congruence. }
      eexists. split; [reflexivity|auto].
Qed.

End SearchFacts.

Section SearchReading.

Variable cfg : GraylogProviderAuthConfig.

(** What [search] makes of a served response whose ["results"] are
    [by_query]. *)
Lemma search_served
    (query query_type timerange_seconds timerange_type page per_page : value)
    (query_id search_type_id : string) (p pp : Z) (w : World)
    (answer : value) :
  host_cached (_host w) = true ->
  faults w (List.length (requests w)) = NoFault ->
  as_number page = Ok p ->
  as_number per_page = Ok pp ->
  (forall search_body, views_search w search_body = answer) ->
  fst (search cfg query query_type timerange_seconds timerange_type page
              per_page query_id search_type_id w)
  = fst ((by_query <- lift (getitem answer "results") ;;
          results <- lift (match by_query with
                           | VDict ((_, v) :: _) => Ok v
                           | VDict [] => Raise StopIteration
                           | _ => Raise AttributeError
                           end) ;;
          search_types <- lift (get results "search_types" (VDict [])) ;;
          found <- lift (get search_types search_type_id VNone) ;;
          messages <- lift (get found "messages" (VList [])) ;;
          match messages with
          | VList _ | VStr _ | VDict _ => ret messages
          | _ => raise TypeError
          end)%prov w).
Proof.
  intros Hc Hf Hp Hpp Hans. unfold search. rewrite Hp, Hpp, !run_lift.
  erewrite run_bind; [|apply get_url_cached; exact Hc].
  erewrite run_bind; [|apply send_served; exact Hf].
  cbn [serve fst snd].
  change (views_search (issued _ w)) with (views_search w).
  rewrite Hans.
  unfold raise_for_status, respond. cbn [status_code].
  cbn [Z.leb Z.ltb Z.compare Pos.compare Pos.compare_cont andb].
  rewrite run_ret. cbn [json content]. rewrite !run_lift.
  unfold bind, lift, ret, raise.
  repeat match goal with
         | |- context [match ?x with _ => _ end] => destruct x
         end; reflexivity.
Qed.

(** X16. How [search] reads a served response, of which it reads the
    first entry of ["results"] only: with no entry it raises
    [StopIteration]; when that entry has no search type under the
    identifier of the request it raises [AttributeError] rather than
    return no messages; when the search type has no ["messages"] it
    returns the empty list; otherwise it returns the messages as they
    are. *)
Theorem search_reads_first_result
    (query query_type timerange_seconds timerange_type page per_page : value)
    (query_id search_type_id : string) (p pp : Z) (w : World)
    (by_query : list (string * value)) :
  host_cached (_host w) = true ->
  faults w (List.length (requests w)) = NoFault ->
  as_number page = Ok p ->
  as_number per_page = Ok pp ->
  (forall search_body,
     views_search w search_body = VDict [("results", VDict by_query)]) ->
  let outcome :=
    fst (search cfg query query_type timerange_seconds timerange_type page
                per_page query_id search_type_id w) in
  (by_query = [] -> outcome = Raise StopIteration)
  /\ (forall q first others types,
        by_query = (q, VDict first) :: others ->
        dget first "search_types" (VDict []) = VDict types ->
        (assoc search_type_id types = None ->
         outcome = Raise AttributeError)
        /\ (forall found,
              assoc search_type_id types = Some (VDict found) ->
              (assoc "messages" found = None -> outcome = Ok (VList []))
              /\ (forall messages,
                    assoc "messages" found = Some (VList messages) ->
                    outcome = Ok (VList messages)))).
Proof.
  intros Hc Hf Hp Hpp Hans outcome.
  unfold outcome.
  rewrite (@search_served query query_type timerange_seconds timerange_type
             page per_page query_id search_type_id p pp w _ Hc Hf Hp Hpp
             Hans).
  split.
  - intros ->. reflexivity.
  - intros q first others types -> Htypes.
    cbn [getitem assoc String.eqb Ascii.eqb Bool.eqb]. rewrite !run_lift.
    cbn [get]. rewrite Htypes, !run_lift. cbn [get].
    split.
    + intros Hnone. unfold dget at 1. rewrite Hnone. reflexivity.
    + intros found Hfound.
      assert (Hd : dget types search_type_id VNone = VDict found)
        by (unfold dget; now rewrite Hfound).
      rewrite !Hd, !run_lift. cbn [get]. split.
      * intros Hm. unfold dget. rewrite Hm. reflexivity.
      * intros messages Hm. unfold dget. rewrite Hm. reflexivity.
Qed.

End SearchReading.

(* ------------------------------------------------------------------ *)
(** ** The calls of provisioning *)

Lemma issuing_insensitive (P : api_call -> Prop) : insensitive (issuing P).
Proof.
  split.
  - intros w. exists []. split; [now rewrite app_nil_r|constructor].
  - intros a b c (l1 & Hr1 & Hp1) (l2 & Hr2 & Hp2).
    exists (l1 ++ l2). split.
    + now rewrite Hr2, Hr1, <- app_assoc.
    + apply Forall_app. now split.
  - intros h w. exists []. split; [cbn; now rewrite app_nil_r|constructor].
  - intros l w. exists []. split; [cbn; now rewrite app_nil_r|constructor].
  - intros l w. exists []. split; [cbn; now rewrite app_nil_r|constructor].
Qed.

Lemma issuing_recorded (P : api_call -> Prop) (url : string) (c : api_call)
    (w : World) :
  P c -> issuing P w (issued [Build_Request url c] w).
Proof.
  intros Hp. eexists. split; [reflexivity|]. constructor; [exact Hp|constructor].
Qed.

Lemma serve_requests (c : api_call) (w : World) :
  requests (snd (serve c w)) = requests w.
Proof.
  destruct c; cbn [serve];
    repeat match goal with
           | |- context [if ?c then _ else _] => destruct c
           | |- context [events_search ?w ?j] => destruct (events_search w j)
           end; reflexivity.
Qed.

Lemma issuing_served (P : api_call -> Prop) (c : api_call) (w : World) :
  issuing P w (snd (serve c w)).
Proof.
  exists []. split; [now rewrite serve_requests, app_nil_r|constructor].
Qed.

Section ProtocolFacts.

Variable cfg : GraylogProviderAuthConfig.
Variable is_v4 : bool.

(** X17. Whatever the backend answers and wherever the run stops,
    [setup_webhook] sends nothing but the calls of provisioning.  In
    particular the one notification it may create has the derived title
    and carries the API key in the callback URL on v4 and in the
    [X-API-KEY] header otherwise, the URL it may add to the whitelist is
    the one of that notification, and it never updates a notification in
    place. *)
Theorem provisioning_protocol (tenant_id keep_api_url api_key : string)
    (setup_alerts : bool) (uuid4 : string) :
  steps (issuing (provisioning_call is_v4 keep_api_url api_key uuid4))
        (setup_webhook cfg is_v4 tenant_id keep_api_url api_key setup_alerts
                       uuid4).
Proof.
  set (P := provisioning_call is_v4 keep_api_url api_key uuid4).
  pose proof (issuing_insensitive P) as HR.
  assert (Hrebind : forall l stale new_notification,
             steps (issuing P)
                   (rebind_definitions cfg is_v4 l stale new_notification)).
  { intros l stale new_notification. unfold rebind_definitions.
    apply (steps_for_each HR). intros ed _. unfold __update_event.
    steps_auto HR;
      first [apply issuing_served|apply issuing_recorded; reflexivity]. }
  unfold setup_webhook, collect_event_definitions, whitelist_url,
    replace_notification, __get_events, __get_url_whitelist,
    __update_url_whitelist, __get_notification, __delete_notification,
    __create_notification.
  steps_auto HR;
    first [ apply issuing_served
          | apply issuing_recorded; unfold P, provisioning_call ].
  all: try solve [reflexivity | exact I | repeat split].
  - eexists. reflexivity.
  - split; [reflexivity|]. cbn [nb_config notification_body_of].
    unfold expected_config, effective_url. destruct is_v4; reflexivity.
Qed.

End ProtocolFacts.

(* ------------------------------------------------------------------ *)
(** ** What a served run of provisioning leaves alone *)

Lemma same_id_same_notification (l : list Notification.t)
    (a b : Notification.t) :
  NoDup (map Notification.id l) -> In a l -> In b l ->
  Notification.id a = Notification.id b -> a = b.
Proof.
  induction l as [|x l IH]; [intros _ []|].
  cbn [map]. intros Hnd Ha Hb Hid. inversion Hnd as [|? ? Hnotin Hnd']; subst.
  destruct Ha as [->|Ha], Hb as [->|Hb]; auto.
  - exfalso. apply Hnotin. rewrite Hid. now apply in_map.
  - exfalso. apply Hnotin. rewrite <- Hid. now apply in_map.
Qed.



Section ServedFrame.

Variable cfg : GraylogProviderAuthConfig.
Variable is_v4 : bool.

(** X18. A served run of [setup_webhook] on a backend whose notifications
    have distinct identifiers keeps every notification of another title:
    it is still there afterwards, unchanged. *)
Theorem other_notifications_survive
    (tenant_id keep_api_url api_key : string) (setup_alerts : bool)
    (uuid4 : string) (w : World) :
  host_cached (_host w) = true ->
  healthy w ->
  (List.length (event_definitions w) <= 100)%nat ->
  NoDup (map EventDefinition.id (event_definitions w)) ->
  scopes_reported is_v4 w ->
  NoDup (map Notification.id (notifications w)) ->
  exists w',
    setup_webhook cfg is_v4 tenant_id keep_api_url api_key setup_alerts
                  uuid4 w = (Ok tt, w')
    /\ forall m,
         In m (notifications w) ->
         Notification.title m <> notification_name_of keep_api_url ->
         In m (notifications w').
Proof.
  intros Hc Hh Hlen Hnd Hscope Hids.
  destruct (@setup_webhook_served cfg is_v4 tenant_id keep_api_url api_key
              setup_alerts uuid4 w Hc Hh Hlen Hnd Hscope)
    as (w' & Hrun & _ & _ & Hn & _ & _).
  exists w'. split; [exact Hrun|].
  intros m Hin Htitle. rewrite Hn. apply in_or_app. left.
  unfold stale_of.
  destruct (filter _ (notifications w)) as [|n0 rest] eqn:Hf;
    cbn [without_stale]; [exact Hin|].
  apply filter_head_in in Hf as [Hin0 Ht0].
  rewrite title_query_matches in Ht0. apply String.eqb_eq in Ht0.
  apply filter_In. split; [exact Hin|].
  apply negb_true_iff. apply Nat.eqb_neq. intros Hid.
  apply Htitle. rewrite <- Ht0. f_equal.
  exact (same_id_same_notification _ _ _ Hids Hin Hin0 Hid).
Qed.


End ServedFrame.

(* ------------------------------------------------------------------ *)
(** ** A run of provisioning that fails half-way *)

Lemma bind_raises {A B} (m : M A) (f : A -> M B) (w w' : World) (e : exn) :
  m w = (Raise e, w') -> bind m f w = (Raise e, w').
Proof. intros H. unfold bind. now rewrite H. Qed.

Lemma reraising_raises {A} (msg : string) (m : M A) (w w' : World)
    (e : exn) :
  m w = (Raise e, w') ->
  reraising msg m w
  = (Raise e, set_logged (logged w' ++ [(LogError, msg)]) w').
Proof. intros H. unfold reraising, try_except. now rewrite H. Qed.

Lemma titled_after_delete (name : string) (n0 : Notification.t)
    (l : list Notification.t) :
  filter (fun n => Notification.title n =? name) l = [n0] ->
  filter (fun n => Notification.title n =? name)
         (filter (fun n => negb (Notification.id n =? Notification.id n0)%nat)
                 l) = [].
Proof.
  intros H. apply filter_none. intros x Hx.
  apply filter_In in Hx as [Hin Hid].
  destruct (Notification.title x =? name) eqn:Ht; [|reflexivity].
  assert (Hx : In x [n0]) by (rewrite <- H; apply filter_In; auto).
  destruct Hx as [<-|[]]. now rewrite Nat.eqb_refl in Hid.
Qed.

Lemma requests_after_issued (l : list Request) (w : World) :
  List.length (requests (issued l w))
  = (List.length (requests w) + List.length l)%nat.
Proof. unfold issued, set_requests. cbn. now rewrite length_app. Qed.

Lemma faults_after_issued (l : list Request) (w : World) :
  faults (issued l w) = faults w.
Proof. reflexivity. Qed.

Lemma calls_issued (l : list Request) (w : World) :
  calls (issued l w) = calls w ++ map req_call l.
Proof. unfold calls, issued, set_requests. cbn. apply map_app. Qed.

Lemma calls_logged (l : list (log_level * string)) (w : World) :
  calls (set_logged l w) = calls w.
Proof. reflexivity. Qed.

Lemma calls_notifications (l : list Notification.t) (w : World) :
  calls (set_notifications l w) = calls w.
Proof. reflexivity. Qed.

Section FailureFacts.

Variable cfg : GraylogProviderAuthConfig.
Variable is_v4 : bool.

Lemma collect_first_page (w : World) :
  host_cached (_host w) = true ->
  faults w (List.length (requests w)) = NoFault ->
  (List.length (event_definitions w) <= 100)%nat ->
  collect_event_definitions cfg w
  = (Ok (event_definitions w), issued [definitions_request w 1 100] w).
Proof.
  intros Hc Hf Hlen. unfold collect_event_definitions.
  erewrite run_bind; [|apply (get_events_served cfg 1 100 w Hc Hf)].
  cbn [body_event_definitions body_total]. rewrite !run_lift.
  pose proof (ceil_div_100 (Z.of_nat (List.length (event_definitions w))))
    as Hceil.
  unfold range.
  replace (Z.to_nat (ceil_div _ 100 - 2)) with 0%nat by lia.
  cbn [seq map for_fold]. unfold ret.
  unfold page_slice. cbn [Z.sub Z.mul Z.to_nat Z.add Z.opp Z.pos_sub skipn].
  rewrite firstn_all2 by (change (Z.to_nat 100) with 100%nat; lia).
  reflexivity.
Qed.

Lemma create_notification_refused (name : string) (nb : NotificationBody)
    (w : World) :
  host_cached (_host w) = true ->
  faults w (List.length (requests w)) <> NoFault ->
  exists e,
    __create_notification cfg name nb w
    = (Raise e,
       set_logged (logged w ++ [(LogError, "Error while creating notification")])
                  (issued [notification_create w nb] w)).
Proof.
  intros Hc Hf. unfold __create_notification.
  destruct (faults w (List.length (requests w))) eqn:Hfault;
    [contradiction| |].
  - eexists. erewrite reraising_raises; cycle 1.
    + erewrite run_bind; [|apply (get_url_cached cfg _ _ Hc)].
      unfold bind, send. rewrite Hfault. reflexivity.
    + reflexivity.
  - eexists. erewrite reraising_raises; cycle 1.
    + erewrite run_bind; [|apply (get_url_cached cfg _ _ Hc)].
      unfold bind, send. rewrite Hfault. reflexivity.
    + reflexivity.
Qed.

(** X20. Nothing is rolled back.  On a backend with at most one page of
    event definitions, one notification of the derived title and the
    callback URL whitelisted, when the first
    four requests of [setup_webhook] are served and the fifth, the
    creation, is not, the run raises after having deleted the
    notification: no notification of the title is left, the event
    definitions still are as they were, references to the deleted
    notification included, and no further request is sent. *)
Theorem failed_creation_is_not_rolled_back
    (tenant_id keep_api_url api_key : string) (setup_alerts : bool)
    (uuid4 : string) (w : World) (n0 : Notification.t) :
  let name := notification_name_of keep_api_url in
  let url := effective_url is_v4 keep_api_url api_key in
  host_cached (_host w) = true ->
  (List.length (event_definitions w) <= 100)%nat ->
  whitelisted url w ->
  titled name w = [n0] ->
  (forall k, (k < 4)%nat ->
             faults w (List.length (requests w) + k) = NoFault) ->
  faults w (List.length (requests w) + 4) <> NoFault ->
  exists e w',
    setup_webhook cfg is_v4 tenant_id keep_api_url api_key setup_alerts
                  uuid4 w = (Raise e, w')
    /\ titled name w' = []
    /\ event_definitions w' = event_definitions w
    /\ calls w'
       = calls w ++
         [GetEventDefinitions 1 100;
          GetUrlWhitelist;
          GetNotifications 1 1 ("title:" ++ name);
          DeleteNotification (Notification.id n0);
          PostNotification (notification_body_of is_v4 name url api_key)].
Proof.
  intros name url Hc Hlen Hwl Htitled Hserved Hfail.
  assert (Hfound : filter (title_matches ("title:" ++ name)) (notifications w)
                   = [n0]).
  { rewrite (filter_ext _ _ (title_query_matches name)). exact Htitled. }
  pose proof (filter_head_in _ _ Hfound) as [Hin0 _].
  set (w1 := issued [definitions_request w 1 100] w).
  set (w2 := issued [whitelist_read w1] w1).
  set (w3 := issued [notification_query w2 name] w2).
  set (w4 := set_notifications
               (filter (fun n => negb (Notification.id n =? Notification.id n0)%nat)
                       (notifications w3))
               (issued [notification_delete w3 (Notification.id n0)] w3)).
  assert (Hf0 : faults w (List.length (requests w)) = NoFault).
  { rewrite <- (Nat.add_0_r (List.length (requests w))). apply Hserved. lia. }
  assert (Hf1 : faults w1 (List.length (requests w1)) = NoFault).
  { unfold w1. rewrite faults_after_issued, requests_after_issued. apply Hserved. cbn. lia. }
  assert (Hf2 : faults w2 (List.length (requests w2)) = NoFault).
  { unfold w2, w1. rewrite !faults_after_issued, !requests_after_issued, <- !Nat.add_assoc.
    apply Hserved. cbn. lia. }
  assert (Hf3 : faults w3 (List.length (requests w3)) = NoFault).
  { unfold w3, w2, w1. rewrite !faults_after_issued, !requests_after_issued, <- !Nat.add_assoc.
    apply Hserved. cbn. lia. }
  assert (Hf4 : faults w4 (List.length (requests w4)) <> NoFault).
  { unfold w4. cbn [faults requests set_notifications].
    unfold w3, w2, w1. rewrite !faults_after_issued, !requests_after_issued, <- !Nat.add_assoc.
    exact Hfail. }
  destruct (@create_notification_refused name
              (notification_body_of is_v4 name url api_key) w4 Hc Hf4)
    as (e & Hcreate).
  exists e. eexists. split; [|split; [|split]].
  - unfold setup_webhook. fold name. fold url.
    apply reraising_raises.
    erewrite run_bind; [|apply collect_first_page; [exact Hc|exact Hf0|exact Hlen]].
    fold w1.
    erewrite run_bind;
      [|apply whitelist_url_present; [exact Hc|exact Hf1|exact Hwl]].
    fold w2. apply bind_raises.
    unfold replace_notification.
    erewrite run_bind;
      [|apply (get_notification_served cfg name w2 Hc Hf2)].
    cbv zeta. change (notifications w2) with (notifications w).
    rewrite Hfound.
    change (page_slice 1 1 [n0]) with [n0].
    cbn [body_count]. rewrite run_lift.
    change (0 <? Z.of_nat (List.length [n0]))%Z with true.
    cbv iota. cbn [body_notifications]. fold w3.
    assert (Hhas : has_notification (Notification.id n0) (notifications w3)
                   = true).
    { apply existsb_exists. exists n0. split; [exact Hin0|].
      apply Nat.eqb_refl. }
    erewrite run_bind.
    2:{ rewrite run_lift.
        change (py_index [n0] 0) with (Ok n0). rewrite run_lift.
        erewrite run_bind;
          [|apply (delete_notification_served cfg _ w3 Hc Hf3 Hhas)].
        reflexivity. }
    fold w4. apply bind_raises. exact Hcreate.
  - unfold titled. cbn [notifications set_logged issued set_requests w4
                        set_notifications].
    change (notifications w3) with (notifications w).
    apply titled_after_delete. exact Htitled.
  - reflexivity.
  - rewrite !calls_logged, calls_issued. unfold w4.
    rewrite calls_notifications, calls_issued. unfold w3.
    rewrite calls_issued. unfold w2. rewrite calls_issued. unfold w1.
    rewrite calls_issued. rewrite <- !app_assoc. reflexivity.
Qed.

End FailureFacts.

(* ------------------------------------------------------------------ *)
(** ** The migration of the deduplication rules *)

Section MigrationFacts.

Import Migration.

Lemma find_put_same (name : string) (t t' : Table) (db : Database) :
  find_table name db = Some t ->
  find_table name (put_table name t' db) = Some t'.
Proof.
  induction db as [|[n x] db IH]; cbn [find_table put_table];
    [discriminate|].
  destruct (n =? name) eqn:Hn; cbn [find_table]; rewrite Hn; auto.
Qed.

Lemma find_put_other (name other : string) (t' : Table) (db : Database) :
  other <> name ->
  find_table other (put_table name t' db) = find_table other db.
Proof.
  intros Hne. induction db as [|[n x] db IH]; cbn [find_table put_table];
    [reflexivity|].
  destruct (String.eqb_spec n name) as [->|Hn]; cbn [find_table].
  - destruct (String.eqb_spec name other); [congruence|reflexivity].
  - destruct (n =? other); [reflexivity|exact IH].
Qed.

Lemma put_put (name : string) (t1 t2 : Table) (db : Database) :
  put_table name t2 (put_table name t1 db) = put_table name t2 db.
Proof.
  induction db as [|[n x] db IH]; cbn [put_table]; [reflexivity|].
  destruct (n =? name) eqn:Hn; cbn [put_table]; rewrite Hn;
    [reflexivity|now rewrite IH].
Qed.

Lemma put_found (name : string) (t : Table) (db : Database) :
  find_table name db = Some t -> put_table name t db = db.
Proof.
  induction db as [|[n x] db IH]; cbn [find_table put_table];
    [reflexivity|].
  destruct (n =? name) eqn:Hn.
  - now intros [= ->].
  - intros H. now rewrite IH.
Qed.

Lemma no_such_column (name : string) (t : Table) (c : Column) :
  has_column name t = false -> In c (columns t) ->
  (col_name c =? name) = false.
Proof.
  unfold has_column. intros H Hin.
  destruct (col_name c =? name) eqn:Hc; [|reflexivity].
  assert (existsb (fun c => col_name c =? name) (columns t) = true)
    by (apply existsb_exists; eauto).
  congruence.
Qed.

Lemma no_such_key (name : string) (t : Table)
    (r : list (string * sql_value)) (kv : string * sql_value) :
  has_column name t = false -> conforms t -> In r (rows t) -> In kv r ->
  (fst kv =? name) = false.
Proof.
  intros H Hconf Hr Hkv.
  assert (Hin : In (fst kv) (map col_name (columns t))).
  { rewrite <- (Hconf r Hr). now apply in_map. }
  apply in_map_iff in Hin as (c & Hc & Hin). rewrite <- Hc.
  now apply (@no_such_column name t).
Qed.

Lemma has_column_added (t : Table) (c : Column) :
  has_column (col_name c) {| columns := columns t ++ [c]; rows := rows t |}
  = true.
Proof.
  unfold has_column. cbn [columns]. rewrite existsb_app. cbn.
  now rewrite String.eqb_refl, orb_true_r.
Qed.

(** The table [upgrade] makes of the rules table. *)
Lemma upgrade_table (db : Database) (t : Table) :
  rules_table db = Some t ->
  has_column "is_provisioned" t = false ->
  conforms t ->
  upgrade db
  = Done (put_table "alertdeduplicationrule"
            {| columns := columns t ++ [is_provisioned_plain];
               rows := map (fun r => r ++ [("is_provisioned", SqlBool false)])
                           (rows t) |} db).
Proof.
  unfold rules_table. intros Ht Hcol Hconf.
  unfold upgrade, alter at 1. rewrite Ht.
  unfold add_column. cbn [col_name is_provisioned server_default].
  rewrite Hcol. cbn [then_].
  unfold alter at 1. rewrite (find_put_same _ _ _ Ht).
  unfold update_all.
  match goal with
  | |- context [has_column ?n ?x] =>
      assert (Hadded : has_column n x = true)
  end.
  { unfold has_column. cbn [columns]. rewrite existsb_app. cbn.
    apply orb_true_r. }
  rewrite Hadded. cbn [then_ columns rows]. rewrite put_put.
  unfold alter. rewrite (find_put_same _ _ _ Ht).
  unfold alter_server_default.
  match goal with
  | |- context [has_column ?n ?x] =>
      assert (Hadded2 : has_column n x = true)
  end.
  { unfold has_column. cbn [columns]. rewrite existsb_app. cbn.
    apply orb_true_r. }
  rewrite Hadded2. cbn [columns rows]. rewrite put_put.
  do 2 f_equal. f_equal.
  - rewrite map_app. cbn [map col_name is_provisioned]. f_equal.
    rewrite <- (map_id (columns t)) at 2. apply map_ext_in.
    intros c Hc. now rewrite (@no_such_column "is_provisioned" t c Hcol Hc).
  - rewrite map_map. apply map_ext_in. intros r Hr.
    rewrite map_app. cbn [map fst]. f_equal.
    rewrite <- (map_id r) at 2. apply map_ext_in. intros kv Hkv.
    now rewrite (@no_such_key "is_provisioned" t r kv Hcol Hconf Hr Hkv).
Qed.

(** X21. On a rules table that has no [is_provisioned] column and whose
    rows hold its columns, [upgrade] succeeds: the table gains the column
    as its last one, not nullable and without a server default, every
    existing rule reads [false] under it with its other values kept, and
    no other table changes. *)
Theorem upgrade_adds_the_flag (db : Database) (t : Table) :
  rules_table db = Some t ->
  has_column "is_provisioned" t = false ->
  conforms t ->
  exists db' t',
    upgrade db = Done db'
    /\ rules_table db' = Some t'
    /\ columns t' = columns t ++ [is_provisioned_plain]
    /\ rows t'
       = map (fun r => r ++ [("is_provisioned", SqlBool false)]) (rows t)
    /\ conforms t'
    /\ forall other, other <> "alertdeduplicationrule" ->
                     find_table other db' = find_table other db.
Proof.
  intros Ht Hcol Hconf. eexists _, _. split; [|split; [|split; [|split; [|split]]]].
  - apply (upgrade_table db Ht Hcol Hconf).
  - unfold rules_table in *. apply (find_put_same _ _ _ Ht).
  - reflexivity.
  - reflexivity.
  - intros r Hr. cbn [rows columns] in *.
    apply in_map_iff in Hr as (r0 & <- & Hr0).
    rewrite !map_app, (Hconf r0 Hr0). reflexivity.
  - intros other Hne. now apply find_put_other.
Qed.

(** X22. [downgrade] undoes [upgrade]: on such a database, running the
    one after the other gives back the database as it was, schema and
    rows. *)
Theorem downgrade_undoes_upgrade (db : Database) (t : Table) :
  rules_table db = Some t ->
  has_column "is_provisioned" t = false ->
  conforms t ->
  then_ (upgrade db) downgrade = Done db.
Proof.
  intros Ht Hcol Hconf. rewrite (upgrade_table db Ht Hcol Hconf).
  cbn [then_]. unfold downgrade, alter. unfold rules_table in Ht.
  rewrite (find_put_same _ _ _ Ht). unfold drop_column.
  match goal with
  | |- context [has_column ?n ?x] =>
      assert (Hadded : has_column n x = true)
  end.
  { unfold has_column. cbn [columns]. rewrite existsb_app. cbn.
    apply orb_true_r. }
  rewrite Hadded. cbn [columns rows]. rewrite put_put.
  f_equal. rewrite <- (put_found _ _ Ht) at 2. f_equal.
  destruct t as [cols rws]. cbn [columns rows] in *. f_equal.
  - rewrite filter_app. cbn. rewrite app_nil_r.
    apply forallb_filter_id. apply forallb_forall. intros c Hc.
    now rewrite (@no_such_column "is_provisioned"
                   {| columns := cols; rows := rws |} c Hcol Hc).
  - rewrite map_map. rewrite <- (map_id rws) at 2. apply map_ext_in.
    intros r Hr. rewrite filter_app. cbn. rewrite app_nil_r.
    apply forallb_filter_id. apply forallb_forall. intros kv Hkv.
    now rewrite (@no_such_key "is_provisioned"
                   {| columns := cols; rows := rws |} r kv Hcol Hconf Hr Hkv).
Qed.

End MigrationFacts.

(* ------------------------------------------------------------------ *)
(** ** The further properties on sample inputs *)

Lemma healthy_sample (defs : list EventDefinition.t)
    (wl : list WhitelistEntry.t) (ns : list Notification.t) (next : ident) :
  healthy (sample_world defs wl ns next).
Proof. intros n. reflexivity. Qed.

Lemma mapping_accepts_exactly_witness :
  integer_priority (sample_event "01HA" 1 "cpu")
  /\ exists a,
      __map_event_to_alert sample_utc_isoformat sample_digest
                           (sample_event "01HA" 1 "cpu") = Ok a.
Proof.
  assert (Hint : integer_priority (sample_event "01HA" 1 "cpu")).
  { intros e pr He Hpr. injection He as <-. injection Hpr as <-. eauto. }
  split; [exact Hint|].
  apply (proj2 (@mapping_accepts_exactly sample_utc_isoformat sample_digest
                  (sample_event "01HA" 1 "cpu") Hint)).
  unfold acceptable.
  eexists _, _, _, _, _, _, _.
  repeat split; try reflexivity; cbv; discriminate.
Defined.

Lemma name_falls_back_to_message_witness :
  __map_event_to_alert sample_utc_isoformat sample_digest
                       event_without_message
  = Raise (KeyError "message").
Proof.
  apply (proj1 (@name_falls_back_to_message sample_utc_isoformat
                  sample_digest event_without_message
                  (VDict [("id", VStr "01HA")]) (VStr "01HA")
                  eq_refl eq_refl)).
  reflexivity.
Defined.

Lemma validate_scopes_reports_witness :
  exists s w',
    validate_scopes sample_config reader_lookup (sample_world [] [] [] 0)
    = (Ok s, w')
    /\ authenticated s = ScopeTrue
    /\ authorized s <> ScopeTrue.
Proof.
  destruct (validate_scopes_reports sample_config reader_lookup
              (sample_world [] [] [] 0))
    as (s & w' & Hrun & _ & _ & Hadmin & Hchecked & _).
  exists s, w'. split; [exact Hrun|]. split.
  - apply Hchecked. unfold roles_checked, reader_lookup.
    eexists _, _, _, _. repeat split; reflexivity.
  - intros Ha. apply Hadmin in Ha.
    destruct Ha as (text & user & roles & Hl & Hr & Hin).
    injection Hl as _ <-. cbn in Hr. injection Hr as <-. discriminate.
Defined.

Lemma url_ignores_trailing_slashes_witness :
  exists url,
    __get_url sample_config ["events"; "search"] (sample_world [] [] [] 0)
    = (Ok url, sample_world [] [] [] 0)
    /\ __get_url sample_config ["events"; "search"]
         (set_host (Some "http://127.0.0.1:9000//") (sample_world [] [] [] 0))
       = (Ok url,
          set_host (Some "http://127.0.0.1:9000//") (sample_world [] [] [] 0)).
Proof.
  apply (@url_ignores_trailing_slashes sample_config "http://127.0.0.1:9000"
           2 ["events"; "search"] (sample_world [] [] [] 0)
           (set_host (Some "http://127.0.0.1:9000//")
                     (sample_world [] [] [] 0))).
  - discriminate.
  - reflexivity.
  - reflexivity.
Defined.

Lemma construction_resolves_host_witness :
  host_cached (_host (snd (__init__ bare_host_config world_unresolved)))
  = true
  /\ calls (snd (__init__ bare_host_config world_unresolved)) = [GetRoot].
Proof.
  assert (H : rstrip_chars ["/"%char] (deployment_url bare_host_config) <> "")
    by (vm_compute; discriminate).
  destruct (@construction_resolves_host bare_host_config world_unresolved H)
    as (Hc & _ & Hcalls).
  split; [exact Hc|exact Hcalls].
Defined.

Lemma version_flag_witness :
  fst (__init__ sample_config world_unresolved) = Ok false.
Proof.
  exact (@version_flag sample_config world_unresolved
           [("version", VStr "5.2.3")] "5.2.3" eq_refl eq_refl eq_refl).
Defined.

Lemma fetching_is_read_only_witness :
  quiet is_search_call world_with_alerts
        (snd (_get_alerts sample_config sample_utc_isoformat sample_digest
                          world_with_alerts)).
Proof.
  apply (proj1 (fetching_is_read_only sample_config sample_utc_isoformat
                  sample_digest)
           world_with_alerts
           (fst (_get_alerts sample_config sample_utc_isoformat sample_digest
                             world_with_alerts))).
  apply surjective_pairing.
Defined.

Lemma provisioning_keeps_the_definitions_witness :
  same_definitions world_provisioned_before
    (snd (setup_webhook sample_config false "acme" sample_callback "secret"
                        true "c0de" world_provisioned_before)).
Proof.
  apply (@provisioning_keeps_the_definitions sample_config false "acme"
           sample_callback "secret" true "c0de" world_provisioned_before
           (fst (setup_webhook sample_config false "acme" sample_callback
                               "secret" true "c0de"
                               world_provisioned_before))).
  apply surjective_pairing.
Defined.

Lemma provisioning_whitelist_outcome_witness :
  whitelisted (effective_url true sample_callback "secret")
    (snd (setup_webhook sample_config true "acme" sample_callback "secret"
                        true "c0de" world_not_whitelisted)).
Proof.
  apply (proj2 (@provisioning_whitelist_outcome sample_config true "acme"
                  sample_callback "secret" true "c0de" world_not_whitelisted
                  _ _ (surjective_pairing _))).
  vm_compute. reflexivity.
Defined.

Lemma whitelisted_url_never_rewritten_witness :
  whitelist_untouched world_whitelisted
    (snd (setup_webhook sample_config false "acme" sample_callback "secret"
                        true "c0de" world_whitelisted)).
Proof.
  apply (@whitelisted_url_never_rewritten sample_config false "acme"
           sample_callback "secret" true "c0de" world_whitelisted _
           (fst (setup_webhook sample_config false "acme" sample_callback
                               "secret" true "c0de" world_whitelisted))).
  - eexists. split; [left; reflexivity|reflexivity].
  - apply surjective_pairing.
Defined.

Lemma unmappable_event_fails_the_fetch_witness :
  exists e,
    fst (_get_alerts sample_config sample_utc_isoformat sample_digest
                     world_with_bad_alert) = Raise e
    /\ List.length (calls (snd (_get_alerts sample_config sample_utc_isoformat
                                            sample_digest
                                            world_with_bad_alert)))
       = 10%nat.
Proof.
  destruct (@unmappable_event_fails_the_fetch sample_config
              sample_utc_isoformat sample_digest world_with_bad_alert
              (sample_event "01HZ" 7 "cpu") IndexError eq_refl
              (fun _ => eq_refl))
    as (e & He).
  - vm_compute. left. reflexivity.
  - vm_compute. reflexivity.
  - exists e. rewrite He. split; reflexivity.
Defined.

Lemma alert_search_needs_page_keys_witness :
  exists k w',
    _query sample_config sample_utc_isoformat sample_digest
           [("query", VStr "")] [] "q1" "s1" (sample_world [] [] [] 0)
    = (Raise (KeyError k), w')
    /\ requests w' = [].
Proof.
  destruct (@alert_search_needs_page_keys sample_config sample_utc_isoformat
              sample_digest [("query", VStr "")] [] "q1" "s1"
              (sample_world [] [] [] 0) eq_refl (or_introl eq_refl))
    as (k & w' & Hrun & _ & _ & Hreq & _).
  exists k, w'. split; [exact Hrun|exact Hreq].
Defined.

Lemma keyword_arguments_take_precedence_witness :
  _query sample_config sample_utc_isoformat sample_digest
         (dict_set "page" (VInt 7) empty_query_parameters)
         (sample_keywords (VInt 2)) "q1" "s1"
  = _query sample_config sample_utc_isoformat sample_digest
           empty_query_parameters (sample_keywords (VInt 2)) "q1" "s1".
Proof.
  apply (@keyword_arguments_take_precedence sample_config
           sample_utc_isoformat sample_digest empty_query_parameters
           (sample_keywords (VInt 2)) "q1" "s1" "page" (VInt 2) (VInt 7)).
  - reflexivity.
  - reflexivity.
Defined.

Lemma search_sends_one_request_witness :
  exists url search_body search_type,
    requests
      (snd (search sample_config (VStr "level:3") (VStr "elastic")
                   (VInt 300) (VStr "relative") (VInt 2) (VInt 50)
                   "q1" "s1" (sample_world [] [] [] 0)))
    = [Build_Request url (PostViewsSearchSync search_body)]
    /\ search_type_of search_body = Ok search_type
    /\ getitem search_type "offset" = Ok (VInt 100).
Proof.
  destruct (@search_sends_one_request sample_config (VStr "level:3")
              (VStr "elastic") (VInt 300) (VStr "relative") (VInt 2)
              (VInt 50) "q1" "s1" 2 50 (sample_world [] [] [] 0) _ _
              eq_refl eq_refl (surjective_pairing _))
    as (url & search_body & search_type & Hreq & _ & _ & Hst & _ & _ & Hoff).
  exists url, search_body, search_type.
  split; [exact Hreq|]. split; [exact Hst|exact Hoff].
Defined.

Lemma query_refuses_non_numbers_witness :
  exists w',
    _query sample_config sample_utc_isoformat sample_digest
           empty_query_parameters (sample_keywords (VStr "2")) "q1" "s1"
           (sample_world [] [] [] 0)
    = (Raise TypeError, w')
    /\ requests w' = [].
Proof.
  destruct (@query_refuses_non_numbers sample_config sample_utc_isoformat
              sample_digest empty_query_parameters
              (sample_keywords (VStr "2")) "q1" "s1" "page" (VStr "2")
              TypeError (sample_world [] [] [] 0) eq_refl
              (or_introl eq_refl) eq_refl eq_refl)
    as (w' & Hrun & Hreq & _).
  exists w'. split; [exact Hrun|exact Hreq].
Defined.

Lemma search_reads_first_result_witness :
  fst (search sample_config (VStr "level:3") (VStr "elastic") (VInt 300)
              (VStr "relative") (VInt 0) (VInt 150) "q1" "s1"
              (world_searching (VDict [("results", VDict [])])))
  = Raise StopIteration
  /\ fst (search sample_config (VStr "level:3") (VStr "elastic") (VInt 300)
                 (VStr "relative") (VInt 0) (VInt 150) "q1" "s1"
                 (world_searching
                    (VDict [("results",
                             VDict [("q1",
                                     VDict [("search_types",
                                             VDict [("s0", VDict [])])])])])))
     = Raise AttributeError.
Proof.
  split.
  - apply (proj1 (@search_reads_first_result sample_config (VStr "level:3")
                    (VStr "elastic") (VInt 300) (VStr "relative") (VInt 0)
                    (VInt 150) "q1" "s1" 0 150
                    (world_searching (VDict [("results", VDict [])])) []
                    eq_refl eq_refl eq_refl eq_refl (fun _ => eq_refl))).
    reflexivity.
  - refine (proj1 (proj2 (@search_reads_first_result sample_config
                            (VStr "level:3") (VStr "elastic") (VInt 300)
                            (VStr "relative") (VInt 0) (VInt 150) "q1" "s1"
                            0 150 (world_searching _) _
                            eq_refl eq_refl eq_refl eq_refl
                            (fun _ => eq_refl))
                      "q1" [("search_types", VDict [("s0", VDict [])])] []
                      [("s0", VDict [])] eq_refl eq_refl) _).
    reflexivity.
Defined.

Lemma provisioning_protocol_witness :
  issuing (provisioning_call true sample_callback "secret" "c0de")
    world_provisioned_before
    (snd (setup_webhook sample_config true "acme" sample_callback "secret"
                        true "c0de" world_provisioned_before)).
Proof.
  apply (@provisioning_protocol sample_config true "acme" sample_callback
           "secret" true "c0de" world_provisioned_before
           (fst (setup_webhook sample_config true "acme" sample_callback
                               "secret" true "c0de"
                               world_provisioned_before))).
  apply surjective_pairing.
Defined.

Lemma provisioned_before_distinct :
  NoDup (map EventDefinition.id (event_definitions world_provisioned_before))
  /\ NoDup (map Notification.id (notifications world_provisioned_before))
  /\ scopes_reported false world_provisioned_before
  /\ (List.length (event_definitions world_provisioned_before) <= 100)%nat.
Proof.
  split; [|split; [|split; [|cbn; lia]]].
  - cbn. repeat constructor; cbn; intuition discriminate.
  - cbn. repeat constructor; cbn; intuition discriminate.
  - intros _ d [<-|[<-|[]]]; discriminate.
Qed.

Lemma other_notifications_survive_witness :
  exists w',
    setup_webhook sample_config false "acme" sample_callback "secret" true
                  "c0de" world_provisioned_before = (Ok tt, w')
    /\ In (Notification.mk 3 "pager" "" (http_notification_v1 "https://pager"))
          (notifications w').
Proof.
  destruct (@other_notifications_survive sample_config false "acme"
              sample_callback "secret" true "c0de" world_provisioned_before
              eq_refl (fun _ => eq_refl)
              (proj2 (proj2 (proj2 provisioned_before_distinct)))
              (proj1 provisioned_before_distinct)
              (proj1 (proj2 (proj2 provisioned_before_distinct)))
              (proj1 (proj2 provisioned_before_distinct)))
    as (w' & Hrun & Hkeep).
  exists w'. split; [exact Hrun|]. apply Hkeep.
  - left. reflexivity.
  - vm_compute. discriminate.
Defined.


Lemma failed_creation_is_not_rolled_back_witness :
  exists e w',
    setup_webhook sample_config false "acme" sample_callback "secret" true
                  "c0de" world_losing_creation = (Raise e, w')
    /\ titled "Keep-5f2c&tenant=acme" w' = []
    /\ event_definitions w' = [sample_definition 1 "DEFAULT" [7]].
Proof.
  destruct (@failed_creation_is_not_rolled_back sample_config false "acme"
              sample_callback "secret" true "c0de" world_losing_creation
              (Notification.mk 7 "Keep-5f2c&tenant=acme" ""
                 (http_notification_v1 sample_callback)))
    as (e & w' & Hrun & Htitled & Hdefs & _).
  - reflexivity.
  - cbn. lia.
  - eexists. split; [left; reflexivity|reflexivity].
  - vm_compute. reflexivity.
  - intros k Hk. destruct k as [|[|[|[|k]]]]; try reflexivity. lia.
  - cbn. discriminate.
  - exists e, w'. split; [exact Hrun|]. split; [exact Htitled|exact Hdefs].
Defined.

Lemma sample_rules_conform : Migration.conforms sample_rules.
Proof. intros r [<-|[<-|[]]]; reflexivity. Qed.

Lemma upgrade_adds_the_flag_witness :
  exists db' t',
    Migration.upgrade sample_database = Migration.Done db'
    /\ Migration.rules_table db' = Some t'
    /\ Migration.rows t'
       = [[("id", Migration.SqlText "r1");
           ("enabled", Migration.SqlBool true);
           ("is_provisioned", Migration.SqlBool false)];
          [("id", Migration.SqlText "r2");
           ("enabled", Migration.SqlBool false);
           ("is_provisioned", Migration.SqlBool false)]].
Proof.
  destruct (@upgrade_adds_the_flag sample_database sample_rules eq_refl
              eq_refl sample_rules_conform)
    as (db' & t' & Hrun & Ht & _ & Hrows & _).
  exists db', t'. split; [exact Hrun|]. split; [exact Ht|exact Hrows].
Defined.

Lemma downgrade_undoes_upgrade_witness :
  Migration.then_ (Migration.upgrade sample_database) Migration.downgrade
  = Migration.Done sample_database.
Proof.
  exact (@downgrade_undoes_upgrade sample_database sample_rules eq_refl
           eq_refl sample_rules_conform).
Defined.
